(** * Document redaction app: a shallow embedding and its properties

    The development follows the repository layout:

    - [PyStr]: the few Python string and path primitives the backend uses
      ([str.lower], [str.endswith], [str.startswith], [os.path.splitext]).
    - [FormatHandlers]: the handler classes of
      [backend/format_handlers/*.py] and the format detection utilities, as
      given in [backendchanges.md].
    - [Backend]: the [/api/redact-document] endpoint ([redact_documents]).
    - [Frontend]: the delta-table write / poll logic of
      [frontend/src/app/document-intelligence/page.tsx].
    - [RedactionEngine]: the substitution algorithm of the design document
      (section 4.3), whose body is not part of the sources. *)

From Stdlib Require Import String Ascii List Bool Arith ZArith Lia.
From Stdlib Require Import Permutation Sorted OrdersEx DecimalString.
From Equations Require Import Equations.
Import ListNotations.
Open Scope string_scope.
Open Scope list_scope.
Open Scope nat_scope.

(* ===================================================================== *)
(** * Python string primitives *)
(* ===================================================================== *)

Module PyStr.

(** [str.lower()] on ASCII text: 'A'..'Z' are shifted to 'a'..'z' and every
    other character is left as it is.  On a string of ASCII characters
    ([is_ascii] below) this is [str.lower()].  On other text Python also
    lowers the letters outside ASCII, in a way that can depend on the
    neighbouring characters (a final sigma) and can change the length; this
    function does not follow it.  The properties that depend on the result of
    lowering a whole name are stated for ASCII names. *)
Definition lower_ascii (c : ascii) : ascii :=
  let n := nat_of_ascii c in
  if (65 <=? n) && (n <=? 90) then ascii_of_nat (n + 32) else c.

Fixpoint lower (s : string) : string :=
  match s with
  | EmptyString => EmptyString
  | String c s' => String (lower_ascii c) (lower s')
  end.

(** [s.startswith(p)] *)
Definition startswith (s p : string) : bool := String.prefix p s.

(** [s.endswith(suffix)]: the last [len(suffix)] characters of [s] are
    [suffix]. *)
Definition endswith (s suffix : string) : bool :=
  (String.length suffix <=? String.length s) &&
  String.eqb
    (substring (String.length s - String.length suffix) (String.length suffix) s)
    suffix.

(** [s.endswith((a, b, ...))]: the tuple form. *)
Definition endswith_any (s : string) (suffixes : list string) : bool :=
  existsb (endswith s) suffixes.

(** [s.rfind(c)] for a one-character needle: index of the last occurrence,
    [-1] when there is none. *)
Fixpoint rfind_from (c : ascii) (s : string) (i last : Z) : Z :=
  match s with
  | EmptyString => last
  | String a s' => rfind_from c s' (i + 1)%Z (if Ascii.eqb a c then i else last)
  end.

Definition rfind (c : ascii) (s : string) : Z := rfind_from c s 0%Z (-1)%Z.

(** Slices [p[i:j]] and [p[i:]] for indices that are already in range. *)
Definition slice (p : string) (i j : Z) : string :=
  substring (Z.to_nat i) (Z.to_nat (j - i)) p.

Definition slice_from (p : string) (i : Z) : string :=
  substring (Z.to_nat i) (String.length p - Z.to_nat i) p.

(** The [while filenameIndex < dotIndex] loop of [genericpath._splitext]:
    is some character of the scanned range not a dot? *)
Fixpoint has_non_dot (s : string) : bool :=
  match s with
  | EmptyString => false
  | String a s' => if Ascii.eqb a "." then has_non_dot s' else true
  end.

(** [os.path.splitext(p)] (posixpath: separator '/', no alternative
    separator, extension separator '.').  The extension starts at the last
    dot of the last path component, leading dots of that component being
    skipped. *)
Definition splitext (p : string) : string * string :=
  let sepIndex := rfind "/" p in
  let dotIndex := rfind "." p in
  if (sepIndex <? dotIndex)%Z && has_non_dot (slice p (sepIndex + 1) dotIndex)
  then (slice p 0 dotIndex, slice_from p dotIndex)
  else (p, EmptyString).

(** [str.strip()] on ASCII text yields the empty string exactly when every
    character is white space (space, \t, \n, \v, \f, \r and the separators
    28..31).  Python also strips the white space outside ASCII (U+00A0,
    U+0085, U+2000..U+200A, U+3000, ...), which [is_space] does not know: the
    two agree on ASCII text, and a text with a visible ASCII character
    ([has_visible] below) is not blank for either. *)
Definition is_space (c : ascii) : bool :=
  let n := nat_of_ascii c in
  (n =? 32) || ((9 <=? n) && (n <=? 13)) || ((28 <=? n) && (n <=? 31)).

Fixpoint strip_is_empty (s : string) : bool :=
  match s with
  | EmptyString => true
  | String c s' => is_space c && strip_is_empty s'
  end.

(** The text is made of ASCII characters only. *)
Definition is_ascii_char (c : ascii) : bool := nat_of_ascii c <? 128.

Fixpoint is_ascii (s : string) : bool :=
  match s with
  | EmptyString => true
  | String c s' => is_ascii_char c && is_ascii s'
  end.

(** The text has an ASCII character that is not white space. *)
Fixpoint has_visible (s : string) : bool :=
  match s with
  | EmptyString => false
  | String c s' => (is_ascii_char c && negb (is_space c)) || has_visible s'
  end.

(** [str(n)] for a natural number. *)
Definition str_of_nat (n : nat) : string :=
  NilEmpty.string_of_uint (Nat.to_uint n).

Lemma has_visible_not_blank (s : string) :
  has_visible s = true -> strip_is_empty s = false.
Proof.
  induction s as [|c s IH]; simpl; [discriminate|].
  destruct (is_space c); [|reflexivity].
  rewrite andb_false_r. simpl. exact IH.
Qed.

Example lower_ex : lower "Report.MD" = "report.md".
Proof. reflexivity. Qed.

Example endswith_ex : endswith "report.md" ".md" = true /\ endswith "md" ".md" = false.
Proof. split; reflexivity. Qed.

Example splitext_ex :
  splitext "/Volumes/a.b/report.final.xlsx" = ("/Volumes/a.b/report.final", ".xlsx")
  /\ splitext "/Volumes/a.b/report" = ("/Volumes/a.b/report", "")
  /\ splitext "dir/.md" = ("dir/.md", "")
  /\ splitext "archive.zip" = ("archive", ".zip").
Proof. repeat split; reflexivity. Qed.

Example str_of_nat_ex : str_of_nat 0 = "0" /\ str_of_nat 12 = "12".
Proof. split; reflexivity. Qed.

End PyStr.

(* ===================================================================== *)
(** * Format handlers and format detection *)
(* ===================================================================== *)

Module FormatHandlers.
Import PyStr.

(** The concrete subclasses of [BaseFormatHandler]. *)
Inductive FormatHandler : Type :=
| MarkdownHandler
| ExcelHandler
| PowerPointHandler.

Definition xlsx_mime : string :=
  "application/vnd.openxmlformats-officedocument.spreadsheetml.sheet".
Definition pptx_mime : string :=
  "application/vnd.openxmlformats-officedocument.presentationml.presentation".

(** [MarkdownHandler.can_handle] *)
Definition markdown_can_handle (file_path mime_type : string) : bool :=
  endswith (lower file_path) ".md" || String.eqb mime_type "text/markdown".

(** [ExcelHandler.can_handle] *)
Definition excel_can_handle (file_path mime_type : string) : bool :=
  endswith_any (lower file_path) [".xlsx"; ".xls"]
  || existsb (String.eqb mime_type) [xlsx_mime].

(** [PowerPointHandler.can_handle] *)
Definition powerpoint_can_handle (file_path mime_type : string) : bool :=
  endswith_any (lower file_path) [".pptx"; ".ppt"]
  || String.eqb mime_type pptx_mime.

(** Method dispatch of [handler.can_handle(file_path, mime_type)]. *)
Definition can_handle (h : FormatHandler) : string -> string -> bool :=
  match h with
  | MarkdownHandler => markdown_can_handle
  | ExcelHandler => excel_can_handle
  | PowerPointHandler => powerpoint_can_handle
  end.

(** [handler.get_supported_extensions()] *)
Definition get_supported_extensions (h : FormatHandler) : list string :=
  match h with
  | MarkdownHandler => [".md"; ".markdown"]
  | ExcelHandler => [".xlsx"; ".xls"]
  | PowerPointHandler => [".pptx"; ".ppt"]
  end.

(** The two tests a handler's [can_handle] is made of, named so that the
    properties below can speak about them: the suffixes it looks for at the
    end of the lower-cased path, and the MIME types it accepts. *)
Definition extension_suffixes (h : FormatHandler) : list string :=
  match h with
  | MarkdownHandler => [".md"]
  | ExcelHandler => [".xlsx"; ".xls"]
  | PowerPointHandler => [".pptx"; ".ppt"]
  end.

Definition accepted_mime_types (h : FormatHandler) : list string :=
  match h with
  | MarkdownHandler => ["text/markdown"]
  | ExcelHandler => [xlsx_mime]
  | PowerPointHandler => [pptx_mime]
  end.

Definition extension_match (h : FormatHandler) (file_path : string) : bool :=
  existsb (endswith (lower file_path)) (extension_suffixes h).

Definition mime_match (h : FormatHandler) (mime_type : string) : bool :=
  existsb (String.eqb mime_type) (accepted_mime_types h).

(** [dict.get(key, default)] on an association list. *)
Fixpoint dict_get {V : Type} (d : list (string * V)) (key : string) : option V :=
  match d with
  | [] => None
  | (k, v) :: d' => if String.eqb k key then Some v else dict_get d' key
  end.

Definition format_mapping : list (string * string) :=
  [ (".md", "markdown"); (".markdown", "markdown");
    (".xlsx", "excel"); (".xls", "excel");
    (".pptx", "powerpoint"); (".ppt", "powerpoint");
    (".pdf", "pdf") ].

(** [detect_file_format] of [backend/utils/format_detection.py]. *)
Definition detect_file_format (file_path : string) : string :=
  let ext := snd (splitext (lower file_path)) in
  match dict_get format_mapping ext with
  | Some f => f
  | None => "unknown"
  end.

(** The registry [FORMAT_HANDLERS] of [app.py]. *)
Definition FORMAT_HANDLERS : list (string * FormatHandler) :=
  [ ("markdown", MarkdownHandler);
    ("excel", ExcelHandler);
    ("powerpoint", PowerPointHandler) ].

(** [get_format_handler]: [FORMAT_HANDLERS.get(format_type)]. *)
Definition get_format_handler (format_type : string) : option FormatHandler :=
  dict_get FORMAT_HANDLERS format_type.

Example detect_ex :
  detect_file_format "/Volumes/c/s/v/Deck.PPTX" = "powerpoint"
  /\ detect_file_format "/Volumes/c/s/v/bundle.zip" = "unknown"
  /\ detect_file_format "/Volumes/c/s/v/scan.pdf" = "pdf".
Proof. repeat split; reflexivity. Qed.

Example handler_ex :
  get_format_handler (detect_file_format "notes.md") = Some MarkdownHandler
  /\ get_format_handler (detect_file_format "bundle.zip") = None
  /\ get_format_handler (detect_file_format "scan.pdf") = None.
Proof. repeat split; reflexivity. Qed.

(** ** Properties of [can_handle] *)

Lemma can_handle_unfold (h : FormatHandler) (file_path mime_type : string) :
  can_handle h file_path mime_type
  = (extension_match h file_path || mime_match h mime_type).
Proof.
  destruct h; unfold extension_match, mime_match; simpl;
    unfold markdown_can_handle, excel_can_handle, powerpoint_can_handle,
      endswith_any; simpl;
    rewrite ?orb_false_r; reflexivity.
Qed.

(** C8 (as the handlers behave). [can_handle] accepts a file exactly when
    the lower-cased path ends in one of the handler's suffixes or the
    declared MIME type is one of the handler's.  The two tests are joined by
    [or]: a matching extension accepts the file whatever the MIME type, and
    a matching MIME type accepts it whatever the extension.  So whenever the
    two tests disagree the answer is [true]: the extension does not take
    precedence over the MIME type.  A file whose extension belongs to one
    handler and whose MIME type belongs to another is accepted by both. *)
Theorem can_handle_accepts_either_match :
  forall (h : FormatHandler) (file_path mime_type : string),
    (can_handle h file_path mime_type = true
     <-> (exists suffix, In suffix (extension_suffixes h)
                         /\ endswith (lower file_path) suffix = true)
         \/ In mime_type (accepted_mime_types h))
    /\ (extension_match h file_path <> mime_match h mime_type ->
        can_handle h file_path mime_type = true)
    /\ (forall h',
          extension_match h file_path = true ->
          mime_match h' mime_type = true ->
          can_handle h file_path mime_type = true
          /\ can_handle h' file_path mime_type = true).
Proof.
  intros h file_path mime_type. split; [|split].
  - rewrite can_handle_unfold, orb_true_iff. unfold extension_match, mime_match.
    rewrite !existsb_exists. split.
    + intros [(suffix & Hin & He)|(m & Hin & Hm)].
      * left. now exists suffix.
      * right. apply String.eqb_eq in Hm. now subst m.
    + intros [(suffix & Hin & He)|Hin].
      * left. now exists suffix.
      * right. exists mime_type. split; [exact Hin|apply String.eqb_refl].
  - rewrite can_handle_unfold.
    destruct (extension_match h file_path), (mime_match h mime_type);
      intros H; try reflexivity; now contradiction H.
  - intros h' He Hm. rewrite !can_handle_unfold, He, Hm.
    split; [reflexivity|apply orb_true_r].
Qed.

(** A Markdown path declared as a presentation: the PowerPoint handler's
    extension test fails, its MIME test succeeds, and it takes the file. *)
Lemma can_handle_accepts_either_match_witness :
  extension_match PowerPointHandler "notes.md" = false
  /\ mime_match PowerPointHandler pptx_mime = true
  /\ can_handle PowerPointHandler "notes.md" pptx_mime = true.
Proof.
  split; [reflexivity|]. split; [reflexivity|].
  apply (proj1 (proj2 (can_handle_accepts_either_match
                         PowerPointHandler "notes.md" pptx_mime))).
  discriminate.
Defined.

(** C8, counterexample. The extension of "notes.md" is the Markdown
    handler's and not the PowerPoint handler's, the declared MIME type is the
    PowerPoint handler's: on this conflict the PowerPoint handler answers
    with the outcome of its MIME test, not of its extension test, and both
    handlers accept the file. *)
Lemma mime_match_overrides_extension :
  extension_match MarkdownHandler "notes.md" = true
  /\ extension_match PowerPointHandler "notes.md" = false
  /\ mime_match PowerPointHandler pptx_mime = true
  /\ can_handle PowerPointHandler "notes.md" pptx_mime
     <> extension_match PowerPointHandler "notes.md"
  /\ can_handle MarkdownHandler "notes.md" pptx_mime = true
  /\ can_handle PowerPointHandler "notes.md" pptx_mime = true.
Proof.
  repeat split. discriminate.
Qed.

(** The Markdown handler advertises ".markdown" among its extensions, and
    [detect_file_format] maps it to "markdown", but [can_handle] only looks
    for ".md". *)
Example markdown_extension_not_matched :
  In ".markdown" (get_supported_extensions MarkdownHandler)
  /\ detect_file_format "notes.markdown" = "markdown"
  /\ can_handle MarkdownHandler "notes.markdown" "" = false.
Proof. repeat split; simpl; auto. Qed.

(** The fall-back is per handler: a Markdown path declared as a
    presentation is taken by the Markdown handler through its extension and
    by the PowerPoint handler through the MIME type. *)
Example mime_fallback_accepts_foreign_extension :
  can_handle MarkdownHandler "notes.md" pptx_mime = true
  /\ extension_match PowerPointHandler "notes.md" = false
  /\ can_handle PowerPointHandler "notes.md" pptx_mime = true.
Proof. repeat split. Qed.

End FormatHandlers.

(* ===================================================================== *)
(** * The redaction endpoint of the backend *)
(* ===================================================================== *)

Module Backend.
Import PyStr FormatHandlers.

(** A Python call either returns a value or raises; [str(e)] is all the
    endpoint ever looks at. *)
Inductive pyresult (A : Type) : Type :=
| Return (a : A)
| Raise (e : string).
Arguments Return {A} a.
Arguments Raise {A} e.

Definition bind {A B : Type} (m : pyresult A) (k : A -> pyresult B) : pyresult B :=
  match m with
  | Return a => k a
  | Raise e => Raise e
  end.

Notation "x <- m ;; k" := (bind m (fun x => k))
  (at level 61, m at next level, right associativity).

(** What a FastAPI route hands back: a JSON body, or an [HTTPException]. *)
Inductive http (A : Type) : Type :=
| Ok200 (body : A)
| HTTPException (status_code : nat) (detail : string).
Arguments Ok200 {A} body.
Arguments HTTPException {A} status_code detail.

(** The entity dictionary returned by the NER step, in insertion order. *)
Definition EntityMap : Type := list (string * string).

(** One element of [redacted_files]. *)
Record RedactedFile : Type := {
  original_file : string;
  redacted_file : string;
  entities_count : nat;
  entities : option EntityMap;
  status : string;
  format : string
}.

Record RedactDocumentRequest : Type := {
  file_paths : list string;
  file_types : list string
}.

Record RedactResponse : Type := {
  success : bool;
  message : string;
  redacted_files : list RedactedFile
}.

(** A row of [result.result.data_array]; SQL NULL is [None]. *)
Definition Row : Type := list (option string).

Definition opt_to_list {A : Type} (o : option A) : list A :=
  match o with
  | Some a => [a]
  | None => []
  end.

Section Endpoint.

(** The collaborators of [redact_documents] that live outside the sources:
    the workspace client [w], the configured warehouse, the delta table
    path, the SQL statement execution (keyed by table, path and warehouse,
    which determine the statement text; [None] stands for a missing
    [result.result] or [data_array]), the NER entity extraction, and the
    handlers' [redact_content]. *)
Variable w : bool.
Variable current_warehouse_id : option string.
Variable get_delta_table_path : pyresult string.
Variable execute_statement : string -> string -> string -> pyresult (option (list Row)).
Variable extract_entities_for_redaction : string -> pyresult EntityMap.
Variable redact_content : FormatHandler -> string -> EntityMap -> pyresult string.

(** ['dbfs:' + p if p.startswith('/Volumes/') else p] *)
Definition dbfs_path_of (original_file_path : string) : string :=
  if startswith original_file_path "/Volumes/"
  then String.append "dbfs:" original_file_path
  else original_file_path.

(** [data_array[0][0]] *)
Definition first_cell (row : Row) : pyresult (option string) :=
  match row with
  | [] => Raise "list index out of range"
  | c :: _ => Return c
  end.

(** The body of the [for original_file_path in request.file_paths] loop.
    [Return None] is a [continue] that appended nothing, [Return (Some r)]
    an iteration that appended [r], [Raise e] an exception that leaves the
    loop. *)
Definition process_document (destination_table warehouse_id original_file_path : string)
  : pyresult (option RedactedFile) :=
  let file_format := detect_file_format original_file_path in
  match get_format_handler file_format with
  | None => Return None
  | Some handler =>
      let dbfs_path := dbfs_path_of original_file_path in
      result <- execute_statement destination_table dbfs_path warehouse_id ;;
      match result with
      | None => Return None
      | Some [] => Return None
      | Some (row :: _) =>
          cell <- first_cell row ;;
          match cell with
          | None => Return None
          | Some content =>
              if strip_is_empty content then Return None
              else
                entities_to_redact <- extract_entities_for_redaction content ;;
                match entities_to_redact with
                | [] =>
                    Return (Some {| original_file := original_file_path;
                                    redacted_file := original_file_path;
                                    entities_count := 0;
                                    entities := None;
                                    status := "no_entities_found";
                                    format := file_format |})
                | _ :: _ =>
                    redacted_path <-
                      redact_content handler original_file_path entities_to_redact ;;
                    Return (Some {| original_file := original_file_path;
                                    redacted_file := redacted_path;
                                    entities_count := List.length entities_to_redact;
                                    entities := Some entities_to_redact;
                                    status := "redacted";
                                    format := file_format |})
                end
          end
      end
  end.

(** The loop itself, with the accumulator [redacted_files]. *)
Fixpoint redact_loop (destination_table warehouse_id : string)
    (paths : list string) (redacted_files : list RedactedFile)
  : pyresult (list RedactedFile) :=
  match paths with
  | [] => Return redacted_files
  | p :: rest =>
      out <- process_document destination_table warehouse_id p ;;
      redact_loop destination_table warehouse_id rest
        (redacted_files ++ opt_to_list out)
  end.

Definition success_message (n : nat) : string :=
  String.append "Successfully processed "
    (String.append (str_of_nat n) " file(s) for redaction").

(** [redact_documents]: the three configuration checks, then the loop inside
    the single [try ... except Exception] of the endpoint. *)
Definition redact_documents (request : RedactDocumentRequest)
  : http RedactResponse :=
  if negb w then
    HTTPException 500 "Databricks connection is not configured."
  else
    match current_warehouse_id with
    | None => HTTPException 500 "DATABRICKS_WAREHOUSE_ID is not set."
    | Some EmptyString => HTTPException 500 "DATABRICKS_WAREHOUSE_ID is not set."
    | Some warehouse_id =>
        match file_paths request with
        | [] => HTTPException 400 "file_paths is required"
        | _ :: _ =>
            match (destination_table <- get_delta_table_path ;;
                   redact_loop destination_table warehouse_id
                     (file_paths request) []) with
            | Return files =>
                Ok200 {| success := true;
                         message := success_message (List.length files);
                         redacted_files := files |}
            | Raise e =>
                HTTPException 500
                  (String.append "Failed to redact documents: " e)
            end
        end
    end.

(** The endpoint is configured: [w] and the warehouse id are set and the
    delta table path resolves to [destination_table]. *)
Definition configured (destination_table warehouse_id : string) : Prop :=
  w = true
  /\ current_warehouse_id = Some warehouse_id
  /\ warehouse_id <> EmptyString
  /\ get_delta_table_path = Return destination_table.

(** ** The loop as a traversal *)

Lemma redact_loop_app (d wh : string) (l1 l2 : list string) (acc : list RedactedFile) :
  redact_loop d wh (l1 ++ l2) acc
  = (acc' <- redact_loop d wh l1 acc ;; redact_loop d wh l2 acc').
Proof.
  revert acc. induction l1 as [|p l1 IH]; intros acc; simpl.
  - reflexivity.
  - destruct (process_document d wh p) as [out|e]; simpl; [apply IH | reflexivity].
Qed.

(** A run of the loop that returns has processed every path on its own, and
    its result is the accumulator followed by what the iterations appended,
    in order. *)
Lemma redact_loop_returns (d wh : string) (paths : list string) :
  forall (acc files : list RedactedFile),
    redact_loop d wh paths acc = Return files ->
    exists outs : list (option RedactedFile),
      Forall2 (fun p o => process_document d wh p = Return o) paths outs
      /\ files = acc ++ flat_map opt_to_list outs.
Proof.
  induction paths as [|p rest IH]; intros acc files H; simpl in H.
  - exists []. split; [constructor|]. inversion H. simpl. now rewrite app_nil_r.
  - destruct (process_document d wh p) as [out|e] eqn:Hp; simpl in H; [|discriminate].
    destruct (IH _ _ H) as (outs & HF & ->).
    exists (out :: outs). split; [constructor; assumption|].
    simpl. now rewrite <- app_assoc.
Qed.

(** An iteration that raises makes the whole loop raise. *)
Lemma redact_loop_raises (d wh : string) (paths : list string) :
  forall (acc : list RedactedFile) (p e : string),
    In p paths -> process_document d wh p = Raise e ->
    exists e', redact_loop d wh paths acc = Raise e'.
Proof.
  induction paths as [|q rest IH]; intros acc p e Hin Hp; [destruct Hin|].
  simpl. destruct (process_document d wh q) as [out|e0] eqn:Hq; simpl.
  - destruct Hin as [->|Hin]; [congruence|]. eapply IH; eassumption.
  - now exists e0.
Qed.


Lemma process_document_status (d wh p : string) (r : RedactedFile) :
  process_document d wh p = Return (Some r) ->
  original_file r = p
  /\ (status r = "redacted" \/ status r = "no_entities_found").
Proof.
  unfold process_document.
  destruct (get_format_handler (detect_file_format p)) as [h|]; [|discriminate].
  destruct (execute_statement d _ wh) as [[[|row rows]|]|e]; simpl; try discriminate.
  destruct (first_cell row) as [[content|]|e]; simpl; try discriminate.
  destruct (strip_is_empty content); [discriminate|].
  destruct (extract_entities_for_redaction content) as [[|kv ents]|e]; simpl;
    try discriminate.
  - intros H; inversion H; subst; simpl. auto.
  - destruct (redact_content h p (kv :: ents)) as [rp|e]; simpl; [|discriminate].
    intros H; inversion H; subst; simpl. auto.
Qed.

Lemma appended_results_come_from_documents (d wh : string)
    (paths : list string) (outs : list (option RedactedFile)) (r : RedactedFile) :
  Forall2 (fun p o => process_document d wh p = Return o) paths outs ->
  In r (flat_map opt_to_list outs) ->
  exists p, In p paths /\ process_document d wh p = Return (Some r).
Proof.
  induction 1 as [|p o paths outs Hp HF IH]; simpl; [intros []|].
  rewrite in_app_iff. intros [Hin|Hin].
  - destruct o as [r'|]; simpl in Hin; [|destruct Hin].
    destruct Hin as [->|[]]. exists p. auto.
  - destruct (IH Hin) as (q & Hq & Hr). exists q. auto.
Qed.

Lemma redact_documents_ok_inv (request : RedactDocumentRequest) (resp : RedactResponse) :
  redact_documents request = Ok200 resp ->
  exists d wh,
    configured d wh
    /\ redact_loop d wh (file_paths request) [] = Return (redacted_files resp).
Proof.
  unfold redact_documents, configured.
  destruct w eqn:Hw; simpl; [|discriminate].
  destruct current_warehouse_id as [[|c wh]|] eqn:Hwh; try discriminate.
  destruct (file_paths request) as [|p rest] eqn:Hfp; [discriminate|].
  destruct get_delta_table_path as [d|e] eqn:Hd; cbv beta iota delta [bind];
    [|discriminate].
  destruct (redact_loop d (String c wh) (p :: rest) []) as [files|e] eqn:Hloop;
    [|discriminate].
  intros H; inversion H; subst resp; simpl.
  exists d, (String c wh).
  split; [|exact Hloop].
  split; [reflexivity|]. split; [reflexivity|]. split; [discriminate|reflexivity].
Qed.

(** ** Batches *)


(** ** Paths without a handler *)

(** C4 (as the endpoint behaves). A path whose detected format has no
    registered handler never makes the loop raise and never gets an entry:
    the iteration is a [continue], the loop runs as if the path had not been
    submitted, no returned entry names it, and a request made of that path
    alone is answered with success and an empty [redacted_files]. *)
Theorem redact_documents_skips_unsupported :
  forall (p : string),
    get_format_handler (detect_file_format p) = None ->
    (forall d wh, process_document d wh p = Return None)
    /\ (forall d wh pre post acc,
          redact_loop d wh (pre ++ p :: post) acc = redact_loop d wh (pre ++ post) acc)
    /\ (forall request resp,
          redact_documents request = Ok200 resp ->
          ~ In p (map original_file (redacted_files resp)))
    /\ (forall d wh ft,
          configured d wh ->
          redact_documents {| file_paths := [p]; file_types := ft |}
          = Ok200 {| success := true;
                     message := "Successfully processed 0 file(s) for redaction";
                     redacted_files := [] |}).
Proof.
  intros p Hnone.
  assert (Hskip : forall d wh, process_document d wh p = Return None).
  { intros d wh. unfold process_document. now rewrite Hnone. }
  split; [exact Hskip|]. split; [|split].
  - intros d wh pre post acc. rewrite !redact_loop_app.
    destruct (redact_loop d wh pre acc) as [acc'|e]; simpl; [|reflexivity].
    rewrite Hskip. simpl. now rewrite app_nil_r.
  - intros request resp Hok Hin.
    destruct (redact_documents_ok_inv _ _ Hok) as (d & wh & _ & Hloop).
    destruct (redact_loop_returns _ _ _ _ _ Hloop) as (outs & HF & Hfiles).
    simpl in Hfiles. rewrite Hfiles in Hin.
    apply in_map_iff in Hin. destruct Hin as (r & Hr & Hin).
    destruct (appended_results_come_from_documents _ _ _ _ _ HF Hin) as (q & _ & Hq).
    pose proof (proj1 (process_document_status _ _ _ _ Hq)) as Ho.
    rewrite Hr in Ho. subst q. rewrite Hskip in Hq. discriminate.
  - intros d wh ft (Hw & Hwh & Hne & Hd).
    unfold redact_documents. rewrite Hw, Hwh, Hd. simpl.
    destruct wh as [|c wh]; [congruence|].
    now rewrite Hskip.
Qed.

(** ** Status of a processed document *)

(** The two entries an iteration can append for [p]. *)
Definition no_entities_entry (p : string) : RedactedFile :=
  {| original_file := p;
     redacted_file := p;
     entities_count := 0;
     entities := None;
     status := "no_entities_found";
     format := detect_file_format p |}.

Definition redacted_entry (p redacted_path : string) (M : EntityMap) : RedactedFile :=
  {| original_file := p;
     redacted_file := redacted_path;
     entities_count := List.length M;
     entities := Some M;
     status := "redacted";
     format := detect_file_format p |}.

(** The iteration for a document that has a handler and a stored content
    with a visible character. *)
Lemma process_document_with_content (d wh p content : string) (h : FormatHandler)
    (row : Row) (rows : list Row) (M : EntityMap) :
  get_format_handler (detect_file_format p) = Some h ->
  execute_statement d (dbfs_path_of p) wh = Return (Some ((Some content :: row) :: rows)) ->
  has_visible content = true ->
  extract_entities_for_redaction content = Return M ->
  process_document d wh p
  = match M with
    | [] => Return (Some (no_entities_entry p))
    | _ :: _ =>
        redacted_path <- redact_content h p M ;;
        Return (Some (redacted_entry p redacted_path M))
    end.
Proof.
  intros Hh Hq Hvis Hner. unfold process_document. rewrite Hh, Hq.
  cbv beta iota delta [bind first_cell].
  rewrite (has_visible_not_blank _ Hvis), Hner. now destruct M.
Qed.

(** What an iteration appended is in the answer. *)
Lemma redact_loop_keeps (d wh : string) (paths : list string) :
  forall (acc files : list RedactedFile) (p : string) (r : RedactedFile),
    redact_loop d wh paths acc = Return files ->
    In p paths -> process_document d wh p = Return (Some r) ->
    In r files.
Proof.
  induction paths as [|q rest IH]; intros acc files p r Hloop Hin Hp; [destruct Hin|].
  simpl in Hloop.
  destruct (process_document d wh q) as [out|e] eqn:Hq;
    cbv beta iota delta [bind] in Hloop; [|discriminate].
  destruct Hin as [->|Hin].
  - rewrite Hp in Hq. injection Hq as <-.
    destruct (redact_loop_returns _ _ _ _ _ Hloop) as (outs & _ & ->).
    apply in_or_app. left. apply in_or_app. right. now left.
  - eapply IH; eassumption.
Qed.

(** The loop returns when every iteration does. *)
Lemma redact_loop_total (d wh : string) (paths : list string) :
  (forall q, In q paths -> exists o, process_document d wh q = Return o) ->
  forall acc, exists files, redact_loop d wh paths acc = Return files.
Proof.
  induction paths as [|q rest IH]; intros Hall acc; [now exists acc|].
  simpl. destruct (Hall q (or_introl eq_refl)) as (o & ->).
  cbv beta iota delta [bind]. apply IH. intros q' Hq'. apply Hall. now right.
Qed.

Lemma redact_documents_configured (d wh : string) (request : RedactDocumentRequest) :
  configured d wh ->
  file_paths request <> [] ->
  redact_documents request
  = match redact_loop d wh (file_paths request) [] with
    | Return files =>
        Ok200 {| success := true;
                 message := success_message (List.length files);
                 redacted_files := files |}
    | Raise e => HTTPException 500 (String.append "Failed to redact documents: " e)
    end.
Proof.
  intros (Hw & Hwh & Hne & Hd) Hpaths. unfold redact_documents.
  rewrite Hw, Hwh, Hd. cbn [negb]. destruct wh as [|c wh]; [congruence|].
  destruct (file_paths request) as [|q rest]; [congruence|]. reflexivity.
Qed.

(** C5 (as the endpoint behaves). Take a requested document that has a
    handler and a stored content with a visible character, and let [M] be
    the entity dictionary the NER step returns for that content.  The
    endpoint decides on [M] alone, never on whether a key occurs in the
    text.  Whenever the endpoint answers with a body, the document's entry
    is in it, and it is the only kind of entry for that path: for an empty
    [M], status "no_entities_found", count 0 and the original path as the
    redacted file; for a non-empty [M], status "redacted", the size of [M]
    as the count and the path [redact_content] returned.  The endpoint does
    answer with a body when the document's own steps and those of the other
    documents all return; when [redact_content] raises for the document, or
    any requested document raises, the answer is an HTTP 500 and no status
    at all. *)
Theorem redact_documents_status_follows_entity_map :
  forall (request : RedactDocumentRequest) (d wh p content : string)
         (h : FormatHandler) (row : Row) (rows : list Row) (M : EntityMap),
    configured d wh ->
    In p (file_paths request) ->
    get_format_handler (detect_file_format p) = Some h ->
    execute_statement d (dbfs_path_of p) wh = Return (Some ((Some content :: row) :: rows)) ->
    has_visible content = true ->
    extract_entities_for_redaction content = Return M ->
    (M = [] ->
       (forall resp,
          redact_documents request = Ok200 resp ->
          In (no_entities_entry p) (redacted_files resp)
          /\ (forall r, In r (redacted_files resp) -> original_file r = p ->
                r = no_entities_entry p))
       /\ ((forall q, In q (file_paths request) -> q <> p ->
              exists o, process_document d wh q = Return o) ->
           exists resp, redact_documents request = Ok200 resp))
    /\ (M <> [] ->
        (forall resp,
           redact_documents request = Ok200 resp ->
           exists redacted_path,
             redact_content h p M = Return redacted_path
             /\ In (redacted_entry p redacted_path M) (redacted_files resp)
             /\ (forall r, In r (redacted_files resp) -> original_file r = p ->
                   r = redacted_entry p redacted_path M))
        /\ (forall redacted_path,
              redact_content h p M = Return redacted_path ->
              (forall q, In q (file_paths request) -> q <> p ->
                 exists o, process_document d wh q = Return o) ->
              exists resp, redact_documents request = Ok200 resp)
        /\ (forall e,
              redact_content h p M = Raise e ->
              exists e',
                redact_documents request
                = HTTPException 500 (String.append "Failed to redact documents: " e')))
    /\ (forall q e,
          In q (file_paths request) -> process_document d wh q = Raise e ->
          exists e',
            redact_documents request
            = HTTPException 500 (String.append "Failed to redact documents: " e')).
Proof.
  intros request d wh p content h row rows M Hc Hin Hh Hq Hvis Hner.
  pose proof (process_document_with_content d wh p content h row rows M Hh Hq Hvis Hner)
    as Hp.
  assert (Hpaths : file_paths request <> []) by (intros H0; rewrite H0 in Hin; destruct Hin).
  pose proof (redact_documents_configured d wh request Hc Hpaths) as Hrun.
  assert (Hentries : forall resp e0,
            redact_documents request = Ok200 resp ->
            process_document d wh p = Return (Some e0) ->
            In e0 (redacted_files resp)
            /\ (forall r, In r (redacted_files resp) -> original_file r = p -> r = e0)).
  { intros resp e0 Hok Hp0. rewrite Hrun in Hok.
    destruct (redact_loop d wh (file_paths request) []) as [files|e] eqn:Hloop;
      [|discriminate].
    injection Hok as <-. cbn [redacted_files]. split.
    - eapply redact_loop_keeps; eassumption.
    - intros r Hr Ho.
      destruct (redact_loop_returns _ _ _ _ _ Hloop) as (outs & HF & Hfiles).
      cbn [app] in Hfiles. rewrite Hfiles in Hr.
      destruct (appended_results_come_from_documents _ _ _ _ _ HF Hr) as (q & _ & Hq').
      pose proof (proj1 (process_document_status _ _ _ _ Hq')) as Hoq.
      rewrite Ho in Hoq. subst q. rewrite Hp0 in Hq'. now injection Hq'. }
  assert (Hreturns : forall o,
            process_document d wh p = Return o ->
            (forall q, In q (file_paths request) -> q <> p ->
               exists o', process_document d wh q = Return o') ->
            exists resp, redact_documents request = Ok200 resp).
  { intros o Hp0 Hothers.
    destruct (redact_loop_total d wh (file_paths request)) with (acc := @nil RedactedFile)
      as (files & Hloop).
    - intros q Hq'. destruct (string_dec q p) as [->|Hne]; [now exists o|].
      now apply Hothers.
    - rewrite Hrun, Hloop. eexists. reflexivity. }
  assert (Hraises : forall q e,
            In q (file_paths request) -> process_document d wh q = Raise e ->
            exists e',
              redact_documents request
              = HTTPException 500 (String.append "Failed to redact documents: " e')).
  { intros q e Hq' Hraise.
    destruct (redact_loop_raises d wh _ [] q e Hq' Hraise) as (e' & Hloop).
    exists e'. now rewrite Hrun, Hloop. }
  split; [|split].
  - intros ->. split.
    + intros resp Hok. now apply Hentries.
    + now apply Hreturns with (o := Some (no_entities_entry p)).
  - intros HM. destruct M as [|kv M]; [congruence|]. split; [|split].
    + intros resp Hok.
      destruct (redact_content h p (kv :: M)) as [rp|e] eqn:Hred;
        cbv beta iota delta [bind] in Hp.
      * exists rp. split; [reflexivity|]. now apply Hentries.
      * destruct (Hraises p e Hin Hp) as (e' & He'). congruence.
    + intros rp Hred. rewrite Hred in Hp. cbv beta iota delta [bind] in Hp.
      now apply Hreturns with (o := Some (redacted_entry p rp (kv :: M))).
    + intros e Hred. rewrite Hred in Hp. cbv beta iota delta [bind] in Hp.
      now apply (Hraises p e).
  - exact Hraises.
Qed.

End Endpoint.

(** ** A concrete deployment

    A warehouse in which every path has the same parsed content, an NER step
    that finds one client name, and handlers whose [redact_content] fails on
    one particular workbook (its archive is corrupted) and otherwise writes
    next to the original. *)

Definition demo_execute (table path warehouse_id : string)
  : pyresult (option (list Row)) :=
  Return (Some [[Some "Acme Corp signed the lease."]]).

Definition demo_ner (content : string) : pyresult EntityMap :=
  Return [("Acme Corp", "[CLIENT]")].

Definition demo_redact (h : FormatHandler) (path : string) (M : EntityMap)
  : pyresult string :=
  if String.eqb path "/Volumes/c/s/v/b.xlsx"
  then Raise "File is not a zip file"
  else Return (String.append path ".redacted").

Definition demo_redact_documents : RedactDocumentRequest -> http RedactResponse :=
  redact_documents true (Some "862f1d757f0424f7") (Return "c.s.document_processing")
    demo_execute demo_ner demo_redact.

Definition demo_process_document : string -> string -> string -> pyresult (option RedactedFile) :=
  process_document demo_execute demo_ner demo_redact.

(** An NER step that proposes an entity which is not in the text. *)
Definition stray_ner (content : string) : pyresult EntityMap :=
  Return [("Nonexistent", "[X]")].

Definition batch_of (paths : list string) : RedactDocumentRequest :=
  {| file_paths := paths; file_types := [] |}.



(** C4, counterexample. A submitted archive is answered with success and no
    entry: no result carries the status "unsupported_format". *)
Lemma unsupported_format_has_no_result :
  get_format_handler (detect_file_format "/Volumes/c/s/v/bundle.zip") = None
  /\ demo_redact_documents (batch_of ["/Volumes/c/s/v/bundle.zip"])
     = Ok200 {| success := true;
                message := "Successfully processed 0 file(s) for redaction";
                redacted_files := [] |}
  /\ ~ (exists resp r,
          demo_redact_documents (batch_of ["/Volumes/c/s/v/bundle.zip"]) = Ok200 resp
          /\ In r (redacted_files resp)
          /\ status r = "unsupported_format").
Proof.
  split; [reflexivity|]. split; [reflexivity|].
  intros (resp & r & Hresp & Hin & _).
  vm_compute in Hresp. inversion Hresp; subst resp. destruct Hin.
Qed.

Lemma redact_documents_skips_unsupported_witness :
  get_format_handler (detect_file_format "/Volumes/c/s/v/bundle.zip") = None
  /\ demo_process_document "c.s.document_processing" "862f1d757f0424f7"
       "/Volumes/c/s/v/bundle.zip" = Return None.
Proof.
  split; [reflexivity|].
  apply (proj1 (redact_documents_skips_unsupported
                  true (Some "862f1d757f0424f7") (Return "c.s.document_processing")
                  demo_execute demo_ner demo_redact
                  "/Volumes/c/s/v/bundle.zip" eq_refl)).
Defined.

(** C5, counterexample. The proposed entity does not occur in the stored
    content, yet the endpoint reports the document as "redacted" with one
    entity, and its redacted file is not the original. *)
Lemma unmatched_entity_still_reported_redacted :
  String.index 0 "Nonexistent" "Acme Corp signed the lease." = None
  /\ redact_documents true (Some "862f1d757f0424f7") (Return "c.s.document_processing")
       demo_execute stray_ner demo_redact (batch_of ["/Volumes/c/s/v/a.md"])
     = Ok200 {| success := true;
                message := "Successfully processed 1 file(s) for redaction";
                redacted_files :=
                  [{| original_file := "/Volumes/c/s/v/a.md";
                      redacted_file := "/Volumes/c/s/v/a.md.redacted";
                      entities_count := 1;
                      entities := Some [("Nonexistent", "[X]")];
                      status := "redacted";
                      format := "markdown" |}] |}.
Proof.
  split; reflexivity.
Qed.

(** An NER step that finds nothing. *)
Definition silent_ner (content : string) : pyresult EntityMap := Return [].

(** A batch of a note without entities and an archive without handler. *)
Lemma redact_documents_status_follows_entity_map_witness :
  redact_documents true (Some "862f1d757f0424f7") (Return "c.s.document_processing")
    demo_execute silent_ner demo_redact
    (batch_of ["/Volumes/c/s/v/a.md"; "/Volumes/c/s/v/bundle.zip"])
  = Ok200 {| success := true;
             message := "Successfully processed 1 file(s) for redaction";
             redacted_files := [no_entities_entry "/Volumes/c/s/v/a.md"] |}
  /\ In {| original_file := "/Volumes/c/s/v/a.md";
           redacted_file := "/Volumes/c/s/v/a.md";
           entities_count := 0;
           entities := None;
           status := "no_entities_found";
           format := "markdown" |}
        (redacted_files
           {| success := true;
              message := "Successfully processed 1 file(s) for redaction";
              redacted_files := [no_entities_entry "/Volumes/c/s/v/a.md"] |}).
Proof.
  split; [reflexivity|].
  refine (proj1 (proj1 (proj1 (redact_documents_status_follows_entity_map
            true (Some "862f1d757f0424f7") (Return "c.s.document_processing")
            demo_execute silent_ner demo_redact
            (batch_of ["/Volumes/c/s/v/a.md"; "/Volumes/c/s/v/bundle.zip"])
            "c.s.document_processing" "862f1d757f0424f7" "/Volumes/c/s/v/a.md"
            "Acme Corp signed the lease." MarkdownHandler [] [] []
            _ _ eq_refl eq_refl eq_refl eq_refl) eq_refl) _ eq_refl)).
  - unfold configured. repeat split; try reflexivity. discriminate.
  - simpl. auto.
Defined.

End Backend.

(* ===================================================================== *)
(** * The document-intelligence page: write to the delta table and poll *)
(* ===================================================================== *)

Module Frontend.

(** A row of [/api/query-delta-table] ([any] in the page), kept opaque. *)
Definition DeltaRow : Type := string.

(** The fields of [SelectedFile] the write path reads. *)
Record SelectedFile : Type := {
  name : string;
  isUploaded : bool;
  ucPath : option string
}.

(** The React state the write and poll logic reads and sets. *)
Record PageState : Type := {
  selectedFiles : list SelectedFile;
  deltaTableResults : list DeltaRow;
  deltaTableLoading : bool;
  deltaTableError : option string;
  processedSessionFiles : list string;
  showDeltaTableResults : bool
}.

Definition setDeltaTableResults (v : list DeltaRow) (s : PageState) : PageState :=
  {| selectedFiles := selectedFiles s; deltaTableResults := v;
     deltaTableLoading := deltaTableLoading s; deltaTableError := deltaTableError s;
     processedSessionFiles := processedSessionFiles s;
     showDeltaTableResults := showDeltaTableResults s |}.

Definition setDeltaTableLoading (v : bool) (s : PageState) : PageState :=
  {| selectedFiles := selectedFiles s; deltaTableResults := deltaTableResults s;
     deltaTableLoading := v; deltaTableError := deltaTableError s;
     processedSessionFiles := processedSessionFiles s;
     showDeltaTableResults := showDeltaTableResults s |}.

Definition setDeltaTableError (v : option string) (s : PageState) : PageState :=
  {| selectedFiles := selectedFiles s; deltaTableResults := deltaTableResults s;
     deltaTableLoading := deltaTableLoading s; deltaTableError := v;
     processedSessionFiles := processedSessionFiles s;
     showDeltaTableResults := showDeltaTableResults s |}.

Definition setProcessedSessionFiles (v : list string) (s : PageState) : PageState :=
  {| selectedFiles := selectedFiles s; deltaTableResults := deltaTableResults s;
     deltaTableLoading := deltaTableLoading s; deltaTableError := deltaTableError s;
     processedSessionFiles := v;
     showDeltaTableResults := showDeltaTableResults s |}.

Definition setShowDeltaTableResults (v : bool) (s : PageState) : PageState :=
  {| selectedFiles := selectedFiles s; deltaTableResults := deltaTableResults s;
     deltaTableLoading := deltaTableLoading s; deltaTableError := deltaTableError s;
     processedSessionFiles := processedSessionFiles s;
     showDeltaTableResults := v |}.

(** What the page does to the outside world: POST requests carrying
    [{file_paths, limit}] and timers. *)
Inductive Effect : Type :=
| ApiCall (url : string) (file_paths : list string) (limit : nat)
| SetTimeout (ms : N).

(** The JSON body of a query answer, and the two ways [apiCall] settles. *)
Record QueryResponse : Type := {
  success : bool;
  data : option (list DeltaRow);
  error : option string;
  message : option string
}.

Inductive ApiResult : Type :=
| Resolved (r : QueryResponse)
| Rejected (reason : string).

Definition is_write (e : Effect) : bool :=
  match e with
  | ApiCall url _ _ => String.eqb url "/api/write-to-delta-table"
  | SetTimeout _ => false
  end.

Definition is_query (e : Effect) : bool :=
  match e with
  | ApiCall url _ _ => String.eqb url "/api/query-delta-table"
  | SetTimeout _ => false
  end.

Definition timers (tr : list Effect) : list N :=
  flat_map (fun e => match e with SetTimeout ms => [ms] | ApiCall _ _ _ => [] end) tr.

Definition count_writes (tr : list Effect) : nat := List.length (filter is_write tr).
Definition count_queries (tr : list Effect) : nat := List.length (filter is_query tr).

(** Prefix a run with the effects that happened before it. *)
Definition after (es : list Effect) (r : PageState * list Effect)
  : PageState * list Effect :=
  (fst r, es ++ snd r).

Definition maxAttempts : nat := 30.

Definition still_running_message : string :=
  "Processing is taking longer than expected. The operation may still be running in the background. Try refreshing in a few minutes.".

Definition processing_message : string :=
  "Processing document... This may take 1-2 minutes for large files.".

(** [queryResult.success && queryResult.data && queryResult.data.length > 0] *)
Definition has_results (q : QueryResponse) : option (list DeltaRow) :=
  if success q then
    match data q with
    | Some (r :: rows) => Some (r :: rows)
    | Some [] => None
    | None => None
    end
  else None.

(** The rows a settled query makes the poll loop stop on, if any. *)
Definition found (r : ApiResult) : option (list DeltaRow) :=
  match r with
  | Resolved q => has_results q
  | Rejected _ => None
  end.

(** [pollForResults], the closure of [writeToDeltaTable].  [backend n] is how
    the query issued by the attempt with [attemptCount = n] settles.  The
    recursion goes through [setTimeout]; it is well founded because the
    number of attempts left decreases. *)
#[local] Opaque maxAttempts.

Equations? pollForResults (backend : nat -> ApiResult) (filePaths : list string)
    (attemptCount : nat) (s : PageState) : PageState * list Effect
    by wf (maxAttempts - attemptCount) lt :=
  pollForResults backend filePaths attemptCount s
    with le_lt_dec maxAttempts attemptCount := {
    | left Hge :=
        (setDeltaTableLoading false
           (setDeltaTableError (Some still_running_message) s), []);
    | right Hlt with backend attemptCount := {
        | Resolved queryResult with has_results queryResult := {
            | Some rows :=
                (setDeltaTableLoading false
                   (setDeltaTableError None (setDeltaTableResults rows s)),
                 [ApiCall "/api/query-delta-table" filePaths 10]);
            | None :=
                after [ApiCall "/api/query-delta-table" filePaths 10; SetTimeout 10000%N]
                  (pollForResults backend filePaths (S attemptCount) s) };
        | Rejected _ :=
            after [ApiCall "/api/query-delta-table" filePaths 10; SetTimeout 10000%N]
              (pollForResults backend filePaths (S attemptCount) s) } }.
Proof. all: lia. Qed.

#[local] Transparent maxAttempts.

(** The synchronous part of [writeToDeltaTable]: the fire-and-forget write
    request, the state updates, and the timer that starts the polling. *)
Definition writeToDeltaTable_start (filePaths : list string) (s : PageState)
  : PageState * list Effect :=
  let s := setDeltaTableError None s in
  let s := setDeltaTableLoading true s in
  let s := setProcessedSessionFiles filePaths s in
  let s := setShowDeltaTableResults true s in
  let s := setDeltaTableResults [] s in
  let s := setDeltaTableError (Some processing_message) s in
  (s, [ApiCall "/api/write-to-delta-table" filePaths 10; SetTimeout 1000%N]).

(** [writeToDeltaTable] together with the polling it starts. *)
Definition writeToDeltaTable (backend : nat -> ApiResult) (filePaths : list string)
    (s : PageState) : PageState * list Effect :=
  let '(s1, es) := writeToDeltaTable_start filePaths s in
  after es (pollForResults backend filePaths 0 s1).

(** JavaScript truthiness of an optional string. *)
Definition truthy (o : option string) : bool :=
  match o with
  | Some EmptyString => false
  | Some _ => true
  | None => false
  end.

Definition uploadedPaths (s : PageState) : list string :=
  flat_map (fun f => match ucPath f with Some p => [p] | None => [] end)
    (filter (fun f => isUploaded f && truthy (ucPath f)) (selectedFiles s)).

(** The synchronous part of [handleWriteToDeltaTable]. *)
Definition handleWriteToDeltaTable_start (s : PageState) : PageState * list Effect :=
  match uploadedPaths s with
  | [] =>
      (setDeltaTableError
         (Some "No uploaded files found. Please upload files first.") s, [])
  | filePaths => writeToDeltaTable_start filePaths s
  end.

(** The [disabled] attribute of the "Write to Delta Table" button. *)
Definition writeButtonDisabled (s : PageState) : bool :=
  deltaTableLoading s
  || (List.length (filter isUploaded (selectedFiles s)) =? 0).

(** A click on the button: a disabled button does not call [onClick]. *)
Definition clickWriteToDeltaTable (s : PageState) : PageState * list Effect :=
  if writeButtonDisabled s then (s, []) else handleWriteToDeltaTable_start s.

(** [String.prototype.includes] *)
Definition includes (s sub : string) : bool :=
  match String.index 0 sub s with
  | Some _ => true
  | None => false
  end.

(** The message shown by the [catch] block of [queryDeltaTableResults]. *)
Definition friendlyQueryError (errorMessage : string) : string :=
  if includes errorMessage "504" || includes errorMessage "timeout"
     || includes errorMessage "upstream request timeout"
  then "The query is taking longer than expected. Please by patient."
  else if includes errorMessage "500" || includes errorMessage "Internal Server Error"
  then "There was a server error querying your data. Please check your configuration and try again."
  else if includes errorMessage "network" || includes errorMessage "fetch"
  then "Network error occurred. Please check your connection and try again."
  else errorMessage.

(** [result.error || result.message || "Query failed"] *)
Definition thrownMessage (q : QueryResponse) : string :=
  match error q, message q with
  | Some (String c e), _ => String c e
  | _, Some (String c m) => String c m
  | _, _ => "Query failed"
  end.

(** [queryDeltaTableResults]: one query for the files of the session;
    [result] is how the request settles. *)
Definition queryDeltaTableResults (result : ApiResult) (s : PageState)
  : PageState * list Effect :=
  match processedSessionFiles s with
  | [] => (setDeltaTableResults [] s, [])
  | files =>
      let s := setDeltaTableLoading true s in
      let s := setDeltaTableError None s in
      let caught (msg : string) (s : PageState) :=
        setDeltaTableResults [] (setDeltaTableError (Some (friendlyQueryError msg)) s) in
      let s :=
        match result with
        | Resolved q =>
            if success q
            then setDeltaTableResults (match data q with Some d => d | None => [] end) s
            else caught (thrownMessage q) s
        | Rejected msg => caught msg s
        end in
      (setDeltaTableLoading false s, [ApiCall "/api/query-delta-table" files 20])
  end.

(** ** Unfolding the poll loop *)

Definition expired (s : PageState) : PageState :=
  setDeltaTableLoading false (setDeltaTableError (Some still_running_message) s).

Definition showing (rows : list DeltaRow) (s : PageState) : PageState :=
  setDeltaTableLoading false (setDeltaTableError None (setDeltaTableResults rows s)).

Definition query_effect (filePaths : list string) : Effect :=
  ApiCall "/api/query-delta-table" filePaths 10.

Lemma poll_out_of_attempts backend filePaths attemptCount s :
  maxAttempts <= attemptCount ->
  pollForResults backend filePaths attemptCount s = (expired s, []).
Proof.
  intros H. simp pollForResults.
  destruct (le_lt_dec maxAttempts attemptCount) as [Hge|Hlt]; [reflexivity|lia].
Qed.

Lemma poll_found backend filePaths attemptCount s rows :
  attemptCount < maxAttempts ->
  found (backend attemptCount) = Some rows ->
  pollForResults backend filePaths attemptCount s
  = (showing rows s, [query_effect filePaths]).
Proof.
  intros H Hf. simp pollForResults.
  destruct (le_lt_dec maxAttempts attemptCount) as [Hge|Hlt]; [lia|].
  simpl. destruct (backend attemptCount) as [q|msg]; simpl in *; [|discriminate].
  rewrite Hf. reflexivity.
Qed.

Lemma poll_retry backend filePaths attemptCount s :
  attemptCount < maxAttempts ->
  found (backend attemptCount) = None ->
  pollForResults backend filePaths attemptCount s
  = after [query_effect filePaths; SetTimeout 10000%N]
      (pollForResults backend filePaths (S attemptCount) s).
Proof.
  intros H Hf. rewrite pollForResults_equation_1.
  destruct (le_lt_dec maxAttempts attemptCount) as [Hge|Hlt]; [lia|].
  simpl. destruct (backend attemptCount) as [q|msg]; simpl in *.
  - rewrite Hf. reflexivity.
  - reflexivity.
Qed.

(** Induction along the attempts: downwards from [maxAttempts]. *)
Lemma attempts_ind (P : nat -> Prop) :
  (forall n, maxAttempts <= n -> P n) ->
  (forall n, n < maxAttempts -> P (S n) -> P n) ->
  forall n, P n.
Proof.
  intros Hstop Hstep n.
  remember (maxAttempts - n) as left eqn:Hleft.
  revert n Hleft. induction left as [|left IH]; intros n Hleft.
  - apply Hstop. lia.
  - apply Hstep; [lia|]. apply IH. lia.
Qed.

Lemma count_queries_after_retry filePaths (r : PageState * list Effect) :
  count_queries (snd (after [query_effect filePaths; SetTimeout 10000%N] r))
  = S (count_queries (snd r)).
Proof. reflexivity. Qed.

Lemma timers_after_retry filePaths (r : PageState * list Effect) :
  timers (snd (after [query_effect filePaths; SetTimeout 10000%N] r))
  = 10000%N :: timers (snd r).
Proof. reflexivity. Qed.

Lemma fst_after es (r : PageState * list Effect) : fst (after es r) = fst r.
Proof. reflexivity. Qed.

(** ** Bounds on a poll run *)

Lemma poll_queries_le backend filePaths s :
  forall attemptCount,
    count_queries (snd (pollForResults backend filePaths attemptCount s))
    <= maxAttempts - attemptCount.
Proof.
  intros n. induction n as [n Hge | n Hlt IH] using attempts_ind.
  - rewrite poll_out_of_attempts by assumption. apply Nat.le_0_l.
  - destruct (found (backend n)) as [rows|] eqn:Hf.
    + rewrite (poll_found _ _ _ _ rows) by assumption.
      change (1 <= maxAttempts - n). lia.
    + rewrite poll_retry by assumption. rewrite count_queries_after_retry. lia.
Qed.

Lemma poll_timers backend filePaths s :
  forall attemptCount,
    Forall (fun ms => ms = 10000%N)
      (timers (snd (pollForResults backend filePaths attemptCount s))).
Proof.
  intros n. induction n as [n Hge | n Hlt IH] using attempts_ind.
  - rewrite poll_out_of_attempts by assumption. constructor.
  - destruct (found (backend n)) as [rows|] eqn:Hf.
    + rewrite (poll_found _ _ _ _ rows) by assumption. constructor.
    + rewrite poll_retry by assumption. rewrite timers_after_retry.
      constructor; [reflexivity | exact IH].
Qed.

(** The run stops at the first attempt whose query has results. *)
Lemma poll_stops_on_first_result backend filePaths s rows :
  forall attemptCount k,
    attemptCount <= k -> k < maxAttempts ->
    found (backend k) = Some rows ->
    (forall j, attemptCount <= j -> j < k -> found (backend j) = None) ->
    fst (pollForResults backend filePaths attemptCount s) = showing rows s
    /\ count_queries (snd (pollForResults backend filePaths attemptCount s))
       = S (k - attemptCount).
Proof.
  intros n. induction n as [n Hge | n Hlt IH] using attempts_ind;
    intros k Hnk Hk Hf Hnone; [lia|].
  destruct (Nat.eq_dec n k) as [->|Hneq].
  - rewrite (poll_found _ _ _ _ rows) by assumption.
    split; [reflexivity|]. rewrite Nat.sub_diag. reflexivity.
  - rewrite poll_retry by (try apply Hnone; lia).
    rewrite fst_after, count_queries_after_retry.
    destruct (IH k) as [Hs Hq]; try lia; try assumption.
    + intros j Hj1 Hj2. apply Hnone; lia.
    + split; [exact Hs|]. rewrite Hq. f_equal. lia.
Qed.

(** Without results within the attempts left, the run ends in the expired
    state, having queried once per attempt left. *)
Lemma poll_expires backend filePaths s :
  forall attemptCount,
    (forall j, attemptCount <= j -> j < maxAttempts -> found (backend j) = None) ->
    fst (pollForResults backend filePaths attemptCount s) = expired s
    /\ count_queries (snd (pollForResults backend filePaths attemptCount s))
       = maxAttempts - attemptCount.
Proof.
  intros n. induction n as [n Hge | n Hlt IH] using attempts_ind; intros Hnone.
  - rewrite poll_out_of_attempts by assumption. split; [reflexivity|].
    change (0 = maxAttempts - n). lia.
  - rewrite poll_retry by (try apply Hnone; lia).
    rewrite fst_after, count_queries_after_retry.
    destruct IH as [Hs Hq]; [intros j Hj1 Hj2; apply Hnone; lia|].
    split; [exact Hs|]. rewrite Hq. lia.
Qed.

(** ** The source's test on an answer, and the effects of a run *)

(** [queryResult.success && queryResult.data && queryResult.data.length > 0]
    holds of a settled request, with [rows] as its data. *)
Definition has_rows (r : ApiResult) (rows : list DeltaRow) : Prop :=
  exists q, r = Resolved q /\ success q = true /\ data q = Some rows /\ rows <> [].

(** The request was rejected, or its answer fails that test. *)
Definition not_yet (r : ApiResult) : Prop :=
  forall q, r = Resolved q -> success q = false \/ data q = None \/ data q = Some [].

(** What [k] attempts that found nothing leave behind: each a query
    followed by the 10 s timer of its retry. *)
Definition retries (filePaths : list string) (k : nat) : list Effect :=
  concat (repeat [ApiCall "/api/query-delta-table" filePaths 10; SetTimeout 10000%N] k).

Lemma found_has_rows (r : ApiResult) (rows : list DeltaRow) :
  has_rows r rows -> found r = Some rows.
Proof.
  intros (q & -> & Hs & Hd & Hne). simpl. unfold has_results. rewrite Hs, Hd.
  destruct rows; [congruence|reflexivity].
Qed.

Lemma found_not_yet (r : ApiResult) : not_yet r -> found r = None.
Proof.
  intros H. destruct r as [q|msg]; [|reflexivity]. simpl. unfold has_results.
  destruct (H q eq_refl) as [Hs|[Hd|Hd]].
  - now rewrite Hs.
  - rewrite Hd. now destruct (success q).
  - rewrite Hd. now destruct (success q).
Qed.

Lemma retries_S (filePaths : list string) (k : nat) :
  retries filePaths (S k)
  = query_effect filePaths :: SetTimeout 10000%N :: retries filePaths k.
Proof. reflexivity. Qed.

Lemma poll_trace_found backend filePaths s rows :
  forall attemptCount k,
    attemptCount <= k -> k < maxAttempts ->
    found (backend k) = Some rows ->
    (forall j, attemptCount <= j -> j < k -> found (backend j) = None) ->
    pollForResults backend filePaths attemptCount s
    = (showing rows s, retries filePaths (k - attemptCount) ++ [query_effect filePaths]).
Proof.
  intros n. induction n as [n Hge | n Hlt IH] using attempts_ind;
    intros k Hnk Hk Hf Hnone; [lia|].
  destruct (Nat.eq_dec n k) as [->|Hneq].
  - rewrite (poll_found _ _ _ _ rows) by assumption.
    rewrite Nat.sub_diag. reflexivity.
  - rewrite poll_retry by (try apply Hnone; lia).
    rewrite (IH k) by (try assumption; try lia; intros j Hj1 Hj2; apply Hnone; lia).
    replace (k - n) with (S (k - S n)) by lia. reflexivity.
Qed.

Lemma poll_trace_expired backend filePaths s :
  forall attemptCount,
    (forall j, attemptCount <= j -> j < maxAttempts -> found (backend j) = None) ->
    pollForResults backend filePaths attemptCount s
    = (expired s, retries filePaths (maxAttempts - attemptCount)).
Proof.
  intros n. induction n as [n Hge | n Hlt IH] using attempts_ind; intros Hnone.
  - rewrite poll_out_of_attempts by assumption.
    replace (maxAttempts - n) with 0 by lia. reflexivity.
  - rewrite poll_retry by (try apply Hnone; lia).
    rewrite IH by (intros j Hj1 Hj2; apply Hnone; lia).
    replace (maxAttempts - n) with (S (maxAttempts - S n)) by lia. reflexivity.
Qed.

Lemma poll_trace_any backend filePaths s :
  forall attemptCount,
    exists k,
      k <= maxAttempts - attemptCount
      /\ (snd (pollForResults backend filePaths attemptCount s)
          = retries filePaths k ++ [query_effect filePaths]
          \/ (k = maxAttempts - attemptCount
              /\ snd (pollForResults backend filePaths attemptCount s)
                 = retries filePaths k)).
Proof.
  intros n. induction n as [n Hge | n Hlt IH] using attempts_ind.
  - exists 0. split; [lia|]. right. rewrite poll_out_of_attempts by assumption.
    split; [lia|reflexivity].
  - destruct (found (backend n)) as [rows|] eqn:Hf.
    + exists 0. split; [lia|]. left.
      now rewrite (poll_found _ _ _ _ rows) by assumption.
    + destruct IH as (k & Hk & Hshape). exists (S k). split; [lia|].
      rewrite poll_retry by assumption. unfold after. cbn [snd app].
      rewrite retries_S.
      destruct Hshape as [->|[-> ->]]; [now left|right]. split; [lia|reflexivity].
Qed.

(** C10. Every run of [pollForResults] ends (the function is total) after
    at most [maxAttempts = 30] queries, and its effects are a number of
    unsuccessful attempts, each a query followed by the 10000 ms timer of
    its retry, ended either by one more query, the one that found rows, or
    by running out of attempts.  It stops at the first attempt whose query
    answers success with a non-empty data array: those rows are shown, the
    message is cleared, loading is switched off, and that query is the last
    effect.  When no attempt below 30 does, it stops after one query and one
    10 s timer per attempt that was left, with the still-running message and
    the loading flag off. *)
Theorem pollForResults_terminates_within_maxAttempts :
  forall (backend : nat -> ApiResult) (filePaths : list string)
         (attemptCount : nat) (s : PageState),
    maxAttempts = 30
    /\ count_queries (snd (pollForResults backend filePaths attemptCount s))
       <= maxAttempts - attemptCount
    /\ (exists k,
          k <= maxAttempts - attemptCount
          /\ (snd (pollForResults backend filePaths attemptCount s)
              = retries filePaths k ++ [ApiCall "/api/query-delta-table" filePaths 10]
              \/ (k = maxAttempts - attemptCount
                  /\ snd (pollForResults backend filePaths attemptCount s)
                     = retries filePaths k)))
    /\ (forall k rows,
          attemptCount <= k -> k < maxAttempts ->
          has_rows (backend k) rows ->
          (forall j, attemptCount <= j -> j < k -> not_yet (backend j)) ->
          snd (pollForResults backend filePaths attemptCount s)
          = retries filePaths (k - attemptCount)
            ++ [ApiCall "/api/query-delta-table" filePaths 10]
          /\ count_queries (snd (pollForResults backend filePaths attemptCount s))
             = S (k - attemptCount)
          /\ fst (pollForResults backend filePaths attemptCount s) = showing rows s
          /\ deltaTableResults (fst (pollForResults backend filePaths attemptCount s))
             = rows
          /\ deltaTableError (fst (pollForResults backend filePaths attemptCount s))
             = None
          /\ deltaTableLoading (fst (pollForResults backend filePaths attemptCount s))
             = false)
    /\ ((forall j, attemptCount <= j -> j < maxAttempts -> not_yet (backend j)) ->
          snd (pollForResults backend filePaths attemptCount s)
          = retries filePaths (maxAttempts - attemptCount)
          /\ count_queries (snd (pollForResults backend filePaths attemptCount s))
             = maxAttempts - attemptCount
          /\ fst (pollForResults backend filePaths attemptCount s) = expired s
          /\ deltaTableError (fst (pollForResults backend filePaths attemptCount s))
             = Some still_running_message
          /\ deltaTableLoading (fst (pollForResults backend filePaths attemptCount s))
             = false).
Proof.
  intros backend filePaths n s.
  split; [reflexivity|]. split; [apply poll_queries_le|].
  split; [apply poll_trace_any|]. split.
  - intros k rows Hnk Hk Hrows Hnone.
    assert (Hf : found (backend k) = Some rows) by now apply found_has_rows.
    assert (Hn : forall j, n <= j -> j < k -> found (backend j) = None)
      by (intros j Hj1 Hj2; apply found_not_yet; now apply Hnone).
    destruct (poll_stops_on_first_result backend filePaths s rows n k Hnk Hk Hf Hn)
      as [_ Hq].
    rewrite Hq. rewrite (poll_trace_found backend filePaths s rows n k Hnk Hk Hf Hn).
    repeat split.
  - intros Hnone.
    assert (Hn : forall j, n <= j -> j < maxAttempts -> found (backend j) = None)
      by (intros j Hj1 Hj2; apply found_not_yet; now apply Hnone).
    destruct (poll_expires backend filePaths s n Hn) as [_ Hq].
    rewrite Hq. rewrite (poll_trace_expired backend filePaths s n Hn).
    repeat split.
Qed.

(** ** A write with its polling *)

Lemma writeToDeltaTable_expires backend filePaths s :
  (forall n, n < maxAttempts -> found (backend n) = None) ->
  fst (writeToDeltaTable backend filePaths s)
  = expired (fst (writeToDeltaTable_start filePaths s))
  /\ count_queries (snd (writeToDeltaTable backend filePaths s)) = maxAttempts.
Proof.
  intros Hnone. unfold writeToDeltaTable.
  destruct (writeToDeltaTable_start filePaths s) as [s1 es] eqn:Hstart.
  destruct (poll_expires backend filePaths s1 0) as [Hs Hq].
  { intros j _ Hj. now apply Hnone. }
  rewrite fst_after, Hs. split; [reflexivity|].
  unfold writeToDeltaTable_start in Hstart.
  injection Hstart as _ <-.
  change (count_queries (snd (pollForResults backend filePaths 0 s1)) = maxAttempts).
  rewrite Hq. apply Nat.sub_0_r.
Qed.

(** [handleWriteToDeltaTable] together with the polling its write starts. *)
Definition handleWriteToDeltaTable (backend : nat -> ApiResult) (s : PageState)
  : PageState * list Effect :=
  match uploadedPaths s with
  | [] =>
      (setDeltaTableError
         (Some "No uploaded files found. Please upload files first.") s, [])
  | filePaths => writeToDeltaTable backend filePaths s
  end.

(** A click on the button, followed to the end of the polling it starts. *)
Definition clickAndPoll (backend : nat -> ApiResult) (s : PageState)
  : PageState * list Effect :=
  if writeButtonDisabled s then (s, []) else handleWriteToDeltaTable backend s.

Lemma clickAndPoll_enabled backend s :
  writeButtonDisabled s = false -> uploadedPaths s <> [] ->
  clickAndPoll backend s = writeToDeltaTable backend (uploadedPaths s) s
  /\ clickWriteToDeltaTable s = writeToDeltaTable_start (uploadedPaths s) s.
Proof.
  intros Hb Hp.
  unfold clickAndPoll, clickWriteToDeltaTable, handleWriteToDeltaTable,
    handleWriteToDeltaTable_start.
  rewrite Hb. destruct (uploadedPaths s); [congruence|]. split; reflexivity.
Qed.

Lemma write_run_expired backend filePaths s :
  (forall n, n < maxAttempts -> found (backend n) = None) ->
  writeToDeltaTable backend filePaths s
  = ({| selectedFiles := selectedFiles s; deltaTableResults := [];
        deltaTableLoading := false; deltaTableError := Some still_running_message;
        processedSessionFiles := filePaths; showDeltaTableResults := true |},
     ApiCall "/api/write-to-delta-table" filePaths 10 :: SetTimeout 1000%N
       :: retries filePaths maxAttempts).
Proof.
  intros Hnone. unfold writeToDeltaTable, writeToDeltaTable_start. cbv zeta.
  rewrite poll_trace_expired by (intros j _ Hj; now apply Hnone).
  rewrite Nat.sub_0_r. reflexivity.
Qed.

Lemma write_run_found backend filePaths s k rows :
  k < maxAttempts ->
  found (backend k) = Some rows ->
  (forall j, j < k -> found (backend j) = None) ->
  writeToDeltaTable backend filePaths s
  = ({| selectedFiles := selectedFiles s; deltaTableResults := rows;
        deltaTableLoading := false; deltaTableError := None;
        processedSessionFiles := filePaths; showDeltaTableResults := true |},
     ApiCall "/api/write-to-delta-table" filePaths 10 :: SetTimeout 1000%N
       :: retries filePaths k ++ [ApiCall "/api/query-delta-table" filePaths 10]).
Proof.
  intros Hk Hf Hnone. unfold writeToDeltaTable, writeToDeltaTable_start. cbv zeta.
  rewrite (poll_trace_found backend filePaths _ rows 0 k)
    by (try assumption; try lia; intros j _ Hj; now apply Hnone).
  rewrite Nat.sub_0_r. reflexivity.
Qed.




(** ** Expiry and late results *)

(** C7 (as the page behaves). A write whose polls find nothing in the
    [maxAttempts] attempts leaves the page in the expired state: the
    still-running message in the open results panel, loading off, no rows,
    after the write request, the 1 s timer and thirty queries each followed
    by its 10 s timer.  With that the page has stopped polling: what the
    backend would answer to a later query plays no part in the run, so a
    result that becomes available after the expiry is not fetched.  It is
    shown only when the user clicks the button again, which sends a new
    write request for the same files and polls anew: the first query of
    that run that has rows shows them and clears the message. *)
Theorem expiry_ends_polling_until_next_write :
  forall (backend : nat -> ApiResult) (s : PageState),
    writeButtonDisabled s = false ->
    uploadedPaths s <> [] ->
    (forall n, n < maxAttempts -> not_yet (backend n)) ->
    let page_after_expiry :=
      {| selectedFiles := selectedFiles s; deltaTableResults := [];
         deltaTableLoading := false; deltaTableError := Some still_running_message;
         processedSessionFiles := uploadedPaths s; showDeltaTableResults := true |} in
    clickAndPoll backend s
    = (page_after_expiry,
       ApiCall "/api/write-to-delta-table" (uploadedPaths s) 10 :: SetTimeout 1000%N
         :: retries (uploadedPaths s) 30)
    /\ (forall backend',
          (forall n, n < maxAttempts -> backend' n = backend n) ->
          clickAndPoll backend' s = clickAndPoll backend s)
    /\ (forall (later : nat -> ApiResult) (k : nat) (rows : list DeltaRow),
          k < maxAttempts ->
          has_rows (later k) rows ->
          (forall j, j < k -> not_yet (later j)) ->
          clickAndPoll later page_after_expiry
          = ({| selectedFiles := selectedFiles s; deltaTableResults := rows;
                deltaTableLoading := false; deltaTableError := None;
                processedSessionFiles := uploadedPaths s;
                showDeltaTableResults := true |},
             ApiCall "/api/write-to-delta-table" (uploadedPaths s) 10
               :: SetTimeout 1000%N
               :: retries (uploadedPaths s) k
                  ++ [ApiCall "/api/query-delta-table" (uploadedPaths s) 10])).
Proof.
  intros backend s Hb Hp Hnone page_after_expiry.
  assert (Hrun : forall b, (forall n, n < maxAttempts -> not_yet (b n)) ->
            clickAndPoll b s
            = (page_after_expiry,
               ApiCall "/api/write-to-delta-table" (uploadedPaths s) 10
                 :: SetTimeout 1000%N :: retries (uploadedPaths s) 30)).
  { intros b Hb0. rewrite (proj1 (clickAndPoll_enabled b s Hb Hp)).
    apply write_run_expired. intros n Hn. apply found_not_yet. now apply Hb0. }
  split; [now apply Hrun|]. split.
  - intros backend' Hsame. rewrite (Hrun backend Hnone). apply Hrun.
    intros n Hn. rewrite (Hsame n Hn). now apply Hnone.
  - intros later k rows Hk Hrows Hbefore.
    assert (Hb' : writeButtonDisabled page_after_expiry = false).
    { unfold writeButtonDisabled in *. apply orb_false_iff in Hb.
      destruct Hb as [_ Hb]. exact Hb. }
    assert (Hp' : uploadedPaths page_after_expiry = uploadedPaths s) by reflexivity.
    assert (Hne : uploadedPaths page_after_expiry <> []) by now rewrite Hp'.
    rewrite (proj1 (clickAndPoll_enabled later page_after_expiry Hb' Hne)), Hp'.
    apply (write_run_found later (uploadedPaths s) page_after_expiry k rows); [exact Hk|now apply found_has_rows|].
    intros j Hj. apply found_not_yet. now apply Hbefore.
Qed.

(** ** Submitting the write twice *)


(** ** A session *)

Definition doc1 : SelectedFile :=
  {| name := "doc1.pdf"; isUploaded := true;
     ucPath := Some "/Volumes/c/s/v/doc1.pdf" |}.

Definition fresh_page : PageState :=
  {| selectedFiles := [doc1]; deltaTableResults := [];
     deltaTableLoading := false; deltaTableError := None;
     processedSessionFiles := []; showDeltaTableResults := false |}.

Definition parsed_rows : QueryResponse :=
  {| success := true; data := Some ["{path: doc1.pdf, content: ...}"];
     error := None; message := None |}.

(** A backend whose queries time out, one whose sixth query has rows, and
    one whose rows are there from the thirty-first query on. *)
Definition timing_out (n : nat) : ApiResult := Rejected "HTTP error! status: 504".

Definition ready_at_sixth (n : nat) : ApiResult :=
  if n =? 5 then Resolved parsed_rows else Rejected "HTTP error! status: 504".

Definition ready_after_expiry (n : nat) : ApiResult :=
  if 30 <=? n then Resolved parsed_rows else Rejected "HTTP error! status: 504".

Definition expired_page : PageState :=
  {| selectedFiles := [doc1]; deltaTableResults := [];
     deltaTableLoading := false; deltaTableError := Some still_running_message;
     processedSessionFiles := ["/Volumes/c/s/v/doc1.pdf"];
     showDeltaTableResults := true |}.

Lemma expired_run (backend : nat -> ApiResult) (s : PageState) :
  selectedFiles s = [doc1] -> deltaTableLoading s = false ->
  (forall n, n < maxAttempts -> found (backend n) = None) ->
  clickAndPoll backend s
  = (expired_page,
     ApiCall "/api/write-to-delta-table" ["/Volumes/c/s/v/doc1.pdf"] 10
       :: SetTimeout 1000%N :: retries ["/Volumes/c/s/v/doc1.pdf"] 30).
Proof.
  intros Hsel Hl Hnone.
  assert (Hp : uploadedPaths s = ["/Volumes/c/s/v/doc1.pdf"])
    by (unfold uploadedPaths; now rewrite Hsel).
  assert (Hb : writeButtonDisabled s = false)
    by (unfold writeButtonDisabled; now rewrite Hl, Hsel).
  assert (Hne : uploadedPaths s <> []) by now rewrite Hp.
  rewrite (proj1 (clickAndPoll_enabled backend s Hb Hne)), Hp.
  rewrite (write_run_expired backend _ s Hnone), Hsel. reflexivity.
Qed.



(** C7, counterexample. The rows are there from the thirty-first query on,
    that is after the expiry; the page never asks for them: the run ends
    after thirty queries with the still-running message and no rows. *)
Lemma late_result_is_not_fetched :
  (forall n, 30 <= n -> has_rows (ready_after_expiry n) ["{path: doc1.pdf, content: ...}"])
  /\ clickAndPoll ready_after_expiry fresh_page
     = (expired_page,
        ApiCall "/api/write-to-delta-table" ["/Volumes/c/s/v/doc1.pdf"] 10
          :: SetTimeout 1000%N :: retries ["/Volumes/c/s/v/doc1.pdf"] 30)
  /\ deltaTableResults (fst (clickAndPoll ready_after_expiry fresh_page)) = []
  /\ count_queries (snd (clickAndPoll ready_after_expiry fresh_page)) = 30.
Proof.
  assert (Hnone : forall n, n < maxAttempts -> found (ready_after_expiry n) = None).
  { intros n Hn. unfold ready_after_expiry.
    replace (30 <=? n) with false; [reflexivity|].
    symmetry. apply Nat.leb_gt. exact Hn. }
  assert (H1 := expired_run ready_after_expiry fresh_page eq_refl eq_refl Hnone).
  rewrite H1. split.
  - intros n Hn. exists parsed_rows. unfold ready_after_expiry.
    replace (30 <=? n) with true by (symmetry; now apply Nat.leb_le).
    repeat split. discriminate.
  - repeat split.
Qed.

Lemma expiry_ends_polling_until_next_write_witness :
  clickAndPoll timing_out fresh_page
  = (expired_page,
     ApiCall "/api/write-to-delta-table" ["/Volumes/c/s/v/doc1.pdf"] 10
       :: SetTimeout 1000%N :: retries ["/Volumes/c/s/v/doc1.pdf"] 30)
  /\ clickAndPoll ready_after_expiry fresh_page = clickAndPoll timing_out fresh_page
  /\ deltaTableResults (fst (clickAndPoll ready_at_sixth expired_page))
     = ["{path: doc1.pdf, content: ...}"].
Proof.
  assert (Hnone : forall n, n < maxAttempts -> not_yet (timing_out n))
    by (intros n _ q Hq; discriminate Hq).
  destruct (expiry_ends_polling_until_next_write timing_out fresh_page
              eq_refl ltac:(discriminate) Hnone)
    as (Hexp & Hsame & Hlater).
  split; [exact Hexp|]. split.
  - apply Hsame. intros n Hn. unfold ready_after_expiry, timing_out.
    replace (30 <=? n) with false; [reflexivity|].
    symmetry. apply Nat.leb_gt. exact Hn.
  - refine (f_equal (fun r => deltaTableResults (fst r))
              (Hlater ready_at_sixth 5 ["{path: doc1.pdf, content: ...}"] _ _ _)).
    + unfold maxAttempts. lia.
    + exists parsed_rows. repeat split. discriminate.
    + intros j Hj q Hq. do 5 (destruct j as [|j]; [discriminate Hq|]). lia.
Defined.

Lemma pollForResults_terminates_within_maxAttempts_witness :
  snd (pollForResults ready_at_sixth ["/Volumes/c/s/v/doc1.pdf"] 0 fresh_page)
  = retries ["/Volumes/c/s/v/doc1.pdf"] 5
    ++ [ApiCall "/api/query-delta-table" ["/Volumes/c/s/v/doc1.pdf"] 10]
  /\ count_queries
       (snd (pollForResults ready_at_sixth ["/Volumes/c/s/v/doc1.pdf"] 0 fresh_page))
     = 6
  /\ deltaTableResults
       (fst (pollForResults ready_at_sixth ["/Volumes/c/s/v/doc1.pdf"] 0 fresh_page))
     = ["{path: doc1.pdf, content: ...}"].
Proof.
  destruct (proj1 (proj2 (proj2 (proj2
              (pollForResults_terminates_within_maxAttempts
                 ready_at_sixth ["/Volumes/c/s/v/doc1.pdf"] 0 fresh_page))))
              5 ["{path: doc1.pdf, content: ...}"])
    as (Htr & Hq & _ & Hrows & _).
  - lia.
  - unfold maxAttempts. lia.
  - exists parsed_rows. repeat split. discriminate.
  - intros j _ Hj q Hq. do 5 (destruct j as [|j]; [discriminate Hq|]). lia.
  - split; [exact Htr|]. split; [exact Hq|exact Hrows].
Defined.

End Frontend.

(* ===================================================================== *)
(** * The redaction engine of the design document *)
(* ===================================================================== *)

Module RedactionEngine.
Import PyStr.

(** The sources stop at the endpoint: the handlers' [redact_content] and
    [extract_content] have placeholder bodies, and there is no registry
    lookup by [can_handle], no serializer and no engine function.  What
    follows is the engine as section 4.3 of the design document words it. *)

(** Modelled from the spec: the EntityMap argument of the missing engine,
    exact entity text to replacement token, keys unique, with no implied
    order among keys (an association list in the order the classifier
    produced it). *)
Definition EntityMap : Type := list (string * string).

(** Modelled from the spec: the keys of an EntityMap, in its own order. *)
Definition keys (M : EntityMap) : list string := map fst M.

(** Modelled from the spec: the replacement token of a key. *)
Fixpoint lookup (M : EntityMap) (key : string) : option string :=
  match M with
  | [] => None
  | (k, v) :: M' => if String.eqb k key then Some v else lookup M' key
  end.

(** Modelled from the spec: ContentUnit of section 3, which the sources do
    not declare; a location is a format-specific coordinate such as
    (sheet, row, column). *)
Record ContentUnit : Type := {
  location : list nat;
  text : string
}.

(** Modelled from the spec: ContentModel of section 3, which the sources do
    not declare. *)
Record ContentModel : Type := {
  units : list ContentUnit;
  sourceFormat : string;
  documentId : string
}.

(** Modelled from the spec: the status values of section 3 (the endpoint of
    the sources only ever writes two of them). *)
Inductive Status : Type :=
| redacted
| no_entities_found
| unsupported_format
| failed.

(** Modelled from the spec: RedactionResult of section 3, the result record
    of the missing engine (the output location is assigned by the storage
    layer and is left out). *)
Record RedactionResult : Type := {
  entitiesApplied : nat;
  appliedEntities : list string;
  status : Status
}.

(** ** Step 3: the order imposed on the keys *)

(** Modelled from the spec: the key order of the missing substitution step,
    "Sort EntityMap keys by descending length, tie-broken by lexicographic
    order".  [key_leb k1 k2] holds when [k1] is to be substituted no later
    than [k2]. *)
Definition key_leb (k1 k2 : string) : bool :=
  (String.length k2 <? String.length k1)
  || ((String.length k1 =? String.length k2) && String.leb k1 k2).

(** Modelled from the spec: insertion of a key into a sorted key list. *)
Fixpoint insert_key (k : string) (sorted : list string) : list string :=
  match sorted with
  | [] => [k]
  | k' :: rest => if key_leb k k' then k :: sorted else k' :: insert_key k rest
  end.

(** Modelled from the spec: step 3, the sort that precedes substitution
    (the design document names no algorithm; the order is total, so every
    sort returns the same list). *)
Definition sort_keys (ks : list string) : list string :=
  fold_right insert_key [] ks.

(** ** Step 4: substitution with inert replacements *)

(** Modelled from the spec: a unit's text while the missing substitution
    step works on it.  A character of the original text can still be
    matched; the output of an earlier replacement is inert, "a replacement
    token is never itself a substitution target". *)
Inductive piece : Type :=
| Plain (c : ascii)
| Token (replacement : string).

(** Modelled from the spec: a text before any replacement. *)
Fixpoint pieces_of (s : string) : list piece :=
  match s with
  | EmptyString => []
  | String c s' => Plain c :: pieces_of s'
  end.

(** Modelled from the spec: the text after substitution, tokens written
    out. *)
Fixpoint render (l : list piece) : string :=
  match l with
  | [] => EmptyString
  | Plain c :: l' => String c (render l')
  | Token v :: l' => String.append v (render l')
  end.

(** Modelled from the spec: exact, case-sensitive matching.  Do the
    characters of [key] stand at the head of [l], all of them still
    original text? *)
Fixpoint starts_with (key : string) (l : list piece) : bool :=
  match key with
  | EmptyString => true
  | String k key' =>
      match l with
      | Plain c :: l' => Ascii.eqb k c && starts_with key' l'
      | _ => false
      end
  end.

(** Modelled from the spec: a match of a key; keys are non-empty
    (section 6), an empty key matches nowhere. *)
Definition matches_at (key : string) (l : list piece) : bool :=
  negb (String.eqb key EmptyString) && starts_with key l.

(** Modelled from the spec: "every EntityMap key found in text".  Does
    [key] occur in what is left of the original text? *)
Fixpoint occurs (key : string) (l : list piece) : bool :=
  match l with
  | [] => false
  | p :: l' => matches_at key l || occurs key l'
  end.

(** Modelled from the spec: the replacement the placeholder body of
    [redact_content] stands for, "case-sensitive ... exact substring
    replacement ... applying all matches of the current key".  Left to
    right; [skip] counts the characters of a match that remain to be
    dropped. *)
Fixpoint replace_key (key value : string) (skip : nat) (l : list piece) : list piece :=
  match l with
  | [] => []
  | p :: l' =>
      match skip with
      | S n => replace_key key value n l'
      | O =>
          if matches_at key l
          then Token value :: replace_key key value (String.length key - 1) l'
          else p :: replace_key key value 0 l'
      end
  end.

(** Modelled from the spec: one key on one unit (steps 4 and 5): the new
    text, and the key when it matched. *)
Definition apply_key (M : EntityMap) (acc : list piece * list string) (key : string)
  : list piece * list string :=
  let '(l, applied) := acc in
  match lookup M key with
  | Some value =>
      if occurs key l then (replace_key key value 0 l, applied ++ [key]) else acc
  | None => acc
  end.

(** Modelled from the spec: step 4 on one unit's text, all keys in the
    imposed order. *)
Definition substitute (M : EntityMap) (t : string) : string * list string :=
  let '(l, applied) :=
    fold_left (apply_key M) (sort_keys (keys M)) (pieces_of t, []) in
  (render l, applied).

(** Modelled from the spec: step 4 on one unit; the location is kept. *)
Definition substitute_unit (M : EntityMap) (u : ContentUnit)
  : ContentUnit * list string :=
  ({| location := location u; text := fst (substitute M (text u)) |},
   snd (substitute M (text u))).

(** Modelled from the spec: membership among the keys that matched. *)
Definition mem (k : string) (l : list string) : bool := existsb (String.eqb k) l.

(** Modelled from the spec: the missing "Redaction Engine.apply", steps 3
    to 5 on a content model: the substituted model and the keys that
    matched at least once across all units. *)
Definition apply (M : EntityMap) (cm : ContentModel) : ContentModel * list string :=
  let done := map (substitute_unit M) (units cm) in
  ({| units := map fst done;
      sourceFormat := sourceFormat cm;
      documentId := documentId cm |},
   filter (fun k => existsb (fun r => mem k (snd r)) done) (sort_keys (keys M))).

(** ** Handlers, registry, and [redact] *)

(** Modelled from the spec: the Format Handler interface of section 4.1,
    whose [extract] and [serialize] the sources do not implement.  [None] is
    the ParseError of [extract], resp. the SerializationError of
    [serialize]; [serialize] writes the model back into the working copy
    the model was extracted from. *)
Record FormatHandler : Type := {
  canHandle : string -> option string -> bool;
  extract : string -> option ContentModel;
  serialize : string -> ContentModel -> option string
}.

(** Modelled from the spec: the Handler Registry of section 4.2 (the
    sources have a fixed dictionary and no [register] or [resolve]). *)
Definition Registry : Type := list (string * FormatHandler).

(** Modelled from the spec: [register]; a later registration for the same
    formatId overwrites. *)
Fixpoint register (formatId : string) (h : FormatHandler) (reg : Registry) : Registry :=
  match reg with
  | [] => [(formatId, h)]
  | (f, h') :: reg' =>
      if String.eqb f formatId then (f, h) :: reg'
      else (f, h') :: register formatId h reg'
  end.

(** Modelled from the spec: [resolve], the registered handler that can
    handle the file, if any. *)
Fixpoint resolve (reg : Registry) (filename : string) (declaredType : option string)
  : option FormatHandler :=
  match reg with
  | [] => None
  | (_, h) :: reg' =>
      if canHandle h filename declaredType then Some h
      else resolve reg' filename declaredType
  end.

(** Modelled from the spec: the missing engine entry point
    [redact(rawBytes, filename, entityMap)], steps 1 to 7 of section 4.3.
    No bytes are produced for an unsupported format or a failed document. *)
Definition redact (reg : Registry) (rawBytes filename : string) (M : EntityMap)
  : option string * RedactionResult :=
  match resolve reg filename None with
  | None =>
      (None, {| entitiesApplied := 0; appliedEntities := [];
                status := unsupported_format |})
  | Some h =>
      match extract h rawBytes with
      | None =>
          (None, {| entitiesApplied := 0; appliedEntities := []; status := failed |})
      | Some cm =>
          let '(cm', applied) := apply M cm in
          match applied with
          | [] =>
              (Some rawBytes,
               {| entitiesApplied := 0; appliedEntities := [];
                  status := no_entities_found |})
          | _ :: _ =>
              match serialize h rawBytes cm' with
              | None =>
                  (None, {| entitiesApplied := 0; appliedEntities := [];
                            status := failed |})
              | Some out =>
                  (Some out,
                   {| entitiesApplied := List.length applied;
                      appliedEntities := applied;
                      status := redacted |})
              end
          end
      end
  end.

(** Modelled from the spec: a plain-text handler (the sources have none)
    that extracts the whole buffer as one block-scoped unit and serializes
    by writing the units back in order. *)
Definition PlainTextHandler : FormatHandler :=
  {| canHandle := fun filename declaredType =>
       endswith (lower filename) ".txt"
       || match declaredType with
          | Some m => String.eqb m "text/plain"
          | None => false
          end;
     extract := fun rawBytes =>
       Some {| units := match rawBytes with
                        | EmptyString => []
                        | _ => [{| location := [0]; text := rawBytes |}]
                        end;
               sourceFormat := "text"; documentId := "" |};
     serialize := fun _ cm => Some (String.concat "" (map text (units cm))) |}.

(** Modelled from the spec: a registry holding the plain-text handler. *)
Definition text_registry : Registry := register "text" PlainTextHandler [].

(** The EntityMap of the longest-match example of section 8. *)
Definition cola : EntityMap := [("Coca Cola", "[CLIENT]"); ("Cola", "[PRODUCT]")].

Example sort_keys_ex :
  sort_keys ["Cola"; "Pepsi One"; "Coke"; "Coca Cola"]
  = ["Coca Cola"; "Pepsi One"; "Coke"; "Cola"].
Proof. reflexivity. Qed.

Example substitute_cola :
  substitute cola "Coca Cola Inc." = ("[CLIENT] Inc.", ["Coca Cola"])
  /\ substitute (rev cola) "Coca Cola Inc." = ("[CLIENT] Inc.", ["Coca Cola"])
  /\ substitute cola "Cola and Coca Cola" = ("[PRODUCT] and [CLIENT]", ["Coca Cola"; "Cola"]).
Proof. repeat split; reflexivity. Qed.

(** A replacement is inert within one run, even when it contains a later key. *)
Example substitute_inert :
  substitute [("Acme Corp", "[Acme]"); ("Acme", "[CLIENT]")] "Acme Corp and Acme"
  = ("[Acme] and [CLIENT]", ["Acme Corp"; "Acme"]).
Proof. reflexivity. Qed.

Example redact_ex :
  redact text_registry "Coca Cola Inc." "memo.txt" cola
  = (Some "[CLIENT] Inc.",
     {| entitiesApplied := 1; appliedEntities := ["Coca Cola"]; status := redacted |})
  /\ redact text_registry "Coca Cola Inc." "memo.zip" cola
     = (None, {| entitiesApplied := 0; appliedEntities := [];
                 status := unsupported_format |}).
Proof. split; reflexivity. Qed.

(** ** The key order is a total order *)

Definition key_le (k1 k2 : string) : Prop := key_leb k1 k2 = true.

Lemma ascii_compare_trans_le (a b c : ascii) :
  Ascii.compare a b <> Gt -> Ascii.compare b c <> Gt ->
  Ascii.compare a c <> Gt
  /\ (Ascii.compare a c = Eq -> Ascii.compare a b = Eq /\ Ascii.compare b c = Eq).
Proof.
  unfold Ascii.compare.
  destruct (N.compare_spec (N_of_ascii a) (N_of_ascii b)) as [Hab|Hab|Hab];
    destruct (N.compare_spec (N_of_ascii b) (N_of_ascii c)) as [Hbc|Hbc|Hbc];
    destruct (N.compare_spec (N_of_ascii a) (N_of_ascii c)) as [Hac|Hac|Hac];
    intros H1 H2; try congruence; try lia;
    (split; [discriminate | intros; try discriminate; auto]).
Qed.

Lemma string_leb_trans (a b c : string) :
  String.leb a b = true -> String.leb b c = true -> String.leb a c = true.
Proof.
  unfold String.leb. revert b c.
  induction a as [|x a IH]; intros [|y b] [|z c]; simpl; try easy.
  intros Hab Hbc.
  assert (Hxy : Ascii.compare x y <> Gt) by (destruct (Ascii.compare x y); easy).
  assert (Hyz : Ascii.compare y z <> Gt) by (destruct (Ascii.compare y z); easy).
  destruct (ascii_compare_trans_le x y z Hxy Hyz) as [Hxz Heq].
  destruct (Ascii.compare x z) eqn:Exz; [|reflexivity|congruence].
  destruct (Heq eq_refl) as [Exy Eyz]. rewrite Exy in Hab. rewrite Eyz in Hbc.
  now apply (IH b c).
Qed.

Lemma key_leb_total (k1 k2 : string) : key_leb k1 k2 = true \/ key_leb k2 k1 = true.
Proof.
  unfold key_leb.
  destruct (Nat.lt_trichotomy (String.length k1) (String.length k2)) as [H|[H|H]].
  - right. apply orb_true_iff. left. now apply Nat.ltb_lt.
  - rewrite H, Nat.eqb_refl, Nat.ltb_irrefl. simpl.
    apply String.leb_total.
  - left. apply orb_true_iff. left. now apply Nat.ltb_lt.
Qed.

Lemma key_leb_cases (k1 k2 : string) :
  key_leb k1 k2 = true <->
  String.length k2 < String.length k1
  \/ (String.length k1 = String.length k2 /\ String.leb k1 k2 = true).
Proof.
  unfold key_leb.
  rewrite orb_true_iff, andb_true_iff, Nat.ltb_lt, Nat.eqb_eq. reflexivity.
Qed.

Lemma key_leb_antisym (k1 k2 : string) :
  key_leb k1 k2 = true -> key_leb k2 k1 = true -> k1 = k2.
Proof.
  rewrite !key_leb_cases. intros [H1|[H1 L1]] [H2|[H2 L2]]; try lia.
  now apply String.leb_antisym.
Qed.

Lemma key_leb_trans (k1 k2 k3 : string) :
  key_leb k1 k2 = true -> key_leb k2 k3 = true -> key_leb k1 k3 = true.
Proof.
  rewrite !key_leb_cases. intros [H1|[H1 L1]] [H2|[H2 L2]];
    try (left; lia).
  right. split; [lia|]. eapply string_leb_trans; eassumption.
Qed.

(** ** Sorting *)

Lemma insert_key_perm (k : string) (l : list string) :
  Permutation (insert_key k l) (k :: l).
Proof.
  induction l as [|k' l IH]; simpl; [reflexivity|].
  destruct (key_leb k k'); [reflexivity|].
  rewrite IH. apply perm_swap.
Qed.

Lemma sort_keys_perm (l : list string) : Permutation (sort_keys l) l.
Proof.
  induction l as [|k l IH]; simpl; [reflexivity|].
  rewrite insert_key_perm. now constructor.
Qed.

Lemma insert_key_sorted (k : string) (l : list string) :
  StronglySorted key_le l -> StronglySorted key_le (insert_key k l).
Proof.
  induction 1 as [|k' l Hs IH Hall]; simpl.
  - repeat constructor.
  - destruct (key_leb k k') eqn:Hk.
    + constructor; [now constructor|].
      constructor; [exact Hk|].
      eapply Forall_impl; [|exact Hall].
      intros x Hx. eapply key_leb_trans; eassumption.
    + constructor; [exact IH|].
      eapply Permutation_Forall; [symmetry; apply insert_key_perm|].
      constructor; [|exact Hall].
      destruct (key_leb_total k k') as [H|H]; [congruence|exact H].
Qed.

Lemma sort_keys_sorted (l : list string) : StronglySorted key_le (sort_keys l).
Proof.
  induction l as [|k l IH]; simpl; [constructor|now apply insert_key_sorted].
Qed.

(** Two sorted arrangements of the same keys are the same list. *)
Lemma sorted_keys_unique (l1 l2 : list string) :
  StronglySorted key_le l1 -> StronglySorted key_le l2 ->
  Permutation l1 l2 -> l1 = l2.
Proof.
  intros H1. revert l2. induction H1 as [|a l1 Hs1 IH Ha]; intros l2 H2 Hp.
  - apply Permutation_nil in Hp. now subst.
  - destruct H2 as [|b l2 Hs2 Hb].
    + symmetry in Hp. apply Permutation_nil in Hp. discriminate.
    + assert (a = b) as <-.
      { assert (Hin_a : In a (b :: l2)) by (eapply Permutation_in; [exact Hp|now left]).
        assert (Hin_b : In b (a :: l1))
          by (eapply Permutation_in; [symmetry; exact Hp|now left]).
        destruct Hin_a as [Hba|Hin_a]; [now subst|].
        destruct Hin_b as [Hab|Hin_b]; [now subst|].
        rewrite Forall_forall in Ha, Hb.
        apply key_leb_antisym; [apply Ha|apply Hb]; assumption. }
      f_equal. apply IH; [assumption|]. eapply Permutation_cons_inv; exact Hp.
Qed.

Lemma sort_keys_permutation_invariant (l1 l2 : list string) :
  Permutation l1 l2 -> sort_keys l1 = sort_keys l2.
Proof.
  intros Hp. apply sorted_keys_unique; try apply sort_keys_sorted.
  rewrite !sort_keys_perm. exact Hp.
Qed.

(** ** Values do not depend on the order of the entries *)

Lemma lookup_some_in (M : EntityMap) (k v : string) :
  lookup M k = Some v -> In (k, v) M.
Proof.
  induction M as [|[k' v'] M IH]; simpl; [discriminate|].
  destruct (String.eqb k' k) eqn:Hk.
  - apply String.eqb_eq in Hk. intros H; inversion H; subst. now left.
  - intros H. right. now apply IH.
Qed.

Lemma lookup_none_iff (M : EntityMap) (k : string) :
  lookup M k = None <-> ~ In k (keys M).
Proof.
  induction M as [|[k' v'] M IH]; simpl; [tauto|].
  destruct (String.eqb k' k) eqn:Hk.
  - apply String.eqb_eq in Hk. split; [discriminate|]. intros H. exfalso. auto.
  - apply String.eqb_neq in Hk. rewrite IH. tauto.
Qed.

Lemma lookup_in (M : EntityMap) (k v : string) :
  NoDup (keys M) -> In (k, v) M -> lookup M k = Some v.
Proof.
  induction M as [|[k' v'] M IH]; simpl; [tauto|].
  intros Hnd [Heq|Hin].
  - inversion Heq; subst. now rewrite String.eqb_refl.
  - inversion Hnd as [|? ? Hnotin Hnd']; subst.
    destruct (String.eqb k' k) eqn:Hk; [|now apply IH].
    apply String.eqb_eq in Hk. subst k'. exfalso. apply Hnotin.
    unfold keys. apply in_map_iff. now exists (k, v).
Qed.

Lemma lookup_permutation_invariant (M1 M2 : EntityMap) :
  NoDup (keys M1) -> Permutation M1 M2 ->
  forall k, lookup M1 k = lookup M2 k.
Proof.
  intros Hnd Hp k.
  assert (Hkeys : Permutation (keys M1) (keys M2)) by (now apply Permutation_map).
  assert (Hnd2 : NoDup (keys M2)) by (eapply Permutation_NoDup; eassumption).
  destruct (lookup M1 k) as [v|] eqn:H1.
  - symmetry. apply lookup_in; [assumption|].
    eapply Permutation_in; [exact Hp|]. now apply lookup_some_in.
  - symmetry. apply lookup_none_iff. apply lookup_none_iff in H1.
    intros Hin. apply H1. eapply Permutation_in; [symmetry; exact Hkeys|exact Hin].
Qed.

Lemma fold_apply_key_ext (M1 M2 : EntityMap) (ks : list string) :
  (forall k, lookup M1 k = lookup M2 k) ->
  forall acc, fold_left (apply_key M1) ks acc = fold_left (apply_key M2) ks acc.
Proof.
  intros Hl. induction ks as [|k ks IH]; intros acc; cbn [fold_left]; [reflexivity|].
  rewrite IH. f_equal. unfold apply_key. destruct acc as [l applied].
  now rewrite Hl.
Qed.

(** C2. The engine imposes its own order on the keys before substituting:
    [sort_keys] returns the keys by descending length, ties in lexicographic
    order, whatever order the EntityMap lists them in.  Hence two EntityMaps
    with the same entries in different orders give the same substitution on
    every unit text and the same result on every content model. *)
Theorem substitution_independent_of_iteration_order :
  forall (M1 M2 : EntityMap),
    NoDup (keys M1) ->
    Permutation M1 M2 ->
    StronglySorted key_le (sort_keys (keys M1))
    /\ Permutation (sort_keys (keys M1)) (keys M1)
    /\ sort_keys (keys M1) = sort_keys (keys M2)
    /\ (forall t, substitute M1 t = substitute M2 t)
    /\ (forall cm, apply M1 cm = apply M2 cm).
Proof.
  intros M1 M2 Hnd Hp.
  assert (Hsort : sort_keys (keys M1) = sort_keys (keys M2)).
  { apply sort_keys_permutation_invariant. now apply Permutation_map. }
  assert (Hsub : forall t, substitute M1 t = substitute M2 t).
  { intros t. unfold substitute. rewrite Hsort.
    rewrite (fold_apply_key_ext M1 M2); [reflexivity|].
    now apply lookup_permutation_invariant. }
  split; [apply sort_keys_sorted|]. split; [apply sort_keys_perm|].
  split; [exact Hsort|]. split; [exact Hsub|].
  intros cm. unfold apply. rewrite Hsort.
  assert (Hmap : map (substitute_unit M1) (units cm) = map (substitute_unit M2) (units cm)).
  { apply map_ext. intros u. unfold substitute_unit. now rewrite Hsub. }
  now rewrite Hmap.
Qed.

(** The example of the design document, with the shorter key listed first. *)
Lemma substitution_independent_of_iteration_order_witness :
  substitute [("Cola", "[PRODUCT]"); ("Coca Cola", "[CLIENT]")] "Coca Cola Inc."
  = substitute cola "Coca Cola Inc."
  /\ fst (substitute cola "Coca Cola Inc.") = "[CLIENT] Inc.".
Proof.
  split; [|reflexivity].
  refine (proj1 (proj2 (proj2 (proj2
            (substitution_independent_of_iteration_order
               [("Cola", "[PRODUCT]"); ("Coca Cola", "[CLIENT]")] cola _ _))))
          "Coca Cola Inc.").
  - repeat constructor; simpl; intuition discriminate.
  - apply perm_swap.
Defined.

(** ** Text in which no key occurs *)







(** ** Conventional tokens

    Section 6 of the design document describes replacement values as
    "conventionally bracketed tokens like [CLIENT]".  For EntityMaps that
    follow the convention strictly (values in brackets, keys without
    brackets, no key inside a value) a redacted text contains no key any
    more, so that a second substitution finds nothing. *)
















(** ** From the text under substitution to the rendered text *)










(** ** Running [redact] on its own output *)






End RedactionEngine.

(* ===================================================================== *)
(** * File utilities: extensions *)
(* ===================================================================== *)

Module FileUtils.
Import PyStr FormatHandlers.

(** [get_file_extension] of [backend/utils/file_utils.py]. *)
Definition get_file_extension (filename : string) : string :=
  snd (splitext (lower filename)).

(** [validate_file_format]: [ext in supported_formats]. *)
Definition validate_file_format (filename : string) (supported_formats : list string)
  : bool :=
  existsb (String.eqb (get_file_extension filename)) supported_formats.

(** Does the character occur in the string? *)
Fixpoint has_char (c : ascii) (s : string) : bool :=
  match s with
  | EmptyString => false
  | String a s' => Ascii.eqb a c || has_char c s'
  end.

(** ** Lower-casing *)

Lemma lower_ascii_idem (c : ascii) : lower_ascii (lower_ascii c) = lower_ascii c.
Proof.
  destruct c as [[] [] [] [] [] [] [] []]; reflexivity.
Qed.

Lemma lower_idem (s : string) : lower (lower s) = lower s.
Proof.
  induction s as [|c s IH]; simpl; [reflexivity|].
  now rewrite lower_ascii_idem, IH.
Qed.

Lemma lower_length (s : string) : String.length (lower s) = String.length s.
Proof.
  induction s as [|c s IH]; simpl; [reflexivity|now rewrite IH].
Qed.

(** ** Substrings *)

Lemma get_some_lt (s : string) :
  forall n c, String.get n s = Some c -> n < String.length s.
Proof.
  induction s as [|a s IH]; intros n c H; [destruct n; discriminate|].
  destruct n as [|n]; simpl in *; [lia|]. apply IH in H. lia.
Qed.

Lemma substring_zero_all (s : string) :
  substring 0 (String.length s) s = s.
Proof.
  induction s as [|a s IH]; simpl; [reflexivity|now rewrite IH].
Qed.

Lemma substring_split (s : string) :
  forall n, n <= String.length s ->
    String.append (substring 0 n s) (substring n (String.length s - n) s) = s.
Proof.
  induction s as [|a s IH]; intros n Hn.
  - simpl in Hn. assert (n = 0) by lia. subst. reflexivity.
  - destruct n as [|n].
    + rewrite Nat.sub_0_r, substring_zero_all. reflexivity.
    + cbn [substring String.length Nat.sub String.append]. f_equal.
      apply IH. simpl in Hn. lia.
Qed.

Lemma substring_tail_length (s : string) :
  forall n, n <= String.length s ->
    String.length (substring n (String.length s - n) s) = String.length s - n.
Proof.
  induction s as [|a s IH]; intros n Hn.
  - simpl in Hn. assert (n = 0) by lia. subst. reflexivity.
  - destruct n as [|n].
    + rewrite Nat.sub_0_r, substring_zero_all. reflexivity.
    + cbn [substring String.length Nat.sub]. apply IH. simpl in Hn. lia.
Qed.

Lemma substring_tail_head (s : string) :
  forall n c, String.get n s = Some c ->
    exists rest, substring n (String.length s - n) s = String c rest
                 /\ rest = substring (S n) (String.length s - S n) s.
Proof.
  induction s as [|a s IH]; intros n c H; [destruct n; discriminate|].
  destruct n as [|n].
  - simpl in H. injection H as ->. eexists. split; [|reflexivity].
    rewrite Nat.sub_0_r, substring_zero_all. f_equal.
    cbn [String.length Nat.sub substring]. rewrite Nat.sub_0_r.
    symmetry. apply substring_zero_all.
  - simpl in H. destruct (IH n c H) as (rest & Hr & Hrest).
    exists rest. split; [exact Hr|]. exact Hrest.
Qed.

Lemma has_char_substring (c : ascii) (s : string) :
  forall n m, has_char c (substring n m s) = true ->
    exists j, n <= j /\ String.get j s = Some c.
Proof.
  induction s as [|a s IH]; intros n m H.
  - destruct n, m; discriminate.
  - destruct n as [|n].
    + destruct m as [|m]; [discriminate|].
      cbn [substring has_char] in H. apply orb_true_iff in H.
      destruct H as [H|H].
      * apply Ascii.eqb_eq in H. subst. exists 0. split; [lia|reflexivity].
      * destruct (IH 0 m H) as (j & _ & Hj). exists (S j). split; [lia|exact Hj].
    + cbn [substring] in H. destruct (IH n m H) as (j & Hle & Hj).
      exists (S j). split; [lia|exact Hj].
Qed.

Lemma endswith_tail (s : string) (n : nat) :
  n <= String.length s ->
  endswith s (substring n (String.length s - n) s) = true.
Proof.
  intros Hn. unfold endswith. rewrite substring_tail_length by assumption.
  apply andb_true_iff. split; [apply Nat.leb_le; lia|].
  replace (String.length s - (String.length s - n)) with n by lia.
  apply String.eqb_refl.
Qed.

(** ** The last occurrence of a character *)

Lemma rfind_from_spec (c : ascii) (s : string) :
  forall (i last : Z), (last < i)%Z ->
    (rfind_from c s i last = last /\ forall j, String.get j s <> Some c)
    \/ (exists n, rfind_from c s i last = (i + Z.of_nat n)%Z
                  /\ String.get n s = Some c
                  /\ forall j, n < j -> String.get j s <> Some c).
Proof.
  induction s as [|a s IH]; intros i last Hlt.
  - left. split; [reflexivity|]. intros j. destruct j; discriminate.
  - cbn [rfind_from]. destruct (Ascii.eqb a c) eqn:Hac.
    + apply Ascii.eqb_eq in Hac. subst a.
      destruct (IH (i + 1)%Z i) as [[Hr Hno]|(n & Hr & Hg & Hlast)]; [lia| |].
      * right. exists 0. rewrite Hr. split; [lia|]. split; [reflexivity|].
        intros j Hj. destruct j as [|j]; [lia|]. simpl. apply Hno.
      * right. exists (S n). rewrite Hr. split; [lia|]. split; [exact Hg|].
        intros j Hj. destruct j as [|j]; [lia|]. simpl. apply Hlast. lia.
    + apply Ascii.eqb_neq in Hac.
      destruct (IH (i + 1)%Z last) as [[Hr Hno]|(n & Hr & Hg & Hlast)]; [lia| |].
      * left. split; [exact Hr|]. intros j. destruct j as [|j]; simpl.
        -- congruence.
        -- apply Hno.
      * right. exists (S n). rewrite Hr. split; [lia|]. split; [exact Hg|].
        intros j Hj. destruct j as [|j]; [lia|]. simpl. apply Hlast. lia.
Qed.

Lemma rfind_spec (c : ascii) (s : string) :
  (rfind c s = (-1)%Z /\ forall j, String.get j s <> Some c)
  \/ (exists n, rfind c s = Z.of_nat n
                /\ String.get n s = Some c
                /\ forall j, n < j -> String.get j s <> Some c).
Proof.
  unfold rfind.
  destruct (rfind_from_spec c s 0 (-1)) as [H|(n & Hr & H)]; [lia|now left|].
  right. exists n. rewrite Hr. split; [lia|exact H].
Qed.

(** ** The shape of an extension *)

Lemma append_empty_r (s : string) : String.append s EmptyString = s.
Proof.
  induction s as [|a s IH]; simpl; [reflexivity|now rewrite IH].
Qed.

Lemma substring_none (s : string) : forall n, substring n 0 s = EmptyString.
Proof.
  induction s as [|a s IH]; intros [|n]; try reflexivity. simpl. apply IH.
Qed.

Lemma endswith_empty (s : string) : endswith s EmptyString = true.
Proof.
  unfold endswith. cbn [String.length]. rewrite substring_none. reflexivity.
Qed.

Lemma has_char_false_iff (c : ascii) (s : string) :
  has_char c s = false <-> forall j, String.get j s <> Some c.
Proof.
  induction s as [|a s IH]; simpl.
  - split; [intros _ j; destruct j; discriminate|reflexivity].
  - rewrite orb_false_iff, IH. split.
    + intros [Ha Hs] [|j]; [|apply Hs]. apply Ascii.eqb_neq in Ha. congruence.
    + intros H. split.
      * apply Ascii.eqb_neq. intros ->. now apply (H 0).
      * intros j. apply (H (S j)).
Qed.

(** An extension is empty, or a dot followed by characters that are neither
    dots nor slashes. *)
Definition extension_shape (ext : string) : Prop :=
  ext = EmptyString
  \/ exists rest, ext = String "." rest
                  /\ has_char "." rest = false
                  /\ has_char "/" rest = false.

(** [os.path.splitext]: root and extension put together give the path back,
    the extension has the shape above and is a suffix of the path. *)
Lemma splitext_spec (p : string) :
  String.append (fst (splitext p)) (snd (splitext p)) = p
  /\ extension_shape (snd (splitext p))
  /\ (exists n, n <= String.length p
                /\ snd (splitext p) = substring n (String.length p - n) p).
Proof.
  assert (Hnone : String.append p EmptyString = p
                  /\ extension_shape EmptyString
                  /\ exists n, n <= String.length p
                     /\ EmptyString = substring n (String.length p - n) p).
  { split; [apply append_empty_r|]. split; [now left|].
    exists (String.length p). split; [lia|].
    rewrite Nat.sub_diag, substring_none. reflexivity. }
  unfold splitext.
  destruct (rfind_spec "." p) as [[Hdot _]|(nd & Hdot & Hgd & Hlastd)].
  { rewrite Hdot.
    destruct (rfind_spec "/" p) as [[Hsep _]|(ns & Hsep & _)]; rewrite Hsep;
      (destruct (_ && _) eqn:Hc; [|exact Hnone]);
      apply andb_true_iff in Hc; destruct Hc as [Hc _];
      apply Z.ltb_lt in Hc; lia. }
  rewrite Hdot.
  destruct ((rfind "/" p <? Z.of_nat nd)%Z
            && has_non_dot (slice p (rfind "/" p + 1) (Z.of_nat nd))) eqn:Hc;
    [|exact Hnone].
  apply andb_true_iff in Hc. destruct Hc as [Hc _]. apply Z.ltb_lt in Hc.
  cbn [fst snd]. unfold slice, slice_from.
  rewrite Z.sub_0_r, !Nat2Z.id. change (Z.to_nat 0) with 0.
  pose proof (get_some_lt _ _ _ Hgd) as Hnd.
  split; [apply substring_split; lia|]. split.
  - right. destruct (substring_tail_head p nd _ Hgd) as (rest & Hext & Hrest).
    exists rest. split; [exact Hext|].
    split; (destruct (has_char _ rest) eqn:Hh; [|reflexivity]; exfalso;
            rewrite Hrest in Hh; apply has_char_substring in Hh;
            destruct Hh as (j & Hj & Hg)).
    + apply (Hlastd j); [lia|exact Hg].
    + destruct (rfind_spec "/" p) as [[_ Hno]|(ns & Hsep & _ & Hlasts)].
      * now apply (Hno j).
      * rewrite Hsep in Hc. apply (Hlasts j); [lia|exact Hg].
  - exists nd. split; [lia|reflexivity].
Qed.

Lemma lower_substring (s : string) :
  forall n m, lower (substring n m s) = substring n m (lower s).
Proof.
  induction s as [|a s IH]; intros n m.
  - destruct n, m; reflexivity.
  - destruct n as [|n]; [destruct m as [|m]; [reflexivity|]|].
    + cbn [substring lower]. now rewrite IH.
    + cbn [substring lower]. apply IH.
Qed.

Lemma extension_is_suffix (filename : string) :
  endswith (lower filename) (get_file_extension filename) = true.
Proof.
  unfold get_file_extension.
  destruct (splitext_spec (lower filename)) as (_ & _ & n & Hn & Hsub).
  rewrite Hsub. now apply endswith_tail.
Qed.

Lemma lower_ascii_is_ascii (c : ascii) :
  is_ascii_char c = true -> is_ascii_char (lower_ascii c) = true.
Proof.
  destruct c as [[] [] [] [] [] [] [] []]; intros H; try discriminate H; reflexivity.
Qed.

Lemma lower_is_ascii (s : string) : is_ascii s = true -> is_ascii (lower s) = true.
Proof.
  induction s as [|c s IH]; [reflexivity|]. cbn [is_ascii lower].
  intros H. apply andb_true_iff in H. destruct H as [Hc Hs].
  now rewrite (lower_ascii_is_ascii c Hc), IH.
Qed.

Lemma substring_is_ascii (s : string) :
  is_ascii s = true -> forall n m, is_ascii (substring n m s) = true.
Proof.
  induction s as [|c s IH]; intros H n m.
  - destruct n, m; reflexivity.
  - cbn [is_ascii] in H. apply andb_true_iff in H. destruct H as [Hc Hs].
    destruct n as [|n]; [destruct m as [|m]; [reflexivity|]|].
    + cbn [substring is_ascii]. now rewrite Hc, IH.
    + cbn [substring]. now apply IH.
Qed.

(** X1. For a file name made of ASCII characters, on which [lower] is
    [str.lower()]: the extension [get_file_extension] returns is empty or a
    dot followed by characters other than dot and slash; it is a suffix of
    the lower-cased name, is itself ASCII and in lower case, and does not
    depend on the case of the name. *)
Theorem get_file_extension_shape :
  forall (filename : string),
    is_ascii filename = true ->
    extension_shape (get_file_extension filename)
    /\ endswith (lower filename) (get_file_extension filename) = true
    /\ is_ascii (get_file_extension filename) = true
    /\ lower (get_file_extension filename) = get_file_extension filename
    /\ get_file_extension (lower filename) = get_file_extension filename.
Proof.
  intros f Hascii. unfold get_file_extension.
  destruct (splitext_spec (lower f)) as (_ & Hshape & n & Hn & Hsub).
  split; [exact Hshape|]. split; [|split; [|split]].
  - rewrite Hsub. now apply endswith_tail.
  - rewrite Hsub. apply substring_is_ascii. now apply lower_is_ascii.
  - rewrite Hsub at 1. rewrite lower_substring, lower_idem. now symmetry.
  - now rewrite lower_idem.
Qed.

Lemma get_file_extension_shape_witness :
  extension_shape (get_file_extension "Q3 Report.FINAL.XLSX")
  /\ lower (get_file_extension "Q3 Report.FINAL.XLSX")
     = get_file_extension "Q3 Report.FINAL.XLSX"
  /\ get_file_extension (lower "Q3 Report.FINAL.XLSX")
     = get_file_extension "Q3 Report.FINAL.XLSX".
Proof.
  destruct (get_file_extension_shape "Q3 Report.FINAL.XLSX" eq_refl)
    as (Hshape & _ & _ & Hlower & Hcase).
  split; [exact Hshape|]. split; [exact Hlower|exact Hcase].
Defined.

Example get_file_extension_ex :
  get_file_extension "Q3 Report.FINAL.XLSX" = ".xlsx"
  /\ get_file_extension "/Volumes/a.b/README" = ""
  /\ get_file_extension ".gitignore" = "".
Proof. repeat split; reflexivity. Qed.

(** ** Registry lookup against the handlers' own test *)

Lemma dict_get_in {V : Type} (d : list (string * V)) (key : string) (v : V) :
  dict_get d key = Some v -> In (key, v) d.
Proof.
  induction d as [|[k v'] d IH]; simpl; [discriminate|].
  destruct (String.eqb k key) eqn:Hk.
  - apply String.eqb_eq in Hk. intros H. injection H as ->. subst. now left.
  - intros H. right. now apply IH.
Qed.

Lemma detect_file_format_unfold (file_path : string) :
  detect_file_format file_path
  = match dict_get format_mapping (get_file_extension file_path) with
    | Some f => f
    | None => "unknown"
    end.
Proof. reflexivity. Qed.

(** X2. Whenever the registry lookup of the endpoints
    ([get_format_handler (detect_file_format path)]) finds a handler for a
    path, the handler's own [can_handle] accepts that path, whatever the
    MIME type, except for the ".markdown" extension, which the lookup maps
    to the Markdown handler but [MarkdownHandler.can_handle] does not
    test. *)
Theorem resolved_handler_can_handle :
  forall (file_path : string) (h : FormatHandler),
    get_format_handler (detect_file_format file_path) = Some h ->
    get_file_extension file_path <> ".markdown" ->
    forall mime_type, can_handle h file_path mime_type = true.
Proof.
  intros p h Hh Hmd m.
  pose proof (extension_is_suffix p) as Hend.
  rewrite detect_file_format_unfold in Hh.
  destruct (dict_get format_mapping (get_file_extension p)) as [f|] eqn:Hf;
    [|discriminate].
  apply dict_get_in in Hf. unfold format_mapping in Hf.
  repeat (destruct Hf as [Hf|Hf];
          [injection Hf as Hext <-; rewrite <- Hext in Hend;
           try (exfalso; apply Hmd; now symmetry);
           injection Hh as <-;
           cbn [can_handle]; unfold markdown_can_handle, excel_can_handle,
             powerpoint_can_handle, endswith_any; cbn [existsb];
           rewrite Hend; rewrite ?orb_true_r; reflexivity|]).
  destruct Hf.
Qed.

Lemma resolved_handler_can_handle_witness :
  can_handle PowerPointHandler "/Volumes/c/s/v/Deck.PPT" "application/octet-stream"
  = true.
Proof.
  apply (resolved_handler_can_handle "/Volumes/c/s/v/Deck.PPT" PowerPointHandler).
  - reflexivity.
  - discriminate.
Defined.

End FileUtils.

(* ===================================================================== *)
(** * The upload endpoint *)
(* ===================================================================== *)

Module Upload.
Import PyStr FormatHandlers FileUtils Backend.

(** [s.rstrip('/')] *)
Fixpoint rstrip_slash (s : string) : string :=
  match s with
  | EmptyString => EmptyString
  | String a s' =>
      match rstrip_slash s' with
      | EmptyString => if Ascii.eqb a "/" then EmptyString else String a EmptyString
      | r => String a r
      end
  end.

(** A multipart file of the request: its name and its bytes. *)
Record UploadFile : Type := {
  filename : string;
  contents : string
}.

(** One element of [uploaded_files]. *)
Record UploadedFile : Type := {
  name : string;
  path : string;
  size : nat;
  format : string;
  handler_available : bool
}.

Record UploadResponse : Type := {
  success : bool;
  uploaded_files : list UploadedFile;
  message : string
}.

Definition supported_extensions : list string :=
  [".pdf"; ".md"; ".xlsx"; ".xls"; ".pptx"; ".ppt"; ".txt"; ".doc"; ".docx";
   ".csv"; ".json"].

(** [x in l] for strings. *)
Definition str_in (x : string) (l : list string) : bool := existsb (String.eqb x) l.

(** [file_ext in ['.pdf', '.md', '.xlsx', '.pptx']] *)
Definition handler_available_for (file_ext : string) : bool :=
  str_in file_ext [".pdf"; ".md"; ".xlsx"; ".pptx"].

Definition unsupported_detail (file_ext : string) : string :=
  String.append "Unsupported file format: "
    (String.append file_ext
       (String.append ". Supported formats: "
          (String.concat ", " supported_extensions))).

(** [f"{base_path}/{file.filename}"] with [base_path] stripped of trailing
    slashes. *)
Definition uc_path_of (volume_path file_name : string) : string :=
  String.append (rstrip_slash volume_path) (String.append "/" file_name).

Definition upload_message (n : nat) : string :=
  String.append "Successfully uploaded "
    (String.append (str_of_nat n) " files to UC Volume").

(** What has been written to the volume, in order: path and bytes. *)
Definition Volume : Type := list (string * string).

Section Endpoint.

(** The collaborators: the workspace client, the configured volume path, the
    volume upload ([overwrite=True]; it may raise), and [str(e)] of an
    [HTTPException], which the framework defines.  The temporary file each
    upload goes through is local to the iteration and is not modelled. *)
Variable w : bool.
Variable get_uc_volume_path : pyresult string.
Variable files_upload : string -> string -> pyresult unit.
Variable str_HTTPException : nat -> string -> string.

(** The [for file in files] loop of [upload_to_uc].  An exception leaves
    the loop, but what was written to the volume before stays written. *)
Fixpoint upload_loop (files : list UploadFile) (uploaded : list UploadedFile)
    (vol : Volume) : pyresult (list UploadedFile) * Volume :=
  match files with
  | [] => (Return uploaded, vol)
  | file :: rest =>
      let file_ext := get_file_extension (filename file) in
      if negb (str_in file_ext supported_extensions) then
        (Raise (str_HTTPException 400 (unsupported_detail file_ext)), vol)
      else
        match get_uc_volume_path with
        | Raise e => (Raise e, vol)
        | Return volume_path =>
            let uc_file_path := uc_path_of volume_path (filename file) in
            match files_upload uc_file_path (contents file) with
            | Raise e => (Raise e, vol)
            | Return _ =>
                upload_loop rest
                  (uploaded ++ [{| name := filename file;
                                   path := uc_file_path;
                                   size := String.length (contents file);
                                   format := file_ext;
                                   handler_available := handler_available_for file_ext |}])
                  (vol ++ [(uc_file_path, contents file)])
            end
        end
  end.

(** [upload_to_uc]: the answer, and the writes made to the volume. *)
Definition upload_to_uc (files : list UploadFile) : http UploadResponse * Volume :=
  if negb w then
    (HTTPException 500 "Databricks connection is not configured.", [])
  else
    match upload_loop files [] [] with
    | (Return uploaded, vol) =>
        (Ok200 {| success := true;
                  uploaded_files := uploaded;
                  message := upload_message (List.length uploaded) |}, vol)
    | (Raise e, vol) =>
        (HTTPException 500 (String.append "Upload failed: " e), vol)
    end.

(** The entry and the volume write of one accepted file. *)
Definition entry_of (volume_path : string) (file : UploadFile) : UploadedFile :=
  {| name := filename file;
     path := uc_path_of volume_path (filename file);
     size := String.length (contents file);
     format := get_file_extension (filename file);
     handler_available := handler_available_for (get_file_extension (filename file)) |}.

Definition write_of (volume_path : string) (file : UploadFile) : string * string :=
  (uc_path_of volume_path (filename file), contents file).

Definition accepted (volume_path : string) (file : UploadFile) : Prop :=
  str_in (get_file_extension (filename file)) supported_extensions = true
  /\ exists u, files_upload (uc_path_of volume_path (filename file)) (contents file)
               = Return u.

Lemma upload_loop_accepted (volume_path : string) (files : list UploadFile) :
  get_uc_volume_path = Return volume_path ->
  Forall (accepted volume_path) files ->
  forall rest uploaded vol,
    upload_loop (files ++ rest) uploaded vol
    = upload_loop rest (uploaded ++ map (entry_of volume_path) files)
        (vol ++ map (write_of volume_path) files).
Proof.
  intros Hvol HF. induction HF as [|file files [Hext [u Hup]] _ IH];
    intros rest uploaded vol.
  - simpl. now rewrite !app_nil_r.
  - cbn [app upload_loop map]. rewrite Hext, Hvol, Hup. cbn [negb].
    rewrite IH. unfold entry_of, write_of. now rewrite <- !app_assoc.
Qed.

Lemma upload_loop_returns (files : list UploadFile) :
  forall uploaded vol done vol',
    upload_loop files uploaded vol = (Return done, vol') ->
    files = [] /\ done = uploaded /\ vol' = vol
    \/ exists volume_path,
         get_uc_volume_path = Return volume_path
         /\ Forall (accepted volume_path) files
         /\ done = uploaded ++ map (entry_of volume_path) files
         /\ vol' = vol ++ map (write_of volume_path) files.
Proof.
  induction files as [|file files IH]; intros uploaded vol done vol' H.
  - left. cbn in H. injection H as <- <-. auto.
  - right. cbn [upload_loop] in H.
    destruct (str_in (get_file_extension (filename file)) supported_extensions)
      eqn:Hext; cbn [negb] in H; [|discriminate].
    destruct get_uc_volume_path as [volume_path|e] eqn:Hvol; [|discriminate].
    destruct (files_upload _ _) as [u|e] eqn:Hup; [|discriminate].
    exists volume_path. split; [reflexivity|].
    assert (Hacc : accepted volume_path file) by (split; [exact Hext|now exists u]).
    destruct (IH _ _ _ _ H) as [(-> & -> & ->)|(vp & Hvp & HF & -> & ->)].
    + split; [now constructor|]. split; reflexivity.
    + injection Hvp as <-. split; [now constructor|].
      cbn [map]. unfold entry_of, write_of. now rewrite <- !app_assoc.
Qed.

(** X3. When a file with an unsupported extension is met, the upload
    fails with status 500 (the 400 raised for it is caught by the
    endpoint's own [except Exception] and wrapped), although the accepted
    files before it have already been written to the volume; the files after
    it are not looked at. *)
Theorem unsupported_file_fails_with_500_after_partial_upload :
  forall (volume_path : string) (pre post : list UploadFile) (bad : UploadFile),
    w = true ->
    get_uc_volume_path = Return volume_path ->
    Forall (accepted volume_path) pre ->
    str_in (get_file_extension (filename bad)) supported_extensions = false ->
    upload_to_uc (pre ++ bad :: post)
    = (HTTPException 500
         (String.append "Upload failed: "
            (str_HTTPException 400
               (unsupported_detail (get_file_extension (filename bad))))),
       map (write_of volume_path) pre).
Proof.
  intros volume_path pre post bad Hw Hvol Hpre Hbad.
  unfold upload_to_uc. rewrite Hw. cbn [negb].
  rewrite (upload_loop_accepted volume_path pre Hvol Hpre).
  cbn [upload_loop app]. rewrite Hbad. reflexivity.
Qed.

(** X4. An upload that answers with a body has written every submitted
    file to the volume, in order, under [volume path/filename], and lists
    one entry per file, in order, with the file's name, that path, the
    number of bytes, and its lower-case extension, which is one of the
    supported ones. *)
Theorem upload_success_lists_every_file :
  forall (files : list UploadFile) (resp : UploadResponse) (vol : Volume),
    files <> [] ->
    upload_to_uc files = (Ok200 resp, vol) ->
    exists volume_path,
      get_uc_volume_path = Return volume_path
      /\ List.length (uploaded_files resp) = List.length files
      /\ Forall2 (fun file u =>
                    name u = filename file
                    /\ path u = uc_path_of volume_path (filename file)
                    /\ size u = String.length (contents file)
                    /\ format u = get_file_extension (filename file)
                    /\ In (format u) supported_extensions)
           files (uploaded_files resp)
      /\ vol = map (fun file => (uc_path_of volume_path (filename file), contents file))
                 files
      /\ message resp = upload_message (List.length files).
Proof.
  intros files resp vol Hne H. unfold upload_to_uc in H.
  destruct w; cbn [negb] in H; [|discriminate].
  destruct (upload_loop files [] []) as [[done|e] vol'] eqn:Hloop; [|discriminate].
  injection H as <- <-.
  destruct (upload_loop_returns _ _ _ _ _ Hloop)
    as [(-> & _)|(vp & Hvp & HF & -> & ->)]; [congruence|].
  exists vp. cbn [uploaded_files message app].
  split; [exact Hvp|]. split; [apply length_map|]. split; [|split].
  - clear Hloop Hne. induction HF as [|file files [Hext _] _ IH]; cbn [map];
      constructor; [|exact IH].
    cbn [entry_of name path size format]. repeat split.
    unfold str_in in Hext. apply existsb_exists in Hext.
    destruct Hext as (x & Hin & Heq). apply String.eqb_eq in Heq. now subst.
  - reflexivity.
  - now rewrite length_map.
Qed.

End Endpoint.

(** ** A deployment *)

Definition demo_volume_upload (uc_path body : string) : pyresult unit := Return tt.

Definition demo_str_HTTPException (status_code : nat) (detail : string) : string :=
  String.append (str_of_nat status_code) (String.append ": " detail).

Definition demo_upload_to_uc : list UploadFile -> http UploadResponse * Volume :=
  upload_to_uc true (Return "/Volumes/c/s/v/") demo_volume_upload
    demo_str_HTTPException.

Example demo_upload_ex :
  demo_upload_to_uc [{| filename := "Plan.MD"; contents := "# Plan" |}]
  = (Ok200 {| success := true;
              uploaded_files :=
                [{| name := "Plan.MD"; path := "/Volumes/c/s/v/Plan.MD"; size := 6;
                    format := ".md"; handler_available := true |}];
              message := "Successfully uploaded 1 files to UC Volume" |},
     [("/Volumes/c/s/v/Plan.MD", "# Plan")]).
Proof. reflexivity. Qed.

Lemma unsupported_file_fails_with_500_after_partial_upload_witness :
  demo_upload_to_uc
    [{| filename := "Plan.MD"; contents := "# Plan" |};
     {| filename := "bundle.zip"; contents := "PK" |};
     {| filename := "notes.txt"; contents := "n" |}]
  = (HTTPException 500
       (String.append "Upload failed: "
          (demo_str_HTTPException 400 (unsupported_detail ".zip"))),
     [("/Volumes/c/s/v/Plan.MD", "# Plan")]).
Proof.
  apply (unsupported_file_fails_with_500_after_partial_upload
           true (Return "/Volumes/c/s/v/") demo_volume_upload demo_str_HTTPException
           "/Volumes/c/s/v/"
           [{| filename := "Plan.MD"; contents := "# Plan" |}]
           [{| filename := "notes.txt"; contents := "n" |}]
           {| filename := "bundle.zip"; contents := "PK" |}).
  - reflexivity.
  - reflexivity.
  - constructor; [|constructor]. split; [reflexivity|]. now exists tt.
  - reflexivity.
Defined.

Lemma upload_success_lists_every_file_witness :
  exists volume_path,
    Return "/Volumes/c/s/v/" = Return volume_path
    /\ List.length [{| name := "Plan.MD"; path := "/Volumes/c/s/v/Plan.MD"; size := 6;
                       format := ".md"; handler_available := true |}] = 1.
Proof.
  destruct (upload_success_lists_every_file
              true (Return "/Volumes/c/s/v/") demo_volume_upload demo_str_HTTPException
              [{| filename := "Plan.MD"; contents := "# Plan" |}]
              {| success := true;
                 uploaded_files :=
                   [{| name := "Plan.MD"; path := "/Volumes/c/s/v/Plan.MD"; size := 6;
                       format := ".md"; handler_available := true |}];
                 message := "Successfully uploaded 1 files to UC Volume" |}
              [("/Volumes/c/s/v/Plan.MD", "# Plan")])
    as (vp & Hvp & Hlen & _).
  - discriminate.
  - reflexivity.
  - exists vp. split; [exact Hvp|exact Hlen].
Defined.

(** ** The extension of an uploaded path *)

Lemma lower_append (a b : string) :
  lower (String.append a b) = String.append (lower a) (lower b).
Proof.
  induction a as [|c a IH]; simpl; [reflexivity|now rewrite IH].
Qed.

Lemma lower_ascii_slash (c : ascii) :
  Ascii.eqb (lower_ascii c) "/" = Ascii.eqb c "/".
Proof.
  destruct c as [[] [] [] [] [] [] [] []]; reflexivity.
Qed.

Lemma has_slash_lower (s : string) : has_char "/" (lower s) = has_char "/" s.
Proof.
  induction s as [|c s IH]; simpl; [reflexivity|].
  now rewrite lower_ascii_slash, IH.
Qed.

Lemma append_length (a b : string) :
  String.length (String.append a b) = String.length a + String.length b.
Proof.
  induction a as [|c a IH]; simpl; [reflexivity|now rewrite IH].
Qed.

Lemma rfind_from_append (c : ascii) (a b : string) :
  forall i last,
    rfind_from c (String.append a b) i last
    = rfind_from c b (i + Z.of_nat (String.length a))%Z (rfind_from c a i last).
Proof.
  induction a as [|x a IH]; intros i last.
  - cbn [String.append String.length rfind_from]. f_equal. lia.
  - cbn [String.append String.length rfind_from]. rewrite IH. f_equal. lia.
Qed.

(** The scan does not depend on where the counting starts. *)
Lemma rfind_from_shift (c : ascii) (s : string) :
  forall i last i' last',
    (rfind_from c s i last = last /\ rfind_from c s i' last' = last')
    \/ (exists n, rfind_from c s i last = (i + Z.of_nat n)%Z
                  /\ rfind_from c s i' last' = (i' + Z.of_nat n)%Z).
Proof.
  induction s as [|a s IH]; intros i last i' last'; [now left|].
  cbn [rfind_from]. destruct (Ascii.eqb a c).
  - right. destruct (IH (i + 1)%Z i (i' + 1)%Z i') as [[H1 H2]|(n & H1 & H2)].
    + exists 0. rewrite H1, H2. split; lia.
    + exists (S n). rewrite H1, H2. split; lia.
  - destruct (IH (i + 1)%Z last (i' + 1)%Z last') as [[H1 H2]|(n & H1 & H2)].
    + now left.
    + right. exists (S n). rewrite H1, H2. split; lia.
Qed.

Lemma rfind_from_absent (c : ascii) (s : string) :
  has_char c s = false -> forall i last, rfind_from c s i last = last.
Proof.
  induction s as [|a s IH]; intros H i last; [reflexivity|].
  cbn [has_char] in H. apply orb_false_iff in H. destruct H as [Ha Hs].
  cbn [rfind_from]. rewrite Ha. now apply IH.
Qed.

Lemma substring_append_shift (a b : string) :
  forall n m, substring (String.length a + n) m (String.append a b) = substring n m b.
Proof.
  induction a as [|x a IH]; intros n m; [reflexivity|].
  cbn [String.length String.append Nat.add substring]. apply IH.
Qed.

Lemma rfind_lt_length (c : ascii) (s : string) :
  (rfind c s < Z.of_nat (String.length s))%Z.
Proof.
  destruct (rfind_spec c s) as [[H _]|(n & H & Hg & _)]; rewrite H; [lia|].
  apply get_some_lt in Hg. lia.
Qed.

(** Below a directory, the extension is that of the file name. *)
Lemma splitext_below_directory (dir file_name : string) :
  has_char "/" file_name = false ->
  snd (splitext (String.append dir (String.append "/" file_name)))
  = snd (splitext file_name).
Proof.
  intros Hns.
  set (full := String.append dir (String.append "/" file_name)).
  assert (Hlen : String.length full = String.length dir + 1 + String.length file_name).
  { unfold full. rewrite !append_length. simpl. lia. }
  assert (Hsep : rfind "/" full = Z.of_nat (String.length dir)).
  { unfold full, rfind. rewrite rfind_from_append.
    change (String.append "/" file_name) with (String "/" file_name).
    cbn [rfind_from Ascii.eqb Bool.eqb]. rewrite rfind_from_absent by exact Hns. lia. }
  assert (Hsep' : rfind "/" file_name = (-1)%Z).
  { unfold rfind. now apply rfind_from_absent. }
  assert (Hdot : exists L, (L < Z.of_nat (String.length dir))%Z
             /\ rfind "." full
                = rfind_from "." file_name (Z.of_nat (String.length dir) + 1)%Z L).
  { exists (rfind "." dir). split; [apply rfind_lt_length|].
    unfold full, rfind at 1. rewrite rfind_from_append.
    change (String.append "/" file_name) with (String "/" file_name).
    cbn [rfind_from Ascii.eqb Bool.eqb]. reflexivity. }
  destruct Hdot as (L & HL & Hdot).
  unfold splitext. rewrite Hsep, Hsep', Hdot. fold full.
  destruct (rfind_from_shift "." file_name
              (Z.of_nat (String.length dir) + 1)%Z L 0%Z (-1)%Z)
    as [[H1 H2]|(n & H1 & H2)].
  - fold (rfind "." file_name) in H2. rewrite H1, H2.
    replace (Z.of_nat (String.length dir) <? L)%Z with false
      by (symmetry; apply Z.ltb_ge; lia).
    reflexivity.
  - fold (rfind "." file_name) in H2. rewrite H1, H2.
    replace (Z.of_nat (String.length dir) <? Z.of_nat (String.length dir) + 1 + Z.of_nat n)%Z
      with true by (symmetry; apply Z.ltb_lt; lia).
    replace (-1 <? 0 + Z.of_nat n)%Z with true by (symmetry; apply Z.ltb_lt; lia).
    cbn [andb].
    assert (Hslice : slice full (Z.of_nat (String.length dir) + 1)
                       (Z.of_nat (String.length dir) + 1 + Z.of_nat n)
                     = slice file_name (-1 + 1) (0 + Z.of_nat n)).
    { unfold slice.
      replace (Z.to_nat (Z.of_nat (String.length dir) + 1))
        with (String.length (String.append dir "/") + 0)
        by (rewrite append_length; simpl; lia).
      replace (Z.to_nat (Z.of_nat (String.length dir) + 1 + Z.of_nat n
                         - (Z.of_nat (String.length dir) + 1))) with n by lia.
      replace (Z.to_nat (0 + Z.of_nat n - (-1 + 1))) with n by lia.
      change (Z.to_nat (-1 + 1)) with 0.
      unfold full.
      replace (String.append dir (String.append "/" file_name))
        with (String.append (String.append dir "/") file_name).
      - apply substring_append_shift.
      - clear. induction dir as [|c dir IH]; simpl; [reflexivity|now rewrite IH]. }
    rewrite Hslice.
    destruct (has_non_dot (slice file_name (-1 + 1) (0 + Z.of_nat n)));
      [|reflexivity].
    cbn [snd]. unfold slice_from. rewrite Hlen.
    replace (Z.to_nat (Z.of_nat (String.length dir) + 1 + Z.of_nat n))
      with (String.length (String.append dir "/") + n)
      by (rewrite append_length; simpl; lia).
    replace (String.length dir + 1 + String.length file_name
             - (String.length (String.append dir "/") + n))
      with (String.length file_name - Z.to_nat (0 + Z.of_nat n))
      by (rewrite append_length; simpl; lia).
    replace (Z.to_nat (0 + Z.of_nat n)) with n by lia.
    unfold full.
    replace (String.append dir (String.append "/" file_name))
      with (String.append (String.append dir "/") file_name).
    + apply substring_append_shift.
    + clear. induction dir as [|c dir IH]; simpl; [reflexivity|now rewrite IH].
Qed.

Lemma get_file_extension_of_uc_path (volume_path file_name : string) :
  has_char "/" file_name = false ->
  get_file_extension (uc_path_of volume_path file_name) = get_file_extension file_name.
Proof.
  intros Hns. unfold get_file_extension, uc_path_of.
  rewrite !lower_append. change (lower "/") with "/".
  apply splitext_below_directory. now rewrite has_slash_lower.
Qed.

(** ** The [handler_available] flag against the registry *)

Definition registry_lookup (ext : string) : option FormatHandler :=
  get_format_handler
    (match dict_get format_mapping ext with
     | Some f => f
     | None => "unknown"
     end).

Lemma flag_versus_registry (ext : string) :
  ((handler_available_for ext = true /\ registry_lookup ext = None)
     <-> ext = ".pdf")
  /\ ((handler_available_for ext = false /\ registry_lookup ext <> None)
     <-> In ext [".markdown"; ".xls"; ".ppt"]).
Proof.
  destruct (in_dec string_dec ext
              [".md"; ".markdown"; ".xlsx"; ".xls"; ".pptx"; ".ppt"; ".pdf"])
    as [Hin|Hnin].
  - repeat (destruct Hin as [<-|Hin];
            [cbv; intuition (try discriminate; try congruence)|]).
    destruct Hin.
  - assert (Hne : forall l, In l [".md"; ".markdown"; ".xlsx"; ".xls"; ".pptx";
                                  ".ppt"; ".pdf"] ->
                            String.eqb l ext = false /\ String.eqb ext l = false).
    { intros l Hl. split; apply String.eqb_neq; intros Heq; apply Hnin; now subst. }
    assert (Hflag : handler_available_for ext = false).
    { unfold handler_available_for, str_in. cbn [existsb].
      rewrite !(fun l Hl => proj2 (Hne l Hl)) by (simpl; tauto). reflexivity. }
    assert (Hreg : registry_lookup ext = None).
    { unfold registry_lookup, format_mapping. cbn [dict_get].
      rewrite !(fun l Hl => proj1 (Hne l Hl)) by (simpl; tauto). reflexivity. }
    rewrite Hflag, Hreg. split; split.
    + intros [H _]. discriminate.
    + intros ->. exfalso. apply Hnin. simpl. tauto.
    + intros [_ H]. congruence.
    + intros H. exfalso. apply Hnin. simpl in *. tauto.
Qed.

(** X5. For a file the upload accepts (supported extension, a name without
    a slash), the [handler_available] flag of its entry and the registry
    the redaction endpoint consults for the uploaded path disagree exactly
    on these extensions: ".pdf" is flagged available but has no registered
    handler, so that [redact_documents] skips the uploaded path; ".xls" and
    ".ppt" have a handler but are flagged unavailable. *)
Theorem handler_available_versus_registry :
  forall (volume_path : string) (file : UploadFile),
    has_char "/" (filename file) = false ->
    str_in (get_file_extension (filename file)) supported_extensions = true ->
    ((handler_available (entry_of volume_path file) = true
      /\ get_format_handler (detect_file_format (path (entry_of volume_path file)))
         = None)
       <-> format (entry_of volume_path file) = ".pdf")
    /\ ((handler_available (entry_of volume_path file) = false
         /\ get_format_handler (detect_file_format (path (entry_of volume_path file)))
            <> None)
       <-> In (format (entry_of volume_path file)) [".xls"; ".ppt"])
    /\ (format (entry_of volume_path file) = ".pdf" ->
        forall execute_statement extract_entities redact_content table warehouse_id,
          process_document execute_statement extract_entities redact_content
            table warehouse_id (path (entry_of volume_path file))
          = Return None).
Proof.
  intros volume_path file Hns Hacc. cbn [entry_of handler_available path format].
  assert (Hdetect :
    get_format_handler (detect_file_format (uc_path_of volume_path (filename file)))
    = registry_lookup (get_file_extension (filename file))).
  { rewrite detect_file_format_unfold, get_file_extension_of_uc_path by exact Hns.
    reflexivity. }
  rewrite Hdetect.
  destruct (flag_versus_registry (get_file_extension (filename file))) as [H1 H2].
  split; [exact H1|]. split.
  - rewrite H2. split.
    + intros [Hmd|Hin]; [|exact Hin].
      rewrite <- Hmd in Hacc. discriminate Hacc.
    + intros Hin. now right.
  - intros Hpdf exec ner red table wh. unfold process_document.
    rewrite Hdetect. apply H1 in Hpdf. now rewrite (proj2 Hpdf).
Qed.

Lemma handler_available_versus_registry_witness :
  handler_available (entry_of "/Volumes/c/s/v/" {| filename := "Scan.PDF"; contents := "%PDF" |})
  = true
  /\ get_format_handler
       (detect_file_format
          (path (entry_of "/Volumes/c/s/v/" {| filename := "Scan.PDF"; contents := "%PDF" |})))
     = None.
Proof.
  apply (proj1 (handler_available_versus_registry "/Volumes/c/s/v/"
                  {| filename := "Scan.PDF"; contents := "%PDF" |} eq_refl eq_refl)).
  reflexivity.
Defined.

End Upload.

(* ===================================================================== *)
(** * More on the redaction endpoint *)
(* ===================================================================== *)

Module RedactEndpoint.
Import PyStr FormatHandlers FileUtils Backend.

Section Endpoint.

Variable w : bool.
Variable current_warehouse_id : option string.
Variable get_delta_table_path : pyresult string.
Variable execute_statement : string -> string -> string -> pyresult (option (list Row)).
Variable extract_entities_for_redaction : string -> pyresult EntityMap.
Variable redact_content : FormatHandler -> string -> EntityMap -> pyresult string.

#[local] Abbreviation process :=
  (process_document execute_statement extract_entities_for_redaction redact_content).
#[local] Abbreviation loop :=
  (redact_loop execute_statement extract_entities_for_redaction redact_content).
#[local] Abbreviation endpoint :=
  (redact_documents w current_warehouse_id get_delta_table_path execute_statement
     extract_entities_for_redaction redact_content).
Lemma registered_format (f : string) (h : FormatHandler) :
  get_format_handler f = Some h -> In f ["markdown"; "excel"; "powerpoint"].
Proof.
  intros H. apply dict_get_in in H. unfold FORMAT_HANDLERS in H. simpl in *.
  destruct H as [H|[H|[H|[]]]]; injection H as <- _; tauto.
Qed.

(** What an appended entry looks like. *)
Lemma process_document_entry (d wh p : string) (r : RedactedFile) :
  process d wh p = Return (Some r) ->
  original_file r = p
  /\ Backend.format r = detect_file_format p
  /\ In (Backend.format r) ["markdown"; "excel"; "powerpoint"]
  /\ ((status r = "no_entities_found" /\ redacted_file r = p
       /\ entities_count r = 0 /\ entities r = None)
      \/ (status r = "redacted"
          /\ exists h M, M <> []
               /\ get_format_handler (detect_file_format p) = Some h
               /\ redact_content h p M = Return (redacted_file r)
               /\ entities_count r = List.length M /\ entities r = Some M)).
Proof.
  unfold process_document.
  destruct (get_format_handler (detect_file_format p)) as [h|] eqn:Hh; [|discriminate].
  pose proof (registered_format _ _ Hh) as Hreg.
  destruct (execute_statement d _ wh) as [[[|row rows]|]|e]; simpl; try discriminate.
  destruct (first_cell row) as [[content|]|e]; simpl; try discriminate.
  destruct (strip_is_empty content); [discriminate|].
  destruct (extract_entities_for_redaction content) as [[|kv ents]|e] eqn:Hner; simpl;
    try discriminate.
  - intros H. injection H as <-. cbn. repeat split; try assumption. left. auto.
  - destruct (redact_content h p (kv :: ents)) as [rp|e] eqn:Hred; simpl; [|discriminate].
    intros H. injection H as <-. cbn. repeat split; try assumption. right.
    split; [reflexivity|]. exists h, (kv :: ents). repeat split; try assumption.
    discriminate.
Qed.

(** X6. Every entry a successful call returns is for a Markdown, Excel or
    PowerPoint path (never "pdf" or "unknown"), carries the format detected
    from its own original path, and is either a no_entities_found entry
    that points back at the original file with a count of 0, or a redacted
    entry whose positive count is the size of the entity dictionary it
    carries. *)
Theorem redacted_entries_are_well_formed :
  forall (request : RedactDocumentRequest) (resp : RedactResponse) (r : RedactedFile),
    endpoint request = Ok200 resp ->
    In r (redacted_files resp) ->
    In (original_file r) (file_paths request)
    /\ Backend.format r = detect_file_format (original_file r)
    /\ In (Backend.format r) ["markdown"; "excel"; "powerpoint"]
    /\ ((status r = "no_entities_found" /\ redacted_file r = original_file r
         /\ entities_count r = 0 /\ entities r = None)
        \/ (status r = "redacted" /\ 0 < entities_count r
            /\ exists M, entities r = Some M /\ entities_count r = List.length M)).
Proof.
  intros request resp r Hok Hin.
  destruct (redact_documents_ok_inv _ _ _ _ _ _ _ _ Hok) as (d & wh & _ & Hloop).
  destruct (redact_loop_returns _ _ _ _ _ _ _ _ Hloop) as (outs & HF & Hfiles).
  simpl in Hfiles. rewrite Hfiles in Hin.
  destruct (appended_results_come_from_documents _ _ _ _ _ _ _ _ HF Hin)
    as (p & Hp & Hr).
  destruct (process_document_entry _ _ _ _ Hr) as (Ho & Hf & Hreg & Hcase).
  rewrite Ho. split; [exact Hp|]. split; [exact Hf|]. split; [exact Hreg|].
  destruct Hcase as [Hnone|(Hst & h & M & HM & _ & _ & Hc & He)]; [now left|].
  right. split; [exact Hst|]. split.
  - rewrite Hc. destruct M; [congruence|simpl; lia].
  - now exists M.
Qed.

(** ** Splitting a batch *)

Lemma redact_loop_accumulates (d wh : string) (paths : list string) :
  forall acc,
    loop d wh paths acc
    = (files <- loop d wh paths [] ;; Return (acc ++ files)).
Proof.
  induction paths as [|p paths IH]; intros acc.
  - simpl. now rewrite app_nil_r.
  - cbn [redact_loop]. destruct (process d wh p) as [out|e]; [|reflexivity].
    cbn [bind]. rewrite IH. rewrite (IH ([] ++ opt_to_list out)).
    destruct (loop d wh paths []) as [files|e]; [|reflexivity].
    cbn [bind app]. now rewrite app_assoc.
Qed.

(** X7. Submitting two non-empty batches in one request gives the results
    of the first followed by the results of the second, whenever both
    succeed on their own; and when the first fails on its own, the joint
    request fails with the same answer. *)
Theorem redact_documents_of_joined_batches :
  forall (paths1 paths2 types : list string),
    paths1 <> [] -> paths2 <> [] ->
    (forall resp1 resp2,
       endpoint {| file_paths := paths1; file_types := types |} = Ok200 resp1 ->
       endpoint {| file_paths := paths2; file_types := types |} = Ok200 resp2 ->
       endpoint {| file_paths := paths1 ++ paths2; file_types := types |}
       = Ok200 {| success := true;
                  message := success_message
                               (List.length (redacted_files resp1)
                                + List.length (redacted_files resp2));
                  redacted_files := redacted_files resp1 ++ redacted_files resp2 |})
    /\ (forall code detail,
          endpoint {| file_paths := paths1; file_types := types |}
          = HTTPException code detail ->
          endpoint {| file_paths := paths1 ++ paths2; file_types := types |}
          = HTTPException code detail).
Proof.
  intros paths1 paths2 types Hne1 Hne2.
  assert (Hne : paths1 ++ paths2 <> []) by (destruct paths1; [congruence|discriminate]).
  unfold redact_documents. cbn [file_paths].
  destruct w; cbn [negb]; [|split; [discriminate|auto]].
  destruct current_warehouse_id as [[|c wh]|]; try (split; [discriminate|auto]).
  destruct paths1 as [|p1 paths1]; [congruence|].
  destruct paths2 as [|p2 paths2]; [congruence|].
  change ((p1 :: paths1) ++ p2 :: paths2) with (p1 :: (paths1 ++ p2 :: paths2)).
  destruct get_delta_table_path as [d|e]; cbv beta iota delta [bind];
    [|split; [discriminate|auto]].
  change (p1 :: (paths1 ++ p2 :: paths2)) with ((p1 :: paths1) ++ p2 :: paths2).
  rewrite redact_loop_app.
  destruct (loop d (String c wh) (p1 :: paths1) []) as [files1|e1] eqn:H1;
    cbv beta iota delta [bind].
  - split; [|discriminate].
    intros resp1 resp2 Hr1 Hr2. injection Hr1 as <-.
    rewrite redact_loop_accumulates.
    destruct (loop d (String c wh) (p2 :: paths2) []) as [files2|e2] eqn:H2;
      [|discriminate].
    injection Hr2 as <-. cbv beta iota delta [bind]. cbn [redacted_files].
    now rewrite length_app.
  - split; [discriminate|auto].
Qed.

(** X8. The endpoint answers 400 exactly when it is configured and the
    request has no file path, then with the detail "file_paths is required";
    every other failure is a 500. *)
Theorem redact_documents_status_codes :
  forall (request : RedactDocumentRequest) (code : nat) (detail : string),
    endpoint request = HTTPException code detail ->
    (code = 400 \/ code = 500)
    /\ (code = 400 <->
        w = true
        /\ (exists c wh, current_warehouse_id = Some (String c wh))
        /\ file_paths request = [])
    /\ (code = 400 -> detail = "file_paths is required").
Proof.
  intros request code detail. unfold redact_documents.
  destruct w; cbn [negb].
  2:{ intros H. injection H as <- <-. split; [now right|].
      split; [split; [discriminate|intros [? _]; discriminate]|discriminate]. }
  destruct current_warehouse_id as [[|c wh]|].
  1,3: intros H; injection H as <- <-; split; [now right|];
       split; [split; [discriminate|intros (_ & (? & ? & ?) & _); discriminate]
              |discriminate].
  destruct (file_paths request) as [|p paths].
  - intros H. injection H as <- <-. split; [now left|]. split; [|reflexivity].
    split; [|reflexivity]. intros _. split; [reflexivity|].
    split; [now exists c, wh|reflexivity].
  - destruct (_ <- _ ;; _) as [files|e]; [discriminate|].
    intros H. injection H as <- <-. split; [now right|].
    split; [split; [discriminate|intros (_ & _ & ?); discriminate]|discriminate].
Qed.

End Endpoint.

Definition two_notes : RedactDocumentRequest :=
  batch_of ["/Volumes/c/s/v/a.md"; "/Volumes/c/s/v/c.md"].

Lemma redacted_entries_are_well_formed_witness :
  In (Backend.format
        {| original_file := "/Volumes/c/s/v/c.md";
           redacted_file := "/Volumes/c/s/v/c.md.redacted";
           entities_count := 1;
           entities := Some [("Acme Corp", "[CLIENT]")];
           status := "redacted";
           format := "markdown" |})
     ["markdown"; "excel"; "powerpoint"].
Proof.
  refine (proj1 (proj2 (proj2
            (redacted_entries_are_well_formed
               true (Some "862f1d757f0424f7") (Return "c.s.document_processing")
               demo_execute demo_ner demo_redact two_notes
               {| success := true;
                  message := "Successfully processed 2 file(s) for redaction";
                  redacted_files :=
                    [{| original_file := "/Volumes/c/s/v/a.md";
                        redacted_file := "/Volumes/c/s/v/a.md.redacted";
                        entities_count := 1;
                        entities := Some [("Acme Corp", "[CLIENT]")];
                        status := "redacted";
                        format := "markdown" |};
                     {| original_file := "/Volumes/c/s/v/c.md";
                        redacted_file := "/Volumes/c/s/v/c.md.redacted";
                        entities_count := 1;
                        entities := Some [("Acme Corp", "[CLIENT]")];
                        status := "redacted";
                        format := "markdown" |}] |}
               _ _ _)))).
  - reflexivity.
  - simpl. auto.
Defined.

Lemma redact_documents_of_joined_batches_witness :
  demo_redact_documents two_notes
  = Ok200 {| success := true;
             message := success_message (1 + 1);
             redacted_files :=
               [{| original_file := "/Volumes/c/s/v/a.md";
                   redacted_file := "/Volumes/c/s/v/a.md.redacted";
                   entities_count := 1;
                   entities := Some [("Acme Corp", "[CLIENT]")];
                   status := "redacted";
                   format := "markdown" |}]
               ++ [{| original_file := "/Volumes/c/s/v/c.md";
                      redacted_file := "/Volumes/c/s/v/c.md.redacted";
                      entities_count := 1;
                      entities := Some [("Acme Corp", "[CLIENT]")];
                      status := "redacted";
                      format := "markdown" |}] |}.
Proof.
  refine (proj1 (redact_documents_of_joined_batches
                   true (Some "862f1d757f0424f7") (Return "c.s.document_processing")
                   demo_execute demo_ner demo_redact
                   ["/Volumes/c/s/v/a.md"] ["/Volumes/c/s/v/c.md"] [] _ _)
            {| success := true;
               message := "Successfully processed 1 file(s) for redaction";
               redacted_files :=
                 [{| original_file := "/Volumes/c/s/v/a.md";
                     redacted_file := "/Volumes/c/s/v/a.md.redacted";
                     entities_count := 1;
                     entities := Some [("Acme Corp", "[CLIENT]")];
                     status := "redacted";
                     format := "markdown" |}] |}
            {| success := true;
               message := "Successfully processed 1 file(s) for redaction";
               redacted_files :=
                 [{| original_file := "/Volumes/c/s/v/c.md";
                     redacted_file := "/Volumes/c/s/v/c.md.redacted";
                     entities_count := 1;
                     entities := Some [("Acme Corp", "[CLIENT]")];
                     status := "redacted";
                     format := "markdown" |}] |}
            _ _).
  - discriminate.
  - discriminate.
  - reflexivity.
  - reflexivity.
Defined.

Lemma redact_documents_status_codes_witness :
  demo_redact_documents (batch_of []) = HTTPException 400 "file_paths is required"
  /\ (400 = 400 <->
      true = true
      /\ (exists c wh, Some "862f1d757f0424f7" = Some (String c wh))
      /\ file_paths (batch_of []) = []).
Proof.
  split; [reflexivity|].
  refine (proj1 (proj2 (redact_documents_status_codes
                   true (Some "862f1d757f0424f7") (Return "c.s.document_processing")
                   demo_execute demo_ner demo_redact (batch_of [])
                   400 "file_paths is required" _))).
  reflexivity.
Defined.

End RedactEndpoint.

(* ===================================================================== *)
(** * The export endpoint *)
(* ===================================================================== *)

Module ExportEndpoint.
Import PyStr FormatHandlers Backend.

(** The exporter classes registered in [EXPORTERS]. *)
Inductive Exporter : Type :=
| MarkdownExporter
| ExcelExporter
| PowerPointExporter.

(** [exporter.get_mime_type()] *)
Definition get_mime_type (e : Exporter) : string :=
  match e with
  | MarkdownExporter => "text/markdown"
  | ExcelExporter => xlsx_mime
  | PowerPointExporter => pptx_mime
  end.

(** The registry [EXPORTERS] of [app.py]. *)
Definition EXPORTERS : list (string * Exporter) :=
  [ ("md", MarkdownExporter); ("xlsx", ExcelExporter); ("pptx", PowerPointExporter) ].

Record ExportRequest : Type := {
  file_paths : list string;
  export_format : string;
  output_filename : option string
}.

(** The body of a successful answer ([export_format] of the answer is the
    requested one and is named [answered_format] here). *)
Record ExportResponse : Type := {
  success : bool;
  export_file_path : string;
  download_filename : string;
  answered_format : string;
  files_processed : nat
}.

(** The [metadata] dictionary handed to the exporter. *)
Record Metadata : Type := {
  files : list (option string);
  metadata_format : string
}.

Definition newline : ascii := ascii_of_nat 10.
Definition blank_line : string := String newline (String newline EmptyString).
Definition quote : string := String (ascii_of_nat 34) EmptyString.

(** [str + None] *)
Definition concat_none_error : string :=
  String.append "can only concatenate str (not "
    (String.append quote
       (String.append "NoneType" (String.append quote ") to str"))).

(** [f"{content}"] *)
Definition format_value (content : option string) : string :=
  match content with
  | Some c => c
  | None => "None"
  end.

(** [f"Unsupported export format: {fmt}. Supported: {list(EXPORTERS.keys())}"] *)
Definition unsupported_export_detail (fmt : string) : string :=
  String.append "Unsupported export format: "
    (String.append fmt ". Supported: ['md', 'xlsx', 'pptx']").

(** The loop over [result.result.data_array]: [row[0]] and [row[1]] are
    read, the content is appended to [combined_content] (after a blank line
    unless nothing has been combined yet) and the path to
    [metadata["files"]]. *)
Fixpoint combine (rows : list Row) (combined_content : string)
    (paths : list (option string)) : pyresult (string * list (option string)) :=
  match rows with
  | [] => Return (combined_content, paths)
  | row :: rest =>
      match row with
      | path :: content :: _ =>
          piece <- (match combined_content with
                    | String _ _ =>
                        Return (String.append blank_line (format_value content))
                    | EmptyString =>
                        match content with
                        | Some c => Return c
                        | None => Raise concat_none_error
                        end
                    end) ;;
          combine rest (String.append combined_content piece) (paths ++ [path])
      | _ => Raise "list index out of range"
      end
  end.

(** [request.output_filename or f"exported_document.{fmt}"] *)
Definition download_name (request : ExportRequest) : string :=
  match output_filename request with
  | Some (String c n) => String c n
  | _ => String.append "exported_document." (export_format request)
  end.

(** A row of the two-column query: path and content. *)
Definition to_row (pc : option string * option string) : Row := [fst pc; snd pc].

Section Endpoint.

(** The collaborators: the workspace client, the warehouse id (handed on
    unchecked), the delta table path, the statement execution (keyed by
    table, the dbfs paths of the [WHERE path IN] clause, none for an empty
    [file_paths], and the warehouse), the exporters' [export], and [str(e)]
    of an [HTTPException]. *)
Variable w : bool.
Variable current_warehouse_id : option string.
Variable get_delta_table_path : pyresult string.
Variable execute_statement :
  string -> list string -> option string -> pyresult (option (list Row)).
Variable export : Exporter -> string -> Metadata -> pyresult string.
Variable str_HTTPException : nat -> string -> string.

(** The body of the [try] block of [export_document]. *)
Definition export_body (request : ExportRequest) (exporter : Exporter)
  : pyresult ExportResponse :=
  destination_table <- get_delta_table_path ;;
  let dbfs_paths := map dbfs_path_of (file_paths request) in
  result <- execute_statement destination_table dbfs_paths current_warehouse_id ;;
  match result with
  | None => Raise (str_HTTPException 404 "No document data found")
  | Some [] => Raise (str_HTTPException 404 "No document data found")
  | Some (row :: rows) =>
      combined <- combine (row :: rows) EmptyString [] ;;
      let metadata := {| files := snd combined;
                         metadata_format := export_format request |} in
      export_file_path <- export exporter (fst combined) metadata ;;
      Return {| success := true;
                export_file_path := export_file_path;
                download_filename := download_name request;
                answered_format := export_format request;
                files_processed := List.length (files metadata) |}
  end.

(** [export_document] *)
Definition export_document (request : ExportRequest) : http ExportResponse :=
  if negb w then
    HTTPException 500 "Databricks connection is not configured."
  else
    match dict_get EXPORTERS (export_format request) with
    | None => HTTPException 400 (unsupported_export_detail (export_format request))
    | Some exporter =>
        match export_body request exporter with
        | Return body => Ok200 body
        | Raise e =>
            HTTPException 500 (String.append "Failed to export document: " e)
        end
    end.

(** X9. [export_document] answers 400 exactly when the client is configured
    and the requested format has no exporter; every other failure is a 500.
    In particular a query without rows is answered with 500, not 404: the
    404 raised for it is caught by the endpoint's own [except Exception]
    and wrapped. *)
Theorem export_document_status_codes :
  forall (request : ExportRequest),
    (forall code detail,
        export_document request = HTTPException code detail ->
        (code = 400 \/ code = 500)
        /\ (code = 400 <->
            w = true /\ dict_get EXPORTERS (export_format request) = None))
    /\ (forall exporter table,
          w = true ->
          dict_get EXPORTERS (export_format request) = Some exporter ->
          get_delta_table_path = Return table ->
          (execute_statement table (map dbfs_path_of (file_paths request))
             current_warehouse_id = Return None
           \/ execute_statement table (map dbfs_path_of (file_paths request))
                current_warehouse_id = Return (Some [])) ->
          export_document request
          = HTTPException 500
              (String.append "Failed to export document: "
                 (str_HTTPException 404 "No document data found"))).
Proof.
  intros request. split.
  - intros code detail. unfold export_document.
    destruct w; cbn [negb].
    2:{ intros H. injection H as <- <-. split; [now right|].
        split; [discriminate|intros [? _]; discriminate]. }
    destruct (dict_get EXPORTERS (export_format request)) as [exporter|].
    + destruct (export_body request exporter); [discriminate|].
      intros H. injection H as <- <-. split; [now right|].
      split; [discriminate|intros [_ ?]; discriminate].
    + intros H. injection H as <- <-. split; [now left|]. split; auto.
  - intros exporter table Hw Hexp Htable Hrows.
    unfold export_document, export_body. rewrite Hw, Hexp, Htable. cbn [negb bind].
    destruct Hrows as [-> | ->]; reflexivity.
Qed.

(** ** The combined content *)

Lemma concat_absorb (sep a b : string) (l : list string) :
  String.concat sep (String.append a (String.append sep b) :: l)
  = String.append a (String.append sep (String.concat sep (b :: l))).
Proof.
  assert (Hassoc : forall x y z : string,
             String.append (String.append x y) z
             = String.append x (String.append y z)).
  { intros x y z. induction x as [|c x IH]; simpl; [reflexivity|now rewrite IH]. }
  destruct l as [|x l]; cbn [String.concat]; [reflexivity|].
  now rewrite !Hassoc.
Qed.

Lemma combine_nonempty (rest : list (option string * option string)) :
  forall (c : ascii) (combined : string) (paths : list (option string)),
    combine (map to_row rest) (String c combined) paths
    = Return (String.concat blank_line
                (String c combined :: map (fun pc => format_value (snd pc)) rest),
              paths ++ map fst rest).
Proof.
  induction rest as [|[p content] rest IH]; intros c combined paths.
  - cbn. now rewrite app_nil_r.
  - cbn [map to_row fst snd combine bind].
    change (String.append (String c combined)
              (String.append blank_line (format_value content)))
      with (String c (String.append combined
                        (String.append blank_line (format_value content)))).
    rewrite IH. f_equal. f_equal.
    + change (String c (String.append combined
                          (String.append blank_line (format_value content))))
        with (String.append (String c combined)
                (String.append blank_line (format_value content))).
      rewrite concat_absorb. reflexivity.
    + now rewrite <- app_assoc.
Qed.

(** X10. The content handed to the exporter is the contents of the rows
    joined by blank lines, in row order, when the first row has a non-empty
    content (a NULL content further down is written as "None"); the paths
    are collected in row order.  A first row with an empty content leaves no
    trace in the content, and a first row with a NULL content makes the
    combination raise. *)
Theorem combined_content_is_joined_by_blank_lines :
  forall (first_path : option string) (first_content : string)
         (rest : list (option string * option string)),
    first_content <> EmptyString ->
    combine (map to_row ((first_path, Some first_content) :: rest)) EmptyString []
    = Return (String.concat blank_line
                (first_content :: map (fun pc => format_value (snd pc)) rest),
              first_path :: map fst rest)
    /\ (forall paths,
          combine (map to_row ((first_path, Some EmptyString) :: rest))
            EmptyString paths
          = combine (map to_row rest) EmptyString (paths ++ [first_path]))
    /\ (forall paths,
          combine (map to_row ((first_path, None) :: rest)) EmptyString paths
          = Raise concat_none_error).
Proof.
  intros p c rest Hc. split; [|split; reflexivity].
  destruct c as [|a c]; [congruence|].
  cbn [map to_row fst snd combine bind String.append].
  rewrite combine_nonempty. reflexivity.
Qed.

Lemma combine_counts (rows : list Row) :
  forall combined paths out,
    combine rows combined paths = Return out ->
    List.length (snd out) = List.length paths + List.length rows.
Proof.
  induction rows as [|row rows IH]; intros combined paths out H.
  - cbn in H. injection H as <-. simpl. lia.
  - cbn [combine] in H. destruct row as [|p [|content row]]; try discriminate.
    destruct (match combined with EmptyString => _ | String _ _ => _ end) as [piece|e];
      [|discriminate].
    cbn [bind] in H. apply IH in H. rewrite H, length_app. simpl. lia.
Qed.

(** X11. A successful export reports as [files_processed] the number of
    rows the warehouse returned for the request (at least one), answers the
    requested format, names the download after the request unless it gives
    no name, and returns the path the exporter of that format produced for
    the combined content. *)
Theorem export_success_reports_the_rows :
  forall (request : ExportRequest) (resp : ExportResponse),
    export_document request = Ok200 resp ->
    exists table rows exporter combined,
      dict_get EXPORTERS (export_format request) = Some exporter
      /\ get_delta_table_path = Return table
      /\ execute_statement table (map dbfs_path_of (file_paths request))
           current_warehouse_id = Return (Some rows)
      /\ combine rows EmptyString [] = Return combined
      /\ export exporter (fst combined)
           {| files := snd combined; metadata_format := export_format request |}
         = Return (export_file_path resp)
      /\ files_processed resp = List.length rows
      /\ 0 < files_processed resp
      /\ answered_format resp = export_format request
      /\ download_filename resp = download_name request
      /\ success resp = true.
Proof.
  intros request resp. unfold export_document.
  destruct w; cbn [negb]; [|discriminate].
  destruct (dict_get EXPORTERS (export_format request)) as [exporter|] eqn:Hexp;
    [|discriminate].
  unfold export_body.
  destruct get_delta_table_path as [table|e]; cbn [bind]; [|discriminate].
  destruct (execute_statement table _ current_warehouse_id)
    as [[[|row rows]|]|e] eqn:Hq; cbn [bind]; try discriminate.
  destruct (combine (row :: rows) EmptyString []) as [combined|e] eqn:Hc;
    cbn [bind]; [|discriminate].
  destruct (export exporter (fst combined) _) as [out|e] eqn:Hx; cbn [bind];
    [|discriminate].
  intros H. injection H as <-. cbn.
  pose proof (combine_counts _ _ _ _ Hc) as Hlen. simpl in Hlen.
  exists table, (row :: rows), exporter, combined.
  repeat split; try assumption; try reflexivity; simpl; lia.
Qed.

End Endpoint.

(** ** A deployment *)

Definition demo_rows : list Row :=
  map to_row [(Some "dbfs:/Volumes/c/s/v/a.md", Some "Alpha");
              (Some "dbfs:/Volumes/c/s/v/b.md", Some "Beta")].

Definition demo_execute (table : string) (paths : list string) (wh : option string)
  : pyresult (option (list Row)) :=
  match paths with
  | [] => Return (Some [])
  | _ => Return (Some demo_rows)
  end.

Definition demo_export (e : Exporter) (content : string) (m : Metadata)
  : pyresult string :=
  Return (String.append "/tmp/export." (metadata_format m)).

Definition demo_str_HTTPException (status_code : nat) (detail : string) : string :=
  String.append (str_of_nat status_code) (String.append ": " detail).

Definition demo_export_document : ExportRequest -> http ExportResponse :=
  export_document true (Some "862f1d757f0424f7") (Return "c.s.document_processing")
    demo_execute demo_export demo_str_HTTPException.

Example demo_export_ex :
  demo_export_document
    {| file_paths := ["/Volumes/c/s/v/a.md"; "/Volumes/c/s/v/b.md"];
       export_format := "md"; output_filename := None |}
  = Ok200 {| success := true; export_file_path := "/tmp/export.md";
             download_filename := "exported_document.md";
             answered_format := "md"; files_processed := 2 |}
  /\ demo_export_document
       {| file_paths := ["/Volumes/c/s/v/a.md"]; export_format := "pdf";
          output_filename := None |}
     = HTTPException 400
         "Unsupported export format: pdf. Supported: ['md', 'xlsx', 'pptx']".
Proof. split; reflexivity. Qed.

Lemma export_document_status_codes_witness :
  demo_export_document
    {| file_paths := []; export_format := "xlsx"; output_filename := None |}
  = HTTPException 500 "Failed to export document: 404: No document data found".
Proof.
  apply (proj2 (export_document_status_codes
                  true (Some "862f1d757f0424f7") (Return "c.s.document_processing")
                  demo_execute demo_export demo_str_HTTPException
                  {| file_paths := []; export_format := "xlsx";
                     output_filename := None |})
           ExcelExporter "c.s.document_processing").
  - reflexivity.
  - reflexivity.
  - reflexivity.
  - right. reflexivity.
Defined.

Lemma combined_content_is_joined_by_blank_lines_witness :
  combine demo_rows EmptyString []
  = Return (String.concat blank_line ["Alpha"; "Beta"],
            [Some "dbfs:/Volumes/c/s/v/a.md"; Some "dbfs:/Volumes/c/s/v/b.md"]).
Proof.
  apply (proj1 (combined_content_is_joined_by_blank_lines
                  (Some "dbfs:/Volumes/c/s/v/a.md") "Alpha"
                  [(Some "dbfs:/Volumes/c/s/v/b.md", Some "Beta")]
                  ltac:(discriminate))).
Defined.

Lemma export_success_reports_the_rows_witness :
  exists table rows,
    demo_execute table (map dbfs_path_of ["/Volumes/c/s/v/a.md"])
      (Some "862f1d757f0424f7") = Return (Some rows)
    /\ 1 + 1 = List.length rows.
Proof.
  destruct (export_success_reports_the_rows
              true (Some "862f1d757f0424f7") (Return "c.s.document_processing")
              demo_execute demo_export demo_str_HTTPException
              {| file_paths := ["/Volumes/c/s/v/a.md"]; export_format := "md";
                 output_filename := Some "out.md" |}
              {| success := true; export_file_path := "/tmp/export.md";
                 download_filename := "out.md";
                 answered_format := "md"; files_processed := 2 |}
              eq_refl)
    as (table & rows & exporter & combined & _ & _ & Hq & _ & _ & Hn & _).
  exists table, rows. split; [exact Hq|exact Hn].
Defined.

End ExportEndpoint.

(* ===================================================================== *)
(** * More on the write and poll logic of the page *)
(* ===================================================================== *)

Module Polling.
Import Frontend.

(** The sum of the timer delays of a run, in milliseconds. *)
Definition total_delay (tr : list Effect) : N := fold_right N.add 0%N (timers tr).

Lemma timers_app (tr1 tr2 : list Effect) : timers (tr1 ++ tr2) = timers tr1 ++ timers tr2.
Proof. unfold timers. apply flat_map_app. Qed.

Lemma total_delay_after_retry filePaths (r : PageState * list Effect) :
  total_delay (snd (after [query_effect filePaths; SetTimeout 10000%N] r))
  = (10000 + total_delay (snd r))%N.
Proof. reflexivity. Qed.

(** X12. The poll loop looks at an answer only through its test
    [success && data && data.length > 0]: two backends whose answers pass
    or fail that test alike, with the same rows, give the same run.  A
    rejected request, an unsuccessful answer and an empty data array are
    all "not yet". *)
Theorem polling_depends_on_results_only :
  forall (backend1 backend2 : nat -> ApiResult) (filePaths : list string)
         (s : PageState),
    (forall n, n < maxAttempts -> found (backend1 n) = found (backend2 n)) ->
    forall attemptCount,
      pollForResults backend1 filePaths attemptCount s
      = pollForResults backend2 filePaths attemptCount s.
Proof.
  intros b1 b2 fps s Hsame n.
  induction n as [n Hge | n Hlt IH] using attempts_ind.
  - now rewrite !poll_out_of_attempts.
  - destruct (found (b1 n)) as [rows|] eqn:Hf.
    + rewrite (poll_found b1 _ _ _ rows), (poll_found b2 _ _ _ rows);
        try assumption; [reflexivity|]. now rewrite <- Hsame.
    + rewrite (poll_retry b1), (poll_retry b2); try assumption.
      * now rewrite IH.
      * now rewrite <- Hsame.
Qed.

Definition empty_answer : QueryResponse :=
  {| success := true; data := Some []; error := None; message := None |}.

Lemma polling_depends_on_results_only_witness :
  pollForResults (fun _ => Rejected "HTTP error! status: 504")
    ["/Volumes/c/s/v/doc1.pdf"] 0 fresh_page
  = pollForResults (fun _ => Resolved empty_answer)
      ["/Volumes/c/s/v/doc1.pdf"] 0 fresh_page.
Proof.
  apply polling_depends_on_results_only. intros n _. reflexivity.
Defined.

(** ** What a poll run does and leaves alone *)

Lemma poll_run_shape backend filePaths s :
  forall attemptCount,
    (exists rows, rows <> []
       /\ fst (pollForResults backend filePaths attemptCount s) = showing rows s)
    \/ fst (pollForResults backend filePaths attemptCount s) = expired s.
Proof.
  intros n. induction n as [n Hge | n Hlt IH] using attempts_ind.
  - right. now rewrite poll_out_of_attempts.
  - destruct (found (backend n)) as [rows|] eqn:Hf.
    + left. exists rows. rewrite (poll_found _ _ _ _ rows) by assumption.
      split; [|reflexivity].
      destruct (backend n) as [q|]; [|discriminate]. cbn in Hf.
      unfold has_results in Hf. destruct (success q); [|discriminate].
      destruct (data q) as [[|r l]|]; try discriminate.
      injection Hf as <-. discriminate.
    + rewrite poll_retry by assumption. rewrite fst_after. exact IH.
Qed.

Lemma poll_run_effects backend filePaths s :
  forall attemptCount,
    Forall (fun e => e = query_effect filePaths \/ e = SetTimeout 10000%N)
      (snd (pollForResults backend filePaths attemptCount s)).
Proof.
  intros n. induction n as [n Hge | n Hlt IH] using attempts_ind.
  - rewrite poll_out_of_attempts by assumption. constructor.
  - destruct (found (backend n)) as [rows|] eqn:Hf.
    + rewrite (poll_found _ _ _ _ rows) by assumption.
      constructor; [now left|constructor].
    + rewrite poll_retry by assumption. cbn [after snd app].
      constructor; [now left|]. constructor; [now right|exact IH].
Qed.

(** X13. However the backend answers, a write with its polling ends with
    the loading flag off, either showing a non-empty list of rows with no
    error or showing the still-running message with no rows; it has fired
    exactly one write request, first of all, and after it only queries for
    the same files; it leaves the selected files alone, has recorded the
    files as the session's files and has opened the results panel. *)
Theorem write_run_always_settles :
  forall (backend : nat -> ApiResult) (filePaths : list string) (s : PageState),
    deltaTableLoading (fst (writeToDeltaTable backend filePaths s)) = false
    /\ ((exists rows, rows <> []
           /\ deltaTableResults (fst (writeToDeltaTable backend filePaths s)) = rows
           /\ deltaTableError (fst (writeToDeltaTable backend filePaths s)) = None)
        \/ (deltaTableResults (fst (writeToDeltaTable backend filePaths s)) = []
            /\ deltaTableError (fst (writeToDeltaTable backend filePaths s))
               = Some still_running_message))
    /\ (exists tr,
          snd (writeToDeltaTable backend filePaths s)
          = ApiCall "/api/write-to-delta-table" filePaths 10 :: SetTimeout 1000%N :: tr
          /\ Forall (fun e => e = query_effect filePaths \/ e = SetTimeout 10000%N) tr)
    /\ count_writes (snd (writeToDeltaTable backend filePaths s)) = 1
    /\ selectedFiles (fst (writeToDeltaTable backend filePaths s)) = selectedFiles s
    /\ processedSessionFiles (fst (writeToDeltaTable backend filePaths s)) = filePaths
    /\ showDeltaTableResults (fst (writeToDeltaTable backend filePaths s)) = true.
Proof.
  intros backend fps s. unfold writeToDeltaTable.
  destruct (writeToDeltaTable_start fps s) as [s1 es] eqn:Hstart.
  unfold writeToDeltaTable_start in Hstart. injection Hstart as Hs1 <-.
  rewrite fst_after. cbn [after snd app].
  pose proof (poll_run_effects backend fps s1 0) as Heff.
  assert (Hw : count_writes (snd (pollForResults backend fps 0 s1)) = 0).
  { unfold count_writes. induction Heff as [|e tr [-> | ->] _ IH]; auto. }
  destruct (poll_run_shape backend fps s1 0) as [(rows & Hne & ->)| ->].
  - split; [reflexivity|]. split; [left; now exists rows|].
    split; [eexists; split; [reflexivity|exact Heff]|].
    split; [unfold count_writes in *; cbn; now rewrite Hw|].
    subst s1. repeat split.
  - split; [reflexivity|]. split; [right; subst s1; split; reflexivity|].
    split; [eexists; split; [reflexivity|exact Heff]|].
    split; [unfold count_writes in *; cbn; now rewrite Hw|].
    subst s1. repeat split.
Qed.

(** ** How long a run waits *)

Lemma poll_delay_found backend filePaths s rows :
  forall attemptCount k,
    attemptCount <= k -> k < maxAttempts ->
    found (backend k) = Some rows ->
    (forall j, attemptCount <= j -> j < k -> found (backend j) = None) ->
    total_delay (snd (pollForResults backend filePaths attemptCount s))
    = (10000 * N.of_nat (k - attemptCount))%N.
Proof.
  intros n. induction n as [n Hge | n Hlt IH] using attempts_ind;
    intros k Hnk Hk Hf Hnone; [lia|].
  destruct (Nat.eq_dec n k) as [->|Hneq].
  - rewrite (poll_found _ _ _ _ rows) by assumption.
    rewrite Nat.sub_diag. reflexivity.
  - rewrite poll_retry by (try apply Hnone; lia).
    rewrite total_delay_after_retry, (IH k); try lia; try assumption.
    intros j Hj1 Hj2. apply Hnone; lia.
Qed.

Lemma poll_delay_expired backend filePaths s :
  forall attemptCount,
    (forall j, attemptCount <= j -> j < maxAttempts -> found (backend j) = None) ->
    total_delay (snd (pollForResults backend filePaths attemptCount s))
    = (10000 * N.of_nat (maxAttempts - attemptCount))%N.
Proof.
  intros n. induction n as [n Hge | n Hlt IH] using attempts_ind; intros Hnone.
  - rewrite poll_out_of_attempts by assumption.
    replace (maxAttempts - n) with 0 by lia. reflexivity.
  - rewrite poll_retry by (try apply Hnone; lia).
    rewrite total_delay_after_retry, IH; [lia|].
    intros j Hj1 Hj2. apply Hnone; lia.
Qed.

(** X14. The timers of a write with its polling add up to 1 s plus 10 s
    for every attempt that found nothing: results first found by attempt
    number [k] (counting from 0) are shown after 1000 + 10000 * k ms of
    timers, and the still-running message appears after 301000 ms of
    timers, the thirty-first timer included. *)
Theorem write_run_delay :
  forall (backend : nat -> ApiResult) (filePaths : list string) (s : PageState),
    (forall k rows,
        k < maxAttempts ->
        found (backend k) = Some rows ->
        (forall j, j < k -> found (backend j) = None) ->
        total_delay (snd (writeToDeltaTable backend filePaths s))
        = (1000 + 10000 * N.of_nat k)%N)
    /\ ((forall j, j < maxAttempts -> found (backend j) = None) ->
        total_delay (snd (writeToDeltaTable backend filePaths s)) = 301000%N).
Proof.
  intros backend fps s. unfold writeToDeltaTable.
  destruct (writeToDeltaTable_start fps s) as [s1 es] eqn:Hstart.
  unfold writeToDeltaTable_start in Hstart. injection Hstart as _ <-.
  change (total_delay (snd (after [ApiCall "/api/write-to-delta-table" fps 10;
                                   SetTimeout 1000%N]
                              (pollForResults backend fps 0 s1))))
    with (1000 + total_delay (snd (pollForResults backend fps 0 s1)))%N.
  split.
  - intros k rows Hk Hf Hnone.
    rewrite (poll_delay_found backend fps s1 rows 0 k); try assumption; try lia.
    intros j _ Hj. now apply Hnone.
  - intros Hnone. rewrite poll_delay_expired.
    + reflexivity.
    + intros j _ Hj. now apply Hnone.
Qed.

Lemma write_run_delay_witness :
  total_delay (snd (writeToDeltaTable ready_at_sixth ["/Volumes/c/s/v/doc1.pdf"]
                      fresh_page))
  = 51000%N
  /\ total_delay (snd (writeToDeltaTable timing_out ["/Volumes/c/s/v/doc1.pdf"]
                         fresh_page))
     = 301000%N.
Proof.
  split.
  - apply (proj1 (write_run_delay ready_at_sixth ["/Volumes/c/s/v/doc1.pdf"]
                    fresh_page) 5 ["{path: doc1.pdf, content: ...}"]).
    + unfold maxAttempts. lia.
    + reflexivity.
    + intros j Hj. do 5 (destruct j as [|j]; [reflexivity|]). lia.
  - apply (proj2 (write_run_delay timing_out ["/Volumes/c/s/v/doc1.pdf"] fresh_page)).
    intros j _. reflexivity.
Defined.

End Polling.

(* ===================================================================== *)
(** * The page: query errors, and the write button *)
(* ===================================================================== *)

Module QueryPanel.
Import Frontend.

(** How [fetch] settles: it rejects (network failure), or it resolves with a
    status and, for the statuses [apiCall] reads it, a JSON body. *)
Inductive FetchResult : Type :=
| NetworkError (reason : string)
| HttpResponse (status : nat) (body : QueryResponse).

(** [response.ok] *)
Definition response_ok (status : nat) : bool := (200 <=? status) && (status <=? 299).

Definition http_error_message (status : nat) : string :=
  String.append "HTTP error! status: " (PyStr.str_of_nat status).

(** [apiCall] for the query endpoint. *)
Definition apiCall (r : FetchResult) : ApiResult :=
  match r with
  | NetworkError reason => Rejected reason
  | HttpResponse status body =>
      if response_ok status then Resolved body
      else Rejected (http_error_message status)
  end.

Definition patient_message : string :=
  "The query is taking longer than expected. Please by patient.".
Definition server_error_message : string :=
  "There was a server error querying your data. Please check your configuration and try again.".

(** The message the panel shows for a failed status. *)
Definition shown_for_status (status : nat) : string :=
  if status =? 504 then patient_message
  else if status =? 500 then server_error_message
  else http_error_message status.

Definition status_message_agrees (status : nat) : bool :=
  response_ok status
  || String.eqb (friendlyQueryError (http_error_message status)) (shown_for_status status).

Lemma status_messages_checked :
  forallb status_message_agrees (seq 100 500) = true.
Proof. vm_compute. reflexivity. Qed.

(** X15. When the query request of [queryDeltaTableResults] is answered
    with a status outside 200..299 (among the statuses 100..599), the body
    is not read: the rows are cleared, loading is switched off, and the
    panel shows the patient message for 504, the server-error message for
    500, and the bare "HTTP error! status: N" for every other status. *)
Theorem failed_query_status_message :
  forall (status : nat) (body : QueryResponse) (s : PageState),
    processedSessionFiles s <> [] ->
    100 <= status -> status <= 599 ->
    response_ok status = false ->
    deltaTableError (fst (queryDeltaTableResults (apiCall (HttpResponse status body)) s))
    = Some (shown_for_status status)
    /\ deltaTableResults
         (fst (queryDeltaTableResults (apiCall (HttpResponse status body)) s)) = []
    /\ deltaTableLoading
         (fst (queryDeltaTableResults (apiCall (HttpResponse status body)) s)) = false.
Proof.
  intros status body s Hfiles Hlo Hhi Hok.
  assert (Hmsg : friendlyQueryError (http_error_message status) = shown_for_status status).
  { pose proof status_messages_checked as Hall.
    rewrite forallb_forall in Hall.
    assert (Hin : In status (seq 100 500)) by (apply in_seq; lia).
    specialize (Hall status Hin). unfold status_message_agrees in Hall.
    rewrite Hok in Hall. cbn [orb] in Hall. now apply String.eqb_eq. }
  unfold apiCall. rewrite Hok. unfold queryDeltaTableResults.
  destruct (processedSessionFiles s) as [|f fs]; [congruence|].
  cbn [fst deltaTableError deltaTableResults deltaTableLoading
       setDeltaTableLoading setDeltaTableError setDeltaTableResults].
  rewrite Hmsg. repeat split.
Qed.

Definition session_page : PageState :=
  setProcessedSessionFiles ["/Volumes/c/s/v/doc1.pdf"] fresh_page.

Lemma failed_query_status_message_witness :
  deltaTableError
    (fst (queryDeltaTableResults (apiCall (HttpResponse 504 parsed_rows)) session_page))
  = Some patient_message.
Proof.
  apply (proj1 (failed_query_status_message 504 parsed_rows session_page
                  ltac:(discriminate) ltac:(lia) ltac:(lia) eq_refl)).
Defined.

(** X16. [queryDeltaTableResults] with no session file sends nothing and
    only empties the rows.  With session files it sends exactly one query
    for them (limit 20) and always ends with loading off: a successful
    answer shows its rows (none when the answer has no data) and clears the
    error; a rejected request or an unsuccessful answer empties the rows and
    sets an error. *)
Theorem query_always_settles :
  forall (result : ApiResult) (s : PageState),
    (processedSessionFiles s = [] ->
       queryDeltaTableResults result s = (setDeltaTableResults [] s, []))
    /\ (processedSessionFiles s <> [] ->
        snd (queryDeltaTableResults result s)
        = [ApiCall "/api/query-delta-table" (processedSessionFiles s) 20]
        /\ deltaTableLoading (fst (queryDeltaTableResults result s)) = false
        /\ (forall q, result = Resolved q -> success q = true ->
              deltaTableError (fst (queryDeltaTableResults result s)) = None
              /\ deltaTableResults (fst (queryDeltaTableResults result s))
                 = match data q with Some rows => rows | None => [] end)
        /\ ((forall q, result = Resolved q -> success q = false) ->
              deltaTableResults (fst (queryDeltaTableResults result s)) = []
              /\ exists msg,
                   deltaTableError (fst (queryDeltaTableResults result s)) = Some msg)).
Proof.
  intros result s. unfold queryDeltaTableResults.
  destruct (processedSessionFiles s) as [|f fs]; (split; [intros H|intros H]);
    try congruence; try reflexivity.
  clear H. split; [reflexivity|]. split; [reflexivity|]. split.
  - intros q -> Hs. rewrite Hs. split; reflexivity.
  - intros Hfail. destruct result as [q|reason].
    + rewrite (Hfail q eq_refl). split; [reflexivity|]. eexists. reflexivity.
    + split; [reflexivity|]. eexists. reflexivity.
Qed.

Lemma query_always_settles_witness :
  snd (queryDeltaTableResults (Resolved parsed_rows) session_page)
  = [ApiCall "/api/query-delta-table" ["/Volumes/c/s/v/doc1.pdf"] 20].
Proof.
  apply (proj1 (proj2 (query_always_settles (Resolved parsed_rows) session_page)
                  ltac:(discriminate))).
Defined.

(** ** The write button and its handler *)

Lemma uploadedPaths_in (s : PageState) (p : string) :
  In p (uploadedPaths s) <->
  exists f, In f (selectedFiles s) /\ isUploaded f = true
            /\ ucPath f = Some p /\ p <> EmptyString.
Proof.
  unfold uploadedPaths. rewrite in_flat_map. split.
  - intros (f & Hf & Hp). apply filter_In in Hf. destruct Hf as [Hin Hc].
    apply andb_true_iff in Hc. destruct Hc as [Hu Ht].
    destruct (ucPath f) as [q|] eqn:Hq; [|destruct Hp].
    destruct Hp as [->|[]]. exists f. repeat split; try assumption.
    intros ->. discriminate.
  - intros (f & Hin & Hu & Hq & Hne). exists f. split.
    + apply filter_In. split; [exact Hin|]. rewrite Hu, Hq.
      destruct p; [congruence|reflexivity].
    + rewrite Hq. now left.
Qed.

(** X17. A click on "Write to Delta Table" fires a write request exactly
    when no write is loading and some selected file is uploaded with a
    non-empty volume path; the request then carries the paths of exactly
    those files, in order.  In every other case nothing is sent: the button
    is disabled, or (files marked uploaded without a path) the handler only
    sets its error message. *)
Theorem click_sends_the_uploaded_paths :
  forall (s : PageState),
    (deltaTableLoading s = false -> uploadedPaths s <> [] ->
       snd (clickWriteToDeltaTable s)
       = [ApiCall "/api/write-to-delta-table" (uploadedPaths s) 10; SetTimeout 1000%N])
    /\ (deltaTableLoading s = true \/ uploadedPaths s = [] ->
        snd (clickWriteToDeltaTable s) = [])
    /\ (forall p, In p (uploadedPaths s) <->
          exists f, In f (selectedFiles s) /\ isUploaded f = true
                    /\ ucPath f = Some p /\ p <> EmptyString).
Proof.
  intros s. split; [|split; [|apply uploadedPaths_in]].
  - intros Hl Hne. unfold clickWriteToDeltaTable, writeButtonDisabled.
    rewrite Hl. cbn [orb].
    assert (Hsome : filter isUploaded (selectedFiles s) <> []).
    { destruct (uploadedPaths s) as [|p ps] eqn:Hp; [congruence|].
      assert (Hin : In p (uploadedPaths s)) by (rewrite Hp; now left).
      apply uploadedPaths_in in Hin. destruct Hin as (f & Hin & Hu & _).
      intros Hnil. assert (Hf : In f (filter isUploaded (selectedFiles s)))
        by (apply filter_In; auto).
      rewrite Hnil in Hf. destruct Hf. }
    destruct (filter isUploaded (selectedFiles s)) as [|f fs]; [congruence|].
    cbn [List.length Nat.eqb]. unfold handleWriteToDeltaTable_start.
    destruct (uploadedPaths s) as [|p ps]; [congruence|]. reflexivity.
  - intros H. unfold clickWriteToDeltaTable.
    destruct (writeButtonDisabled s) eqn:Hd; [reflexivity|].
    unfold writeButtonDisabled in Hd. apply orb_false_iff in Hd.
    destruct Hd as [Hl _]. destruct H as [H|H]; [congruence|].
    unfold handleWriteToDeltaTable_start. rewrite H. reflexivity.
Qed.

Lemma click_sends_the_uploaded_paths_witness :
  snd (clickWriteToDeltaTable fresh_page)
  = [ApiCall "/api/write-to-delta-table" ["/Volumes/c/s/v/doc1.pdf"] 10;
     SetTimeout 1000%N].
Proof.
  apply (proj1 (click_sends_the_uploaded_paths fresh_page)).
  - reflexivity.
  - discriminate.
Defined.

End QueryPanel.

(* ===================================================================== *)
(** * The page: selecting, uploading, redacting and exporting files *)
(* ===================================================================== *)

Module FilesPanel.

(** [SelectedFile], all fields but the browser's [File] object; an optional
    field that is [undefined] is [None]. *)
Record SelectedFile : Type := {
  name : string;
  size : nat;
  type : string;
  preview : option string;
  previewUrl : option string;
  isUploaded : bool;
  ucPath : option string;
  isProcessing : bool;
  processError : option string;
  format : option string;
  extension : option string;
  handlerAvailable : option bool;
  redactionSupported : option bool
}.

(** A file of the browser's file input: name, size, MIME type. *)
Record BrowserFile : Type := {
  file_name : string;
  file_size : nat;
  file_type : string
}.

(** The element of [uploaded_files] as the page reads it: the keys it looks
    up, each possibly missing from the JSON object. *)
Record UploadedFileInfo : Type := {
  path : option string;
  info_format : option string;
  info_extension : option string;
  handler_available : option bool;
  redaction_supported : option bool
}.

(** How an [apiCall] settles. *)
Inductive ApiOutcome (A : Type) : Type :=
| Resolved (result : A)
| Rejected (reason : string).
Arguments Resolved {A} result.
Arguments Rejected {A} reason.

(** The requests the handlers of this panel send. *)
Inductive Call : Type :=
| UploadToUc (file : string)
| RedactDocument (file_paths : list string)
| ExportDocument (file_paths : list string) (export_format output_filename : string).

(** JavaScript truthiness. *)
Definition truthy_string (o : option string) : bool :=
  match o with
  | Some (String _ _) => true
  | _ => false
  end.

Definition truthy_bool (o : option bool) : bool :=
  match o with
  | Some b => b
  | None => false
  end.

(** [prev.map((f, i) => i === fileIndex ? g(f) : f)] *)
Fixpoint update_at (fileIndex : nat) (g : SelectedFile -> SelectedFile)
    (files : list SelectedFile) : list SelectedFile :=
  match files with
  | [] => []
  | f :: rest =>
      match fileIndex with
      | O => g f :: rest
      | S i => f :: update_at i g rest
      end
  end.

(** [handleFileChange]: the chosen files replace the selection. *)
Definition handleFileChange (files : list BrowserFile) : list SelectedFile :=
  map (fun file => {| name := file_name file; size := file_size file;
                      type := file_type file; preview := None; previewUrl := None;
                      isUploaded := false; ucPath := None; isProcessing := false;
                      processError := None; format := None; extension := None;
                      handlerAvailable := None; redactionSupported := None |})
    files.

Definition start_processing (f : SelectedFile) : SelectedFile :=
  {| name := name f; size := size f; type := type f; preview := preview f;
     previewUrl := previewUrl f; isUploaded := isUploaded f; ucPath := ucPath f;
     isProcessing := true; processError := None; format := format f;
     extension := extension f; handlerAvailable := handlerAvailable f;
     redactionSupported := redactionSupported f |}.

Definition mark_uploaded (uc : option string) (info : option UploadedFileInfo)
    (f : SelectedFile) : SelectedFile :=
  {| name := name f; size := size f; type := type f; preview := preview f;
     previewUrl := previewUrl f; isUploaded := true; ucPath := uc;
     isProcessing := isProcessing f; processError := processError f;
     format := match info with Some i => info_format i | None => None end;
     extension := match info with Some i => info_extension i | None => None end;
     handlerAvailable := match info with Some i => handler_available i | None => None end;
     redactionSupported :=
       match info with Some i => redaction_supported i | None => None end |}.

Definition stop_processing (f : SelectedFile) : SelectedFile :=
  {| name := name f; size := size f; type := type f; preview := preview f;
     previewUrl := previewUrl f; isUploaded := isUploaded f; ucPath := ucPath f;
     isProcessing := false; processError := processError f; format := format f;
     extension := extension f; handlerAvailable := handlerAvailable f;
     redactionSupported := redactionSupported f |}.

Definition fail_processing (msg : string) (f : SelectedFile) : SelectedFile :=
  {| name := name f; size := size f; type := type f; preview := preview f;
     previewUrl := previewUrl f; isUploaded := isUploaded f; ucPath := ucPath f;
     isProcessing := false; processError := Some msg; format := format f;
     extension := extension f; handlerAvailable := handlerAvailable f;
     redactionSupported := redactionSupported f |}.

(** [handleProcessFile]: the upload of one selected file.  [outcome] is how
    the upload request settles, with the [uploaded_files] array of its
    answer.  Every error caught is an [Error], whose message
    [getErrorMessage] returns. *)
Definition handleProcessFile (fileIndex : nat)
    (outcome : ApiOutcome (list UploadedFileInfo))
    (selectedFiles : list SelectedFile) : list SelectedFile * list Call :=
  match nth_error selectedFiles fileIndex with
  | None => (selectedFiles, [])
  | Some file =>
      let files1 := update_at fileIndex start_processing selectedFiles in
      let caught (msg : string) := update_at fileIndex (fail_processing msg) files1 in
      (match outcome with
       | Rejected reason => caught reason
       | Resolved uploaded_files =>
           let info := hd_error uploaded_files in
           let uc := match info with Some i => path i | None => None end in
           if truthy_string uc then
             update_at fileIndex stop_processing
               (update_at fileIndex (mark_uploaded uc info) files1)
           else caught "Failed to get UC path from upload response"
       end,
       [UploadToUc (name file)])
  end.

(** The rows of the delta table panel, kept opaque. *)
Definition DeltaRow : Type := string.

(** The redaction state of the page. *)
Record RedactionState (R : Type) : Type := {
  documentRedactionLoading : bool;
  documentRedactionError : option string;
  documentRedactionSuccess : bool;
  redactedFiles : list R
}.
Arguments documentRedactionLoading {R} _.
Arguments documentRedactionError {R} _.
Arguments documentRedactionSuccess {R} _.
Arguments redactedFiles {R} _.

(** The answer of [/api/redact-document] as the page reads it. *)
Record RedactAnswer (R : Type) : Type := {
  redact_success : bool;
  redacted_files : option (list R);
  redact_message : option string
}.
Arguments redact_success {R} _.
Arguments redacted_files {R} _.
Arguments redact_message {R} _.

Definition ucPaths (files : list SelectedFile) : list string :=
  flat_map (fun f => match ucPath f with Some p => [p] | None => [] end) files.

(** [handleRedactDocuments]; an entry of [redacted_files] is of type [R]. *)
Definition handleRedactDocuments {R : Type} (selectedFiles : list SelectedFile)
    (deltaTableResults : list DeltaRow) (outcome : ApiOutcome (RedactAnswer R))
    (st : RedactionState R) : RedactionState R * list Call :=
  let failed (msg : string) :=
    {| documentRedactionLoading := false; documentRedactionError := Some msg;
       documentRedactionSuccess := false; redactedFiles := [] |} in
  let uploadedFiles :=
    filter (fun f => isUploaded f && truthy_string (ucPath f)
                     && truthy_bool (redactionSupported f)) selectedFiles in
  let filePaths := ucPaths uploadedFiles in
  match filePaths with
  | [] =>
      (failed "No uploaded files with redaction support found. Please upload supported files first.",
       [])
  | _ :: _ =>
      match deltaTableResults with
      | [] =>
          (failed "No document data found. Please write to Delta Table first.", [])
      | _ :: _ =>
          (match outcome with
           | Rejected reason => failed reason
           | Resolved result =>
               match redact_success result, redacted_files result with
               | true, Some files =>
                   {| documentRedactionLoading := false;
                      documentRedactionError := None;
                      documentRedactionSuccess := true;
                      redactedFiles := files |}
               | _, _ =>
                   failed (match redact_message result with
                           | Some (String c m) => String c m
                           | _ => "No documents were redacted"
                           end)
               end
           end,
           [RedactDocument filePaths])
      end
  end.

(** ** Uploading one file *)

Lemma update_at_length (i : nat) (g : SelectedFile -> SelectedFile) :
  forall files, List.length (update_at i g files) = List.length files.
Proof.
  revert i. induction i as [|i IH]; intros [|f files]; simpl; auto.
Qed.

Lemma update_at_other (i : nat) (g : SelectedFile -> SelectedFile) :
  forall files j, j <> i -> nth_error (update_at i g files) j = nth_error files j.
Proof.
  induction i as [|i IH]; intros [|f files] j Hj; simpl; try reflexivity.
  - destruct j as [|j]; [congruence|reflexivity].
  - destruct j as [|j]; [reflexivity|]. simpl. apply IH. congruence.
Qed.

Lemma update_at_same (i : nat) (g : SelectedFile -> SelectedFile) :
  forall files f, nth_error files i = Some f ->
                  nth_error (update_at i g files) i = Some (g f).
Proof.
  induction i as [|i IH]; intros [|f0 files] f H; simpl in *; try discriminate.
  - now injection H as ->.
  - now apply IH.
Qed.

(** X18. [handleProcessFile] touches the selected file at [fileIndex] only:
    the selection keeps its length and every other file.  An index outside
    the selection does nothing and sends nothing.  Otherwise one upload is
    sent for the file, and the file ends with [isProcessing] off and its
    name, size and type unchanged: after an answer whose first entry has a
    non-empty path it is uploaded under that path with no error; after a
    rejected request or an answer without such a path it carries the error
    message and keeps its previous upload flag and path. *)
Theorem handleProcessFile_touches_one_file :
  forall (fileIndex : nat) (outcome : ApiOutcome (list UploadedFileInfo))
         (selectedFiles : list SelectedFile),
    List.length (fst (handleProcessFile fileIndex outcome selectedFiles))
    = List.length selectedFiles
    /\ (forall j, j <> fileIndex ->
          nth_error (fst (handleProcessFile fileIndex outcome selectedFiles)) j
          = nth_error selectedFiles j)
    /\ (nth_error selectedFiles fileIndex = None ->
          handleProcessFile fileIndex outcome selectedFiles = (selectedFiles, []))
    /\ (forall f, nth_error selectedFiles fileIndex = Some f ->
          snd (handleProcessFile fileIndex outcome selectedFiles) = [UploadToUc (name f)]
          /\ exists f',
               nth_error (fst (handleProcessFile fileIndex outcome selectedFiles))
                 fileIndex = Some f'
               /\ isProcessing f' = false
               /\ name f' = name f /\ size f' = size f /\ type f' = type f
               /\ ((exists info rest p,
                      outcome = Resolved (info :: rest)
                      /\ path info = Some p /\ p <> EmptyString
                      /\ isUploaded f' = true /\ ucPath f' = Some p
                      /\ processError f' = None
                      /\ redactionSupported f' = redaction_supported info)
                   \/ (exists msg,
                         processError f' = Some msg
                         /\ isUploaded f' = isUploaded f
                         /\ ucPath f' = ucPath f
                         /\ redactionSupported f' = redactionSupported f))).
Proof.
  intros i outcome files. unfold handleProcessFile.
  destruct (nth_error files i) as [f|] eqn:Hf.
  2:{ split; [reflexivity|]. split; [reflexivity|]. split; [reflexivity|].
      intros f0 H0. discriminate. }
  assert (Hfail : forall msg,
    nth_error (update_at i (fail_processing msg) (update_at i start_processing files)) i
    = Some (fail_processing msg (start_processing f))).
  { intros msg. apply update_at_same. now apply update_at_same. }
  cbn [fst snd]. split; [|split; [|split]].
  - destruct outcome as [ups|reason]; [destruct (truthy_string _)|];
      now rewrite !update_at_length.
  - intros j Hj.
    destruct outcome as [ups|reason]; [destruct (truthy_string _)|];
      now rewrite !update_at_other by exact Hj.
  - discriminate.
  - intros f0 H. injection H as <-. split; [reflexivity|].
    destruct outcome as [ups|reason].
    + destruct (truthy_string _) eqn:Ht.
      * eexists. split.
        { apply update_at_same. apply update_at_same. apply update_at_same.
          exact Hf. }
        cbn. repeat split. left.
        destruct ups as [|info rest]; [discriminate|]. cbn in Ht |- *.
        destruct (path info) as [[|c p]|] eqn:Hp; try discriminate.
        exists info, rest, (String c p). repeat split; try assumption. discriminate.
      * eexists. split; [apply Hfail|]. cbn. repeat split.
        right. eexists. repeat split.
    + eexists. split; [apply Hfail|]. cbn. repeat split.
      right. eexists. repeat split.
Qed.

(** A selection of two files made in the browser. *)
Definition chosen : list SelectedFile :=
  handleFileChange
    [{| file_name := "Plan.md"; file_size := 6; file_type := "text/markdown" |};
     {| file_name := "Deck.pptx"; file_size := 900;
        file_type := FormatHandlers.pptx_mime |}].


Lemma handleProcessFile_touches_one_file_witness :
  exists f',
    nth_error
      (fst (handleProcessFile 0
              (Resolved [{| path := Some "/Volumes/c/s/v/Plan.md";
                            info_format := Some ".md"; info_extension := None;
                            handler_available := Some true;
                            redaction_supported := None |}])
              chosen)) 0 = Some f'
    /\ isProcessing f' = false.
Proof.
  destruct (proj2 (proj2 (proj2
              (handleProcessFile_touches_one_file 0
                 (Resolved [{| path := Some "/Volumes/c/s/v/Plan.md";
                               info_format := Some ".md"; info_extension := None;
                               handler_available := Some true;
                               redaction_supported := None |}])
                 chosen)))
              {| name := "Plan.md"; size := 6; type := "text/markdown";
                 preview := None; previewUrl := None; isUploaded := false;
                 ucPath := None; isProcessing := false; processError := None;
                 format := None; extension := None; handlerAvailable := None;
                 redactionSupported := None |}
              eq_refl) as (_ & f' & Hnth & Hproc & _).
  exists f'. split; [exact Hnth|exact Hproc].
Defined.

(** ** Redacting *)

(** The volume paths [handleRedactDocuments] submits. *)
Definition redactablePaths (selectedFiles : list SelectedFile) : list string :=
  ucPaths (filter (fun f => isUploaded f && truthy_string (ucPath f)
                            && truthy_bool (redactionSupported f)) selectedFiles).

Lemma redactablePaths_in (selectedFiles : list SelectedFile) (p : string) :
  In p (redactablePaths selectedFiles) <->
  exists f, In f selectedFiles /\ isUploaded f = true /\ ucPath f = Some p
            /\ p <> EmptyString /\ redactionSupported f = Some true.
Proof.
  unfold redactablePaths, ucPaths. rewrite in_flat_map. split.
  - intros (f & Hf & Hp). apply filter_In in Hf. destruct Hf as [Hin Hc].
    apply andb_true_iff in Hc. destruct Hc as [Hc Hr].
    apply andb_true_iff in Hc. destruct Hc as [Hu Ht].
    destruct (ucPath f) as [q|] eqn:Hq; [|destruct Hp].
    destruct Hp as [->|[]]. exists f. repeat split; try assumption.
    + intros ->. discriminate.
    + destruct (redactionSupported f) as [[|]|]; try discriminate. reflexivity.
  - intros (f & Hin & Hu & Hq & Hne & Hr). exists f. split.
    + apply filter_In. split; [exact Hin|]. rewrite Hu, Hq, Hr.
      destruct p; [congruence|reflexivity].
    + rewrite Hq. now left.
Qed.

(** X19. [handleRedactDocuments] always ends with its loading flag off and
    forgets the previous redaction state.  It sends a redaction request
    exactly when some selected file is uploaded with a non-empty path and
    marked as supporting redaction, and the delta table panel has rows; the
    request carries the paths of exactly those files.  The success flag is
    set exactly when the request was sent and answered with [success] and a
    [redacted_files] array, which is then shown; in every other case the
    list is emptied and an error message is set. *)
Theorem handleRedactDocuments_settles :
  forall (R : Type) (selectedFiles : list SelectedFile)
         (deltaTableResults : list DeltaRow) (outcome : ApiOutcome (RedactAnswer R))
         (st : RedactionState R),
    documentRedactionLoading
      (fst (handleRedactDocuments selectedFiles deltaTableResults outcome st)) = false
    /\ (redactablePaths selectedFiles <> [] -> deltaTableResults <> [] ->
        snd (handleRedactDocuments selectedFiles deltaTableResults outcome st)
        = [RedactDocument (redactablePaths selectedFiles)])
    /\ (redactablePaths selectedFiles = [] \/ deltaTableResults = [] ->
        snd (handleRedactDocuments selectedFiles deltaTableResults outcome st) = [])
    /\ (documentRedactionSuccess
          (fst (handleRedactDocuments selectedFiles deltaTableResults outcome st)) = true
        <-> redactablePaths selectedFiles <> [] /\ deltaTableResults <> []
            /\ exists result files,
                 outcome = Resolved result /\ redact_success result = true
                 /\ redacted_files result = Some files)
    /\ (forall result files,
          redactablePaths selectedFiles <> [] -> deltaTableResults <> [] ->
          outcome = Resolved result -> redact_success result = true ->
          redacted_files result = Some files ->
          redactedFiles
            (fst (handleRedactDocuments selectedFiles deltaTableResults outcome st))
          = files
          /\ documentRedactionError
               (fst (handleRedactDocuments selectedFiles deltaTableResults outcome st))
             = None)
    /\ (documentRedactionSuccess
          (fst (handleRedactDocuments selectedFiles deltaTableResults outcome st)) = false ->
        redactedFiles
          (fst (handleRedactDocuments selectedFiles deltaTableResults outcome st)) = []
        /\ exists msg,
             documentRedactionError
               (fst (handleRedactDocuments selectedFiles deltaTableResults outcome st))
             = Some msg).
Proof.
  intros R files results outcome st. unfold handleRedactDocuments.
  fold (redactablePaths files).
  assert (Hinj : forall r r' : RedactAnswer R, Resolved r = Resolved r' -> r = r')
    by (intros r r' H; now injection H).
  destruct (redactablePaths files) as [|p ps].
  2: destruct results as [|row rows].
  3: destruct outcome as [result|reason].
  3: destruct (redact_success result) eqn:Hs.
  3: destruct (redacted_files result) as [fs|] eqn:Hf.
  all: cbn [fst snd documentRedactionLoading documentRedactionSuccess
            documentRedactionError redactedFiles].
  all: split; [reflexivity|].
  all: split; [intros; congruence|].
  all: split; [intros [H|H]; congruence|].
  all: split;
    [split; [intros H; try discriminate H; repeat split; try discriminate; eauto
            |intros (H1 & H2 & r & fs' & Hr & Hs' & Hf');
             try congruence; try discriminate Hr;
             apply Hinj in Hr; subst r; congruence]|].
  all: split;
    [intros r fs' H1 H2 Hr Hs' Hf'; try congruence; try discriminate Hr;
     apply Hinj in Hr; subst r; split; congruence|].
  all: intros H; try discriminate H.
  all: split; [reflexivity|eexists; reflexivity].
Qed.


(** A selection whose first file has been uploaded by a backend that marks
    it as supporting redaction. *)
Definition uploaded_selection : list SelectedFile :=
  fst (handleProcessFile 0
         (Resolved [{| path := Some "/Volumes/c/s/v/Plan.md";
                       info_format := Some ".md"; info_extension := Some ".md";
                       handler_available := Some true;
                       redaction_supported := Some true |}])
         chosen).

Lemma handleRedactDocuments_settles_witness :
  snd (handleRedactDocuments uploaded_selection ["row"]
         (@Rejected (RedactAnswer string) "HTTP error! status: 500")
         {| documentRedactionLoading := false; documentRedactionError := None;
            documentRedactionSuccess := false; redactedFiles := [] |})
  = [RedactDocument ["/Volumes/c/s/v/Plan.md"]].
Proof.
  apply (proj1 (proj2 (handleRedactDocuments_settles string uploaded_selection ["row"]
                         (Rejected "HTTP error! status: 500")
                         {| documentRedactionLoading := false;
                            documentRedactionError := None;
                            documentRedactionSuccess := false;
                            redactedFiles := [] |}))).
  - discriminate.
  - discriminate.
Defined.

(** ** Exporting *)

(** The export state of the page; [I] is the answer kept as [exportInfo]. *)
Record ExportState (I : Type) : Type := {
  exportLoading : bool;
  exportError : option string;
  exportSuccess : bool;
  exportInfo : option I
}.
Arguments exportLoading {I} _.
Arguments exportError {I} _.
Arguments exportSuccess {I} _.
Arguments exportInfo {I} _.

(** The answer of [/api/export-document] as the handler reads it: the two
    keys it tests, and the whole object. *)
Record ExportAnswer (I : Type) : Type := {
  export_success : bool;
  export_message : option string;
  export_object : I
}.
Arguments export_success {I} _.
Arguments export_message {I} _.
Arguments export_object {I} _.

(** The volume paths [handleExportDocument] submits. *)
Definition exportablePaths (selectedFiles : list SelectedFile) : list string :=
  ucPaths (filter (fun f => isUploaded f && truthy_string (ucPath f)) selectedFiles).

(** [handleExportDocument] *)
Definition handleExportDocument {I : Type} (selectedFiles : list SelectedFile)
    (deltaTableResults : list DeltaRow) (selectedExportFormat : string)
    (outcome : ApiOutcome (ExportAnswer I)) (st : ExportState I)
  : ExportState I * list Call :=
  let failed (msg : string) :=
    {| exportLoading := false; exportError := Some msg;
       exportSuccess := false; exportInfo := exportInfo st |} in
  let filePaths := exportablePaths selectedFiles in
  match filePaths with
  | [] => (failed "No uploaded files found. Please upload files first.", [])
  | _ :: _ =>
      match deltaTableResults with
      | [] =>
          (failed "No document data found. Please write to Delta Table first.", [])
      | _ :: _ =>
          (match outcome with
           | Rejected reason => failed reason
           | Resolved result =>
               if export_success result then
                 {| exportLoading := false; exportError := None;
                    exportSuccess := true;
                    exportInfo := Some (export_object result) |}
               else
                 failed (match export_message result with
                         | Some (String c m) => String c m
                         | _ => "Export failed"
                         end)
           end,
           [ExportDocument filePaths selectedExportFormat
              (String.append "exported_document." selectedExportFormat)])
      end
  end.

(** X20. [handleExportDocument] always ends with its loading flag off.  It
    sends an export request exactly when some selected file is uploaded
    with a non-empty path and the delta table panel has rows; the request
    carries those paths, the selected format, and the file name
    "exported_document." followed by the format.  A successful answer is
    kept as the export info with the success flag on and no error; in every
    other case an error message is set, the success flag is off, and the
    export info of an earlier export is kept. *)
Theorem handleExportDocument_settles :
  forall (I : Type) (selectedFiles : list SelectedFile)
         (deltaTableResults : list DeltaRow) (fmt : string)
         (outcome : ApiOutcome (ExportAnswer I)) (st : ExportState I),
    exportLoading
      (fst (handleExportDocument selectedFiles deltaTableResults fmt outcome st)) = false
    /\ (exportablePaths selectedFiles <> [] -> deltaTableResults <> [] ->
        snd (handleExportDocument selectedFiles deltaTableResults fmt outcome st)
        = [ExportDocument (exportablePaths selectedFiles) fmt
             (String.append "exported_document." fmt)])
    /\ (exportablePaths selectedFiles = [] \/ deltaTableResults = [] ->
        snd (handleExportDocument selectedFiles deltaTableResults fmt outcome st) = [])
    /\ (forall result,
          exportablePaths selectedFiles <> [] -> deltaTableResults <> [] ->
          outcome = Resolved result -> export_success result = true ->
          fst (handleExportDocument selectedFiles deltaTableResults fmt outcome st)
          = {| exportLoading := false; exportError := None; exportSuccess := true;
               exportInfo := Some (export_object result) |})
    /\ (exportSuccess
          (fst (handleExportDocument selectedFiles deltaTableResults fmt outcome st))
        = false ->
        exportInfo
          (fst (handleExportDocument selectedFiles deltaTableResults fmt outcome st))
        = exportInfo st
        /\ exists msg,
             exportError
               (fst (handleExportDocument selectedFiles deltaTableResults fmt outcome st))
             = Some msg).
Proof.
  intros I files results fmt outcome st. unfold handleExportDocument.
  assert (Hinj : forall r r' : ExportAnswer I, Resolved r = Resolved r' -> r = r')
    by (intros r r' H; now injection H).
  destruct (exportablePaths files) as [|p ps].
  2: destruct results as [|row rows].
  3: destruct outcome as [result|reason].
  3: destruct (export_success result) eqn:Hs.
  all: cbn [fst snd exportLoading exportSuccess exportError exportInfo].
  all: split; [reflexivity|].
  all: split; [intros; congruence|].
  all: split; [intros [H|H]; congruence|].
  all: split;
    [intros r H1 H2 Hr Hs'; try congruence; try discriminate Hr;
     apply Hinj in Hr; subst r; congruence|].
  all: intros H; try discriminate H.
  all: split; [reflexivity|eexists; reflexivity].
Qed.

Lemma handleExportDocument_settles_witness :
  snd (handleExportDocument uploaded_selection ["row"] "xlsx"
         (@Rejected (ExportAnswer string) "HTTP error! status: 500")
         {| exportLoading := false; exportError := None; exportSuccess := false;
            exportInfo := None |})
  = [ExportDocument ["/Volumes/c/s/v/Plan.md"] "xlsx" "exported_document.xlsx"].
Proof.
  apply (proj1 (proj2 (handleExportDocument_settles string uploaded_selection ["row"]
                         "xlsx" (Rejected "HTTP error! status: 500")
                         {| exportLoading := false; exportError := None;
                            exportSuccess := false; exportInfo := None |}))).
  - discriminate.
  - discriminate.
Defined.

End FilesPanel.

(* ===================================================================== *)
(** * The page against the endpoints of [backendchanges.md] *)
(* ===================================================================== *)

Module PageAndBackend.
Import FilesPanel.

(** An element of [uploaded_files] as [upload_to_uc] builds it, read by the
    page: the dictionary has the keys name, path, size, format and
    handler_available; [extension] and [redaction_supported] are missing. *)
Definition info_of_entry (u : Upload.UploadedFile) : UploadedFileInfo :=
  {| path := Some (Upload.path u);
     info_format := Some (Upload.format u);
     info_extension := None;
     handler_available := Some (Upload.handler_available u);
     redaction_supported := None |}.

(** [apiCall] on the answer of an endpoint: a body for status 200, the
    error "HTTP error! status: N" otherwise. *)
Definition upload_outcome (r : Backend.http Upload.UploadResponse)
  : ApiOutcome (list UploadedFileInfo) :=
  match r with
  | Backend.Ok200 body => Resolved (map info_of_entry (Upload.uploaded_files body))
  | Backend.HTTPException code _ => Rejected (QueryPanel.http_error_message code)
  end.

Definition redact_outcome (r : Backend.http Backend.RedactResponse)
  : ApiOutcome (RedactAnswer Backend.RedactedFile) :=
  match r with
  | Backend.Ok200 body =>
      Resolved {| redact_success := Backend.success body;
                  redacted_files := Some (Backend.redacted_files body);
                  redact_message := Some (Backend.message body) |}
  | Backend.HTTPException code _ => Rejected (QueryPanel.http_error_message code)
  end.

(** What the redaction panel renders below its button. *)
Definition shows_redaction_error {R : Type} (st : RedactionState R) : bool :=
  truthy_string (documentRedactionError st).

Definition shows_redaction_success {R : Type} (st : RedactionState R) : bool :=
  documentRedactionSuccess st && (0 <? List.length (redactedFiles st)).

(** The part of a selected file the write path reads. *)
Definition write_view (f : SelectedFile) : Frontend.SelectedFile :=
  {| Frontend.name := name f;
     Frontend.isUploaded := isUploaded f;
     Frontend.ucPath := ucPath f |}.

Definition no_redaction_support (files : list SelectedFile) : Prop :=
  Forall (fun f => truthy_bool (redactionSupported f) = false) files.

Lemma update_at_Forall (P : SelectedFile -> Prop) (g : SelectedFile -> SelectedFile)
    (i : nat) :
  (forall f, P f -> P (g f)) ->
  forall files, Forall P files -> Forall P (update_at i g files).
Proof.
  intros Hg. induction i as [|i IH]; intros files HF;
    destruct HF as [|f files Hf HF]; simpl; constructor; auto.
Qed.

Lemma redactablePaths_no_support (files : list SelectedFile) :
  no_redaction_support files -> redactablePaths files = [].
Proof.
  intros HF. unfold redactablePaths.
  induction HF as [|f files Hf _ IH]; [reflexivity|].
  cbn [filter]. rewrite Hf, andb_false_r. exact IH.
Qed.

Section Session.

Variable w : bool.
Variable get_uc_volume_path : Backend.pyresult string.
Variable files_upload : string -> string -> Backend.pyresult unit.
Variable str_HTTPException : nat -> string -> string.

#[local] Abbreviation upload :=
  (Upload.upload_to_uc w get_uc_volume_path files_upload str_HTTPException).

(** A session: a selection made in the browser, then uploads of selected
    files, each answered by [upload_to_uc] for some request. *)
Definition after_uploads (chosen_files : list BrowserFile)
    (uploads : list (nat * list Upload.UploadFile)) : list SelectedFile :=
  fold_left
    (fun files step =>
       fst (handleProcessFile (fst step) (upload_outcome (fst (upload (snd step)))) files))
    uploads (handleFileChange chosen_files).

(** X21. With the upload endpoint as given, whose entries have no
    [redaction_supported] key, no selected file is ever marked as supporting
    redaction, whatever is selected and uploaded; so [handleRedactDocuments]
    never sends a redaction request: it always ends with the message that
    no uploaded file with redaction support was found. *)
Theorem redaction_is_never_offered_after_upload :
  forall (R : Type) (chosen_files : list BrowserFile)
         (uploads : list (nat * list Upload.UploadFile))
         (deltaTableResults : list DeltaRow)
         (outcome : ApiOutcome (RedactAnswer R)) (st : RedactionState R),
    Forall (fun f => redactionSupported f = None)
      (after_uploads chosen_files uploads)
    /\ handleRedactDocuments (after_uploads chosen_files uploads)
         deltaTableResults outcome st
       = ({| documentRedactionLoading := false;
             documentRedactionError :=
               Some "No uploaded files with redaction support found. Please upload supported files first.";
             documentRedactionSuccess := false;
             redactedFiles := [] |}, []).
Proof.
  intros R chosen_files uploads results outcome st.
  assert (Hnone : Forall (fun f => redactionSupported f = None)
                    (after_uploads chosen_files uploads)).
  { unfold after_uploads.
    assert (H0 : Forall (fun f => redactionSupported f = None)
                   (handleFileChange chosen_files)).
    { unfold handleFileChange. apply Forall_map. apply Forall_forall. reflexivity. }
    revert H0. generalize (handleFileChange chosen_files).
    induction uploads as [|[i req] uploads IH]; intros files HF; [exact HF|].
    cbn [fold_left fst snd]. apply IH. unfold handleProcessFile.
    destruct (nth_error files i) as [f|]; [|exact HF]. cbn [fst].
    assert (H1 : Forall (fun f => redactionSupported f = None)
                   (update_at i start_processing files))
      by (apply update_at_Forall; [intros f0 H; exact H|exact HF]).
    destruct (upload_outcome (fst (upload req))) as [infos|reason] eqn:Hout.
    - destruct (truthy_string _).
      + apply update_at_Forall; [intros f0 H; exact H|].
        apply update_at_Forall; [|exact H1].
        intros f0 _. cbn. destruct infos as [|info rest]; [reflexivity|].
        unfold upload_outcome in Hout.
        destruct (fst (upload req)) as [body|code detail]; [|discriminate].
        injection Hout as Hout.
        destruct (Upload.uploaded_files body) as [|u us]; [discriminate|].
        cbn in Hout. injection Hout as <- _. reflexivity.
      + apply update_at_Forall; [intros f0 H; exact H|exact H1].
    - apply update_at_Forall; [intros f0 H; exact H|exact H1]. }
  split; [exact Hnone|].
  unfold handleRedactDocuments. fold (redactablePaths (after_uploads chosen_files uploads)).
  rewrite redactablePaths_no_support; [reflexivity|].
  eapply Forall_impl; [|exact Hnone]. intros f Hf. now rewrite Hf.
Qed.

(** ** From the upload to the write request *)

Lemma update_at_compose (i : nat) (g1 g2 : SelectedFile -> SelectedFile) :
  forall files,
    update_at i g2 (update_at i g1 files) = update_at i (fun f => g2 (g1 f)) files.
Proof.
  induction i as [|i IH]; intros [|f files]; simpl; try reflexivity.
  now rewrite IH.
Qed.

Definition paths_of_uploaded (files : list Frontend.SelectedFile) : list string :=
  flat_map (fun f => match Frontend.ucPath f with Some p => [p] | None => [] end)
    (filter (fun f => Frontend.isUploaded f && Frontend.truthy (Frontend.ucPath f))
       files).

Lemma paths_of_fresh_selection (files : list SelectedFile) :
  Forall (fun f => isUploaded f = false) files ->
  paths_of_uploaded (map write_view files) = []
  /\ filter Frontend.isUploaded (map write_view files) = [].
Proof.
  induction 1 as [|f files Hf _ [IH1 IH2]]; [split; reflexivity|].
  unfold paths_of_uploaded in *. cbn [map filter write_view Frontend.isUploaded].
  rewrite Hf. cbn [andb]. split; assumption.
Qed.

Lemma paths_after_one_upload (g : SelectedFile -> SelectedFile) (p : string) :
  (forall f, isUploaded (g f) = true /\ ucPath (g f) = Some p) ->
  p <> EmptyString ->
  forall i files f,
    Forall (fun f => isUploaded f = false) files ->
    nth_error files i = Some f ->
    paths_of_uploaded (map write_view (update_at i g files)) = [p].
Proof.
  intros Hg Hp. induction i as [|i IH]; intros files f HF Hnth;
    destruct HF as [|f0 files Hf0 HF]; try discriminate.
  - cbn [update_at map]. unfold paths_of_uploaded.
    cbn [filter write_view Frontend.isUploaded Frontend.ucPath].
    destruct (Hg f0) as [Hu Hq]. rewrite Hu, Hq.
    destruct p as [|c p]; [congruence|]. cbn [Frontend.truthy andb flat_map].
    pose proof (proj1 (paths_of_fresh_selection files HF)) as Hrest.
    unfold paths_of_uploaded in Hrest. rewrite Hrest.
    cbn [write_view Frontend.ucPath]. rewrite Hq. reflexivity.
  - cbn [update_at map]. unfold paths_of_uploaded.
    cbn [filter write_view Frontend.isUploaded]. rewrite Hf0. cbn [andb].
    apply (IH files f HF Hnth).
Qed.

Lemma uc_path_not_empty (volume_path file_name : string) :
  Upload.uc_path_of volume_path file_name <> EmptyString.
Proof.
  unfold Upload.uc_path_of. destruct (Upload.rstrip_slash volume_path); discriminate.
Qed.

(** X22. Selecting files in the browser leaves the "Write to Delta Table"
    button without effect.  Once one selected file with a supported
    extension has been uploaded through [upload_to_uc] (configured, the
    volume write succeeding), a click, when no write is loading, sends the
    write request for exactly that file's volume path,
    [volume path/file name]. *)
Theorem upload_then_write_sends_the_volume_path :
  forall (chosen_files : list BrowserFile) (fileIndex : nat) (bf : BrowserFile)
         (bytes volume_path : string) (done_ : unit),
    nth_error chosen_files fileIndex = Some bf ->
    w = true ->
    get_uc_volume_path = Backend.Return volume_path ->
    Upload.str_in (FileUtils.get_file_extension (file_name bf))
      Upload.supported_extensions = true ->
    files_upload (Upload.uc_path_of volume_path (file_name bf)) bytes
    = Backend.Return done_ ->
    forall (before after_ : Frontend.PageState),
      Frontend.selectedFiles before = map write_view (handleFileChange chosen_files) ->
      Frontend.selectedFiles after_
      = map write_view
          (fst (handleProcessFile fileIndex
                  (upload_outcome
                     (fst (upload [{| Upload.filename := file_name bf;
                                      Upload.contents := bytes |}])))
                  (handleFileChange chosen_files))) ->
      Frontend.deltaTableLoading after_ = false ->
      snd (Frontend.clickWriteToDeltaTable before) = []
      /\ snd (Frontend.clickWriteToDeltaTable after_)
         = [Frontend.ApiCall "/api/write-to-delta-table"
              [Upload.uc_path_of volume_path (file_name bf)] 10;
            Frontend.SetTimeout 1000%N].
Proof.
  intros chosen_files i bf bytes vp u Hnth Hw Hvp Hext Hup before after_ Hb Ha Hl.
  assert (Hfresh : Forall (fun f => isUploaded f = false) (handleFileChange chosen_files)).
  { unfold handleFileChange. apply Forall_map. apply Forall_forall. reflexivity. }
  split.
  - unfold Frontend.clickWriteToDeltaTable, Frontend.writeButtonDisabled.
    rewrite Hb, (proj2 (paths_of_fresh_selection _ Hfresh)).
    cbn [List.length Nat.eqb]. rewrite orb_true_r. reflexivity.
  - assert (Hsel : exists f, nth_error (handleFileChange chosen_files) i = Some f).
    { unfold handleFileChange. rewrite nth_error_map, Hnth. eexists. reflexivity. }
    destruct Hsel as (f & Hf).
    assert (Hout : upload_outcome
                     (fst (upload [{| Upload.filename := file_name bf;
                                      Upload.contents := bytes |}]))
                   = Resolved [{| path := Some (Upload.uc_path_of vp (file_name bf));
                                  info_format :=
                                    Some (FileUtils.get_file_extension (file_name bf));
                                  info_extension := None;
                                  handler_available :=
                                    Some (Upload.handler_available_for
                                            (FileUtils.get_file_extension (file_name bf)));
                                  redaction_supported := None |}]).
    { unfold Upload.upload_to_uc. rewrite Hw. cbn [negb Upload.upload_loop].
      cbn [Upload.filename Upload.contents]. rewrite Hext, Hvp, Hup. reflexivity. }
    rewrite Hout in Ha. unfold handleProcessFile in Ha. rewrite Hf in Ha.
    cbn [fst hd_error path] in Ha.
    pose proof (uc_path_not_empty vp (file_name bf)) as Hne.
    destruct (Upload.uc_path_of vp (file_name bf)) as [|c q] eqn:Hq; [congruence|].
    cbn [truthy_string] in Ha. rewrite !update_at_compose in Ha.
    assert (Hpaths : Frontend.uploadedPaths after_ = [String c q]).
    { unfold Frontend.uploadedPaths. rewrite Ha.
      apply (paths_after_one_upload _ (String c q)) with (f := f);
        [intros f0; split; reflexivity|discriminate|exact Hfresh|exact Hf]. }
    assert (Hfilter : filter Frontend.isUploaded (Frontend.selectedFiles after_) <> []).
    { intros Hnil.
      assert (Hin : In (String c q) (Frontend.uploadedPaths after_))
        by (rewrite Hpaths; now left).
      unfold Frontend.uploadedPaths in Hin. apply in_flat_map in Hin.
      destruct Hin as (x & Hx & _). apply filter_In in Hx. destruct Hx as [Hx Hc].
      apply andb_true_iff in Hc. destruct Hc as [Hc _].
      assert (Hx' : In x (filter Frontend.isUploaded (Frontend.selectedFiles after_)))
        by (apply filter_In; auto).
      rewrite Hnil in Hx'. destruct Hx'. }
    unfold Frontend.clickWriteToDeltaTable, Frontend.writeButtonDisabled.
    rewrite Hl. cbn [orb].
    destruct (filter Frontend.isUploaded (Frontend.selectedFiles after_)) as [|x xs];
      [congruence|].
    cbn [List.length Nat.eqb]. unfold Frontend.handleWriteToDeltaTable_start.
    rewrite Hpaths. reflexivity.
Qed.

End Session.

(** ** A session against a configured backend *)

Definition demo_upload : list Upload.UploadFile -> Backend.http Upload.UploadResponse * Upload.Volume :=
  Upload.demo_upload_to_uc.

Definition page_with (files : list SelectedFile) : Frontend.PageState :=
  {| Frontend.selectedFiles := map write_view files;
     Frontend.deltaTableResults := [];
     Frontend.deltaTableLoading := false;
     Frontend.deltaTableError := None;
     Frontend.processedSessionFiles := [];
     Frontend.showDeltaTableResults := false |}.

Lemma upload_then_write_sends_the_volume_path_witness :
  snd (Frontend.clickWriteToDeltaTable (page_with chosen)) = []
  /\ snd (Frontend.clickWriteToDeltaTable
            (page_with
               (fst (handleProcessFile 0
                       (upload_outcome
                          (fst (demo_upload [{| Upload.filename := "Plan.md";
                                                Upload.contents := "# Plan" |}])))
                       chosen))))
     = [Frontend.ApiCall "/api/write-to-delta-table" ["/Volumes/c/s/v/Plan.md"] 10;
        Frontend.SetTimeout 1000%N].
Proof.
  apply (upload_then_write_sends_the_volume_path
           true (Backend.Return "/Volumes/c/s/v/") Upload.demo_volume_upload
           Upload.demo_str_HTTPException
           [{| file_name := "Plan.md"; file_size := 6; file_type := "text/markdown" |};
            {| file_name := "Deck.pptx"; file_size := 900;
               file_type := FormatHandlers.pptx_mime |}]
           0 {| file_name := "Plan.md"; file_size := 6; file_type := "text/markdown" |}
           "# Plan" "/Volumes/c/s/v/" tt);
    reflexivity.
Defined.

(** ** Redacting files that have no handler *)

Section Redaction.

Variable w : bool.
Variable current_warehouse_id : option string.
Variable get_delta_table_path : Backend.pyresult string.
Variable execute_statement :
  string -> string -> string -> Backend.pyresult (option (list Backend.Row)).
Variable extract_entities_for_redaction : string -> Backend.pyresult Backend.EntityMap.
Variable redact_content :
  FormatHandlers.FormatHandler -> string -> Backend.EntityMap -> Backend.pyresult string.

#[local] Abbreviation redact_endpoint :=
  (Backend.redact_documents w current_warehouse_id get_delta_table_path
     execute_statement extract_entities_for_redaction redact_content).

Lemma redact_loop_all_skipped (table wh : string) (paths : list string) :
  (forall p, In p paths ->
     FormatHandlers.get_format_handler (FormatHandlers.detect_file_format p) = None) ->
  forall acc,
    Backend.redact_loop execute_statement extract_entities_for_redaction redact_content
      table wh paths acc = Backend.Return acc.
Proof.
  induction paths as [|p paths IH]; intros Hnone acc; [reflexivity|].
  cbn [Backend.redact_loop]. unfold Backend.process_document at 1.
  rewrite (Hnone p) by now left. cbn [Backend.bind Backend.opt_to_list].
  rewrite app_nil_r. apply IH. intros q Hq. apply Hnone. now right.
Qed.

(** X23. When every path the page submits for redaction has no registered
    handler (PDF files, for instance), the configured endpoint answers
    success with an empty list, and the page ends with its success flag on
    and nothing to show: the redaction panel renders neither its error box
    nor its success box. *)
Theorem redacting_unsupported_files_shows_nothing :
  forall (selectedFiles : list SelectedFile) (deltaTableResults : list DeltaRow)
         (st : RedactionState Backend.RedactedFile) (table warehouse_id : string),
    Backend.configured w current_warehouse_id get_delta_table_path table warehouse_id ->
    redactablePaths selectedFiles <> [] ->
    deltaTableResults <> [] ->
    (forall p, In p (redactablePaths selectedFiles) ->
       FormatHandlers.get_format_handler (FormatHandlers.detect_file_format p) = None) ->
    redact_endpoint {| Backend.file_paths := redactablePaths selectedFiles;
                       Backend.file_types := [] |}
    = Backend.Ok200 {| Backend.success := true;
                       Backend.message := "Successfully processed 0 file(s) for redaction";
                       Backend.redacted_files := [] |}
    /\ fst (handleRedactDocuments selectedFiles deltaTableResults
              (redact_outcome
                 (redact_endpoint {| Backend.file_paths := redactablePaths selectedFiles;
                                     Backend.file_types := [] |}))
              st)
       = {| documentRedactionLoading := false; documentRedactionError := None;
            documentRedactionSuccess := true; redactedFiles := [] |}
    /\ shows_redaction_error
         (fst (handleRedactDocuments selectedFiles deltaTableResults
                 (redact_outcome
                    (redact_endpoint {| Backend.file_paths := redactablePaths selectedFiles;
                                        Backend.file_types := [] |}))
                 st)) = false
    /\ shows_redaction_success
         (fst (handleRedactDocuments selectedFiles deltaTableResults
                 (redact_outcome
                    (redact_endpoint {| Backend.file_paths := redactablePaths selectedFiles;
                                        Backend.file_types := [] |}))
                 st)) = false.
Proof.
  intros files results st table wh (Hw & Hwh & Hne & Htable) Hpaths Hres Hnone.
  assert (Hanswer :
    redact_endpoint {| Backend.file_paths := redactablePaths files;
                       Backend.file_types := [] |}
    = Backend.Ok200 {| Backend.success := true;
                       Backend.message := "Successfully processed 0 file(s) for redaction";
                       Backend.redacted_files := [] |}).
  { unfold Backend.redact_documents. rewrite Hw, Hwh, Htable.
    cbn [negb Backend.file_paths]. destruct wh as [|c wh]; [congruence|].
    destruct (redactablePaths files) as [|p ps] eqn:Hp; [congruence|].
    cbv beta iota delta [Backend.bind].
    rewrite (redact_loop_all_skipped table (String c wh) (p :: ps) Hnone).
    reflexivity. }
  split; [exact Hanswer|]. rewrite Hanswer.
  assert (Hstate :
    fst (handleRedactDocuments files results
           (redact_outcome
              (Backend.Ok200 {| Backend.success := true;
                                Backend.message :=
                                  "Successfully processed 0 file(s) for redaction";
                                Backend.redacted_files := [] |})) st)
    = {| documentRedactionLoading := false; documentRedactionError := None;
         documentRedactionSuccess := true; redactedFiles := [] |}).
  { unfold handleRedactDocuments. fold (redactablePaths files).
    destruct (redactablePaths files) as [|p ps]; [congruence|].
    destruct results as [|row rows]; [congruence|]. reflexivity. }
  rewrite Hstate. repeat split.
Qed.

End Redaction.

(** A selection whose only uploaded file is a PDF marked as supporting
    redaction. *)
Definition pdf_selection : list SelectedFile :=
  fst (handleProcessFile 0
         (Resolved [{| path := Some "/Volumes/c/s/v/scan.pdf";
                       info_format := Some ".pdf"; info_extension := Some ".pdf";
                       handler_available := Some true;
                       redaction_supported := Some true |}])
         (handleFileChange
            [{| file_name := "scan.pdf"; file_size := 4;
                file_type := "application/pdf" |}])).

Lemma redacting_unsupported_files_shows_nothing_witness :
  shows_redaction_success
    (fst (handleRedactDocuments pdf_selection ["row"]
            (redact_outcome
               (Backend.demo_redact_documents
                  {| Backend.file_paths := redactablePaths pdf_selection;
                     Backend.file_types := [] |}))
            {| documentRedactionLoading := false; documentRedactionError := None;
               documentRedactionSuccess := false; redactedFiles := [] |}))
  = false.
Proof.
  refine (proj2 (proj2 (proj2
            (redacting_unsupported_files_shows_nothing
               true (Some "862f1d757f0424f7") (Backend.Return "c.s.document_processing")
               Backend.demo_execute Backend.demo_ner Backend.demo_redact
               pdf_selection ["row"]
               {| documentRedactionLoading := false; documentRedactionError := None;
                  documentRedactionSuccess := false; redactedFiles := [] |}
               "c.s.document_processing" "862f1d757f0424f7" _ _ _ _)))).
  - unfold Backend.configured. repeat split; try reflexivity. discriminate.
  - discriminate.
  - discriminate.
  - intros p [<-|[]]. reflexivity.
Defined.

End PageAndBackend.

(* ===================================================================== *)
(** * File utilities: output file names *)
(* ===================================================================== *)

Module OutputNames.
Import PyStr FormatHandlers FileUtils.

(** [os.path.basename] (posixpath) *)
Definition basename (p : string) : string :=
  slice_from p (rfind "/" p + 1).

(** [os.path.dirname] (posixpath): the head up to the last slash, stripped
    of trailing slashes unless it consists of slashes only. *)
Fixpoint all_slashes (s : string) : bool :=
  match s with
  | EmptyString => true
  | String a s' => Ascii.eqb a "/" && all_slashes s'
  end.

Definition dirname (p : string) : string :=
  let head := slice p 0 (rfind "/" p + 1) in
  if negb (String.eqb head EmptyString) && negb (all_slashes head)
  then Upload.rstrip_slash head
  else head.

(** [os.path.join(a, b)] (posixpath) *)
Definition join (a b : string) : string :=
  if startswith b "/" then b
  else if String.eqb a EmptyString || endswith a "/" then String.append a b
  else String.append a (String.append "/" b).

(** [s.replace('\\', '/')] *)
Definition backslash : ascii := ascii_of_nat 92.

Fixpoint replace_backslashes (s : string) : string :=
  match s with
  | EmptyString => EmptyString
  | String a s' =>
      String (if Ascii.eqb a backslash then "/"%char else a) (replace_backslashes s')
  end.

(** [generate_output_filename] of [backend/utils/file_utils.py];
    [new_extension or ...] falls back on the original extension for [None]
    and for the empty string. *)
Definition generate_output_filename (original_path suffix : string)
    (new_extension : option string) : string :=
  let base_path := dirname original_path in
  let filename := fst (splitext (basename original_path)) in
  let ext := match new_extension with
             | Some (String c e) => String c e
             | _ => snd (splitext original_path)
             end in
  replace_backslashes
    (join base_path
       (String.append filename (String.append "_" (String.append suffix ext)))).

Example generate_output_filename_ex :
  generate_output_filename "/Volumes/c/s/v/Report.Final.PDF" "redacted" None
  = "/Volumes/c/s/v/Report.Final_redacted.PDF"
  /\ generate_output_filename "notes.md" "redacted" (Some ".txt") = "notes_redacted.txt"
  /\ generate_output_filename "/notes.md" "v2" None = "/notes_v2.md"
  /\ generate_output_filename "dir/README" "copy" None = "dir/README_copy".
Proof. repeat split; reflexivity. Qed.

(** ** Characters of the parts of a path *)

Lemma has_char_append (c : ascii) (a b : string) :
  has_char c (String.append a b) = has_char c a || has_char c b.
Proof.
  induction a as [|x a IH]; simpl; [reflexivity|]. now rewrite IH, orb_assoc.
Qed.

Lemma has_char_substring_false (c : ascii) (s : string) (n m : nat) :
  has_char c s = false -> has_char c (substring n m s) = false.
Proof.
  intros H. destruct (has_char c (substring n m s)) eqn:Hs; [|reflexivity].
  apply has_char_substring in Hs. destruct Hs as (j & _ & Hj).
  rewrite has_char_false_iff in H. now apply H in Hj.
Qed.

Lemma has_char_rstrip (c : ascii) (s : string) :
  has_char c s = false -> has_char c (Upload.rstrip_slash s) = false.
Proof.
  induction s as [|a s IH]; [reflexivity|].
  cbn [has_char Upload.rstrip_slash]. intros H. apply orb_false_iff in H.
  destruct H as [Ha Hs]. specialize (IH Hs).
  destruct (Upload.rstrip_slash s) as [|b r].
  - destruct (Ascii.eqb a "/"); [reflexivity|]. cbn [has_char]. now rewrite Ha.
  - cbn [has_char] in *. now rewrite Ha, IH.
Qed.

Lemma has_char_splitext (c : ascii) (q : string) :
  has_char c q = false ->
  has_char c (fst (splitext q)) = false /\ has_char c (snd (splitext q)) = false.
Proof.
  intros H. unfold splitext. destruct (_ && _); cbn [fst snd].
  - unfold slice, slice_from. split; now apply has_char_substring_false.
  - split; [exact H|reflexivity].
Qed.

Lemma basename_has_no_slash (p : string) : has_char "/" (basename p) = false.
Proof.
  unfold basename, slice_from.
  destruct (has_char "/" (substring _ _ p)) eqn:Hs; [|reflexivity].
  apply has_char_substring in Hs. destruct Hs as (j & Hj & Hg).
  destruct (rfind_spec "/" p) as [[_ Hno]|(n & Hr & _ & Hlast)].
  - now apply Hno in Hg.
  - rewrite Hr in Hj. exfalso. apply (Hlast j); [lia|exact Hg].
Qed.

Lemma replace_backslashes_id (s : string) :
  has_char backslash s = false -> replace_backslashes s = s.
Proof.
  induction s as [|a s IH]; [reflexivity|].
  cbn [has_char replace_backslashes]. intros H. apply orb_false_iff in H.
  destruct H as [Ha Hs]. now rewrite Ha, IH.
Qed.

Lemma no_slash_no_slash_prefix (b : string) :
  has_char "/" b = false -> startswith b "/" = false.
Proof.
  unfold startswith. destruct b as [|a b]; [reflexivity|].
  cbn [has_char String.prefix]. intros H. apply orb_false_iff in H.
  destruct H as [Ha _]. apply Ascii.eqb_neq in Ha.
  destruct (ascii_dec "/" a) as [He|Hne]; [|reflexivity].
  exfalso. apply Ha. now rewrite He.
Qed.

Lemma endswith_split (a suffix : string) :
  endswith a suffix = true -> exists d, a = String.append d suffix.
Proof.
  unfold endswith. intros H. apply andb_true_iff in H. destruct H as [Hlen Heq].
  apply Nat.leb_le in Hlen. apply String.eqb_eq in Heq.
  exists (substring 0 (String.length a - String.length suffix) a).
  etransitivity;
    [symmetry; apply (substring_split a (String.length a - String.length suffix)); lia|].
  f_equal.
  replace (String.length a - (String.length a - String.length suffix))
    with (String.length suffix) by lia.
  exact Heq.
Qed.

(** Joining a directory and a name without slash puts the name last, on
    its own or after a slash. *)
Lemma join_shape (a b : string) :
  has_char "/" b = false ->
  join a b = b \/ exists d, join a b = String.append d (String.append "/" b).
Proof.
  intros Hb. unfold join. rewrite (no_slash_no_slash_prefix b Hb).
  destruct (String.eqb a EmptyString) eqn:Ha.
  - apply String.eqb_eq in Ha. subst a. now left.
  - cbn [orb]. destruct (endswith a "/") eqn:He.
    + right. apply endswith_split in He. destruct He as (d & ->). exists d.
      clear. induction d as [|c d IH]; simpl; [reflexivity|now rewrite IH].
    + right. now exists a.
Qed.

Lemma dirname_keeps_absent (c : ascii) (p : string) :
  has_char c p = false -> has_char c (dirname p) = false.
Proof.
  intros H. unfold dirname. cbv zeta. destruct (_ && _).
  - apply has_char_rstrip. unfold slice. now apply has_char_substring_false.
  - unfold slice. now apply has_char_substring_false.
Qed.

Lemma join_has_no_backslash (a b : string) :
  has_char backslash a = false -> has_char backslash b = false ->
  has_char backslash (join a b) = false.
Proof.
  intros Ha Hb. unfold join. destruct (startswith b "/"); [exact Hb|].
  destruct (_ || _); rewrite !has_char_append, Ha, Hb; reflexivity.
Qed.

(** ** [os.path.splitext] and lower case *)

Lemma lower_ascii_dot (c : ascii) :
  Ascii.eqb (lower_ascii c) "." = Ascii.eqb c ".".
Proof.
  destruct c as [[] [] [] [] [] [] [] []]; reflexivity.
Qed.

Lemma has_dot_lower (s : string) : has_char "." (lower s) = has_char "." s.
Proof.
  induction s as [|c s IH]; simpl; [reflexivity|].
  now rewrite lower_ascii_dot, IH.
Qed.

Lemma has_non_dot_lower (s : string) : has_non_dot (lower s) = has_non_dot s.
Proof.
  induction s as [|c s IH]; simpl; [reflexivity|].
  now rewrite lower_ascii_dot, IH.
Qed.

Lemma rfind_from_lower (c : ascii) (s : string) :
  (forall a, Ascii.eqb (lower_ascii a) c = Ascii.eqb a c) ->
  forall i last, rfind_from c (lower s) i last = rfind_from c s i last.
Proof.
  intros Hc. induction s as [|a s IH]; intros i last; [reflexivity|].
  cbn [lower rfind_from]. now rewrite Hc, IH.
Qed.

Lemma splitext_lower (p : string) :
  splitext (lower p) = (lower (fst (splitext p)), lower (snd (splitext p))).
Proof.
  unfold splitext, rfind.
  rewrite !rfind_from_lower by (apply Upload.lower_ascii_slash || apply lower_ascii_dot).
  unfold slice, slice_from.
  rewrite <- !lower_substring, has_non_dot_lower, lower_length.
  destruct (_ && _); reflexivity.
Qed.

(** ** The extension of a name with a marker before its extension *)

Lemma append_assoc (a b c : string) :
  String.append (String.append a b) c = String.append a (String.append b c).
Proof.
  induction a as [|x a IH]; simpl; [reflexivity|now rewrite IH].
Qed.

Lemma substring_prefix (a b : string) :
  substring 0 (String.length a) (String.append a b) = a.
Proof.
  induction a as [|x a IH]; simpl; [now destruct b|now rewrite IH].
Qed.

Lemma has_non_dot_marker (a b : string) (c : ascii) :
  Ascii.eqb c "." = false -> has_non_dot (String.append a (String c b)) = true.
Proof.
  intros Hc. induction a as [|x a IH]; simpl; [now rewrite Hc|].
  destruct (Ascii.eqb x "."); [exact IH|reflexivity].
Qed.

(** A name without slash that carries a character other than a dot before
    its last dot: the extension starts at that dot. *)
Lemma splitext_marked (stem : string) (c : ascii) (middle rest : string) :
  Ascii.eqb c "." = false ->
  has_char "/" stem = false -> Ascii.eqb c "/" = false ->
  has_char "/" middle = false ->
  has_char "." rest = false -> has_char "/" rest = false ->
  snd (splitext (String.append stem (String c (String.append middle (String "." rest)))))
  = String "." rest.
Proof.
  intros Hc Hstem Hc' Hmiddle Hdot Hslash.
  set (head := String.append stem (String c middle)).
  assert (Hname : String.append stem (String c (String.append middle (String "." rest)))
                  = String.append head (String "." rest)).
  { unfold head. now rewrite append_assoc. }
  rewrite Hname.
  assert (Hsep : rfind "/" (String.append head (String "." rest)) = (-1)%Z).
  { unfold rfind. apply Upload.rfind_from_absent. unfold head.
    rewrite !has_char_append. cbn [has_char].
    rewrite Hstem, Hc', Hmiddle, Hslash. reflexivity. }
  assert (Hd : rfind "." (String.append head (String "." rest))
               = Z.of_nat (String.length head)).
  { unfold rfind. rewrite Upload.rfind_from_append.
    cbn [rfind_from Ascii.eqb Bool.eqb].
    rewrite Upload.rfind_from_absent by exact Hdot. lia. }
  unfold splitext. rewrite Hsep, Hd.
  replace (-1 <? Z.of_nat (String.length head))%Z with true
    by (symmetry; apply Z.ltb_lt; lia).
  unfold slice, slice_from. change (Z.to_nat (-1 + 1)) with 0.
  rewrite Z.sub_0_r, Nat2Z.id, substring_prefix.
  unfold head at 1. rewrite (has_non_dot_marker stem middle c Hc).
  cbn [andb snd].
  rewrite Upload.append_length.
  replace (String.length head + String.length (String "." rest) - String.length head)
    with (String.length (String "." rest)) by lia.
  rewrite <- (Nat.add_0_r (String.length head)) at 1.
  rewrite Upload.substring_append_shift. apply substring_zero_all.
Qed.

(** The extension of the generated name is the lower-cased extension that
    was put last, when that extension is a dot followed by characters other
    than dot and slash. *)
Lemma extension_of_joined_name (dir stem suffix rest : string) :
  has_char "/" stem = false -> has_char "/" suffix = false ->
  has_char "." rest = false -> has_char "/" rest = false ->
  get_file_extension
    (join dir (String.append stem
                 (String.append "_" (String.append suffix (String "." rest)))))
  = String "." (lower rest).
Proof.
  intros Hstem Hsuffix Hdot Hslash.
  set (name := String.append stem
                 (String.append "_" (String.append suffix (String "." rest)))).
  assert (Hname : has_char "/" name = false).
  { unfold name. rewrite !has_char_append. cbn [has_char].
    rewrite Hstem, Hsuffix, Hslash. reflexivity. }
  assert (Hext : snd (splitext (lower name)) = String "." (lower rest)).
  { unfold name. rewrite !Upload.lower_append.
    change (lower (String "." rest)) with (String "." (lower rest)).
    change (String.append (lower "_") ?x) with (String "_" x).
    apply splitext_marked; rewrite ?Upload.has_slash_lower, ?has_dot_lower;
      assumption || reflexivity. }
  unfold get_file_extension.
  destruct (join_shape dir name Hname) as [->|(d & ->)]; [exact Hext|].
  rewrite !Upload.lower_append. change (lower "/") with "/".
  rewrite Upload.splitext_below_directory by now rewrite Upload.has_slash_lower.
  exact Hext.
Qed.

Lemma stem_has_no_slash (p : string) :
  has_char "/" (fst (splitext (basename p))) = false.
Proof. apply has_char_splitext, basename_has_no_slash. Qed.

(** X24. [generate_output_filename] keeps the kind of the file.  For a
    path and a suffix made of ASCII characters (on which [lower] is
    [str.lower()]), the suffix free of slashes and both free of backslashes:
    the generated name has the extension of the original (so format
    detection classifies both alike) when the original has one and no new
    extension is given, and the lower-cased new extension when an ASCII one
    of the usual shape is given. *)
Theorem generate_output_filename_extension :
  forall (original_path suffix : string),
    is_ascii original_path = true ->
    is_ascii suffix = true ->
    has_char "/" suffix = false ->
    has_char backslash original_path = false ->
    has_char backslash suffix = false ->
    (get_file_extension original_path <> EmptyString ->
       get_file_extension (generate_output_filename original_path suffix None)
       = get_file_extension original_path
       /\ detect_file_format (generate_output_filename original_path suffix None)
          = detect_file_format original_path)
    /\ (forall new_extension,
          is_ascii new_extension = true ->
          new_extension <> EmptyString ->
          extension_shape new_extension ->
          has_char backslash new_extension = false ->
          get_file_extension
            (generate_output_filename original_path suffix (Some new_extension))
          = lower new_extension).
Proof.
  intros p suffix _ _ Hsuffix Hp Hbs.
  assert (Hgen : forall new_extension rest,
            match new_extension with
            | Some (String c e) => String c e
            | _ => snd (splitext p)
            end = String "." rest ->
            has_char "." rest = false -> has_char "/" rest = false ->
            has_char backslash rest = false ->
            get_file_extension (generate_output_filename p suffix new_extension)
            = String "." (lower rest)).
  { intros ne rest Hext Hdot Hslash Hrest. unfold generate_output_filename. cbv zeta.
    rewrite Hext. rewrite replace_backslashes_id.
    - apply extension_of_joined_name; try assumption. apply stem_has_no_slash.
    - apply join_has_no_backslash; [now apply dirname_keeps_absent|].
      rewrite !has_char_append. cbn [has_char].
      rewrite Hbs, Hrest.
      destruct (has_char_splitext backslash (basename p)) as [-> _]; [|reflexivity].
      unfold basename, slice_from. now apply has_char_substring_false. }
  split.
  - intros Hne.
    assert (Hsame : get_file_extension (generate_output_filename p suffix None)
                    = get_file_extension p).
    { assert (Hlow : get_file_extension p = lower (snd (splitext p))).
      { unfold get_file_extension. now rewrite splitext_lower. }
      destruct (splitext_spec p) as (_ & [Hempty|(rest & Hext & Hdot & Hslash)] & _).
      - exfalso. apply Hne. rewrite Hlow, Hempty. reflexivity.
      - rewrite Hlow, Hext. apply (Hgen None rest Hext Hdot Hslash).
        destruct (has_char_splitext backslash p Hp) as [_ Hb].
        rewrite Hext in Hb. cbn [has_char] in Hb.
        now apply orb_false_iff in Hb. }
    split; [exact Hsame|].
    now rewrite !detect_file_format_unfold, Hsame.
  - intros e _ Hne [Hempty|(rest & -> & Hdot & Hslash)] Hb; [contradiction|].
    cbn [has_char] in Hb. apply orb_false_iff in Hb. destruct Hb as [_ Hb].
    now apply (Hgen (Some (String "." rest)) rest).
Qed.

Lemma generate_output_filename_extension_witness :
  get_file_extension
    (generate_output_filename "/Volumes/c/s/v/Q3.Report.XLSX" "redacted" None)
  = get_file_extension "/Volumes/c/s/v/Q3.Report.XLSX"
  /\ get_file_extension
       (generate_output_filename "/Volumes/c/s/v/Q3.Report.XLSX" "redacted" (Some ".MD"))
     = ".md".
Proof.
  destruct (generate_output_filename_extension
              "/Volumes/c/s/v/Q3.Report.XLSX" "redacted"
              eq_refl eq_refl eq_refl eq_refl eq_refl) as [Hnone Hsome].
  split.
  - apply Hnone. discriminate.
  - apply (Hsome ".MD").
    + reflexivity.
    + discriminate.
    + right. exists "MD". repeat split; reflexivity.
    + reflexivity.
Defined.

End OutputNames.
